(** * Structural parser of the Java class analyzer

    A shallow embedding of [src/analyzer/JavaClassAnalyzer.ts]: the line
    scanner [parseJavapOutput], the declaration and method-signature
    extractors, the generic-aware parameter splitter and the subclass
    search, followed by the properties of the specification that concern
    them.

    Strings are Rocq strings.  A character stands for one code unit below
    256; the character classes of the regular expressions and of [trim]
    are the ECMAScript ones restricted to that range. *)

From Stdlib Require Import ZArith Ascii String Decimal DecimalString.
From stdpp Require Import gmap strings list fin_maps.

#[local] Arguments String.append !_ _ / : simpl nomatch.

(** ** ECMAScript string primitives used by the analyzer *)

Module JS.

Definition code (c : ascii) : nat := nat_of_ascii c.

Definition between (lo hi : nat) (c : ascii) : bool :=
  (lo <=? code c)%nat && (code c <=? hi)%nat.

(** LineTerminator: LF and CR (U+2028 and U+2029 lie above the range). *)
Definition isLineTerminator (c : ascii) : bool :=
  (code c =? 10)%nat || (code c =? 13)%nat.

(** WhiteSpace and LineTerminator, the class of [\s] and of [trim]:
    TAB, LF, VT, FF, CR, SP and NBSP. *)
Definition isSpace (c : ascii) : bool :=
  between 9 13 c || (code c =? 32)%nat || (code c =? 160)%nat.

(** [\d] *)
Definition isDigit (c : ascii) : bool := between 48 57 c.

Definition isLetter (c : ascii) : bool := between 65 90 c || between 97 122 c.

(** [\w] is [[A-Za-z0-9_]] *)
Definition isWord (c : ascii) : bool :=
  isLetter c || isDigit c || Ascii.eqb c "_"%char.

(** [[a-zA-Z_$]] *)
Definition isIdentStart (c : ascii) : bool :=
  isLetter c || Ascii.eqb c "_"%char || Ascii.eqb c "$"%char.

(** [[a-zA-Z0-9_$.]] *)
Definition isIdentPart (c : ascii) : bool :=
  isLetter c || isDigit c || Ascii.eqb c "_"%char || Ascii.eqb c "$"%char || Ascii.eqb c "."%char.

Definition isEmpty (s : string) : bool :=
  match s with EmptyString => true | String _ _ => false end.

(** A string used as a condition: the empty string is falsy. *)
Definition truthy (s : string) : bool := negb (isEmpty s).

Fixpoint startsWith (p s : string) : bool :=
  match p, s with
  | EmptyString, _ => true
  | String a p', String b s' => Ascii.eqb a b && startsWith p' s'
  | String _ _, EmptyString => false
  end.

(** [s.includes(c)] for a one-character needle *)
Fixpoint includes (c : ascii) (s : string) : bool :=
  match s with
  | EmptyString => false
  | String a s' => Ascii.eqb a c || includes c s'
  end.

Fixpoint skip (n : nat) (s : string) : string :=
  match n, s with
  | O, _ => s
  | S n', String _ s' => skip n' s'
  | S _, EmptyString => EmptyString
  end.

Fixpoint keep (n : nat) (s : string) : string :=
  match n, s with
  | O, _ => EmptyString
  | S n', String c s' => String c (keep n' s')
  | S _, EmptyString => EmptyString
  end.

(** [s.substring(a, b)]: both indices are clamped to the length and
    swapped when [a > b]. *)
Definition substring (a b : nat) (s : string) : string :=
  let lo := Nat.min a b in
  let hi := Nat.max a b in
  keep (hi - lo) (skip lo s).

(** [s.substring(a)] *)
Definition substringFrom (a : nat) (s : string) : string := skip a s.

(** [s.indexOf(c)]; [None] stands for -1. *)
Fixpoint indexOf (c : ascii) (s : string) : option nat :=
  match s with
  | EmptyString => None
  | String a s' =>
      if Ascii.eqb a c then Some O
      else match indexOf c s' with Some i => Some (S i) | None => None end
  end.

(** [s.indexOf(c, from)] *)
Definition indexOfFrom (c : ascii) (from : nat) (s : string) : option nat :=
  match indexOf c (skip from s) with
  | Some i => Some (from + i)
  | None => None
  end.

(** [s.lastIndexOf(c)] *)
Fixpoint lastIndexOf (c : ascii) (s : string) : option nat :=
  match s with
  | EmptyString => None
  | String a s' =>
      match lastIndexOf c s' with
      | Some i => Some (S i)
      | None => if Ascii.eqb a c then Some O else None
      end
  end.

Fixpoint trimStart (s : string) : string :=
  match s with
  | EmptyString => EmptyString
  | String c s' => if isSpace c then trimStart s' else s
  end.

Fixpoint trimEnd (s : string) : string :=
  match s with
  | EmptyString => EmptyString
  | String c s' =>
      match trimEnd s' with
      | EmptyString => if isSpace c then EmptyString else String c EmptyString
      | r => String c r
      end
  end.

Definition trim (s : string) : string := trimEnd (trimStart s).

(** [s.split(sep)] for a one-character separator; never the empty list. *)
Fixpoint split (sep : ascii) (s : string) : list string :=
  match s with
  | EmptyString => [EmptyString]
  | String c s' =>
      if Ascii.eqb c sep then EmptyString :: split sep s'
      else match split sep s' with
           | h :: t => String c h :: t
           | [] => [String c EmptyString]
           end
  end.

(** [parts.join(sep)] *)
Fixpoint join (sep : string) (parts : list string) : string :=
  match parts with
  | [] => EmptyString
  | [p] => p
  | p :: rest => p +:+ sep +:+ join sep rest
  end.

(** The longest prefix of [s] whose characters satisfy [p], and the rest:
    what a greedy [p+] or [p*] consumes when the character that follows
    cannot satisfy [p]. *)
Fixpoint span (p : ascii -> bool) (s : string) : string * string :=
  match s with
  | EmptyString => (EmptyString, EmptyString)
  | String c s' =>
      if p c then let '(a, b) := span p s' in (String c a, b)
      else (EmptyString, s)
  end.

Definition digitValue (c : ascii) : nat := code c - 48.

Fixpoint parseDigits (acc : nat) (s : string) : nat :=
  match s with
  | EmptyString => acc
  | String c s' => parseDigits (10 * acc + digitValue c) s'
  end.

(** [parseInt(s)] on a string of decimal digits, as the data-line pattern
    delivers it.  The value is exact here; the analyzer only compares it
    with an array length and uses it as a key when it is below that
    length, where the floating-point value of ECMAScript is exact too. *)
Definition parseInt (s : string) : nat := parseDigits 0 s.

(** Decimal rendering of a number in a template literal. *)
Definition numberToString (n : nat) : string :=
  NilZero.string_of_uint (Nat.to_uint n).

End JS.

(** ** Data model *)

Module ClassField.
Record t := mk { name : string; type : string; modifiers : list string }.
End ClassField.

Module ClassMethod.
Record t := mk {
  name : string;
  returnType : string;
  parameters : list string;
  modifiers : list string
}.

Definition withParameters (m : t) (ps : list string) : t :=
  {| name := name m; returnType := returnType m;
     parameters := ps; modifiers := modifiers m |}.
End ClassMethod.

Module ClassAnalysis.
Record t := mk {
  className : string;
  packageName : string;
  modifiers : list string;
  superClass : option string;
  interfaces : list string;
  fields : list ClassField.t;
  methods : list ClassMethod.t
}.

Definition withMethods (a : t) (ms : list ClassMethod.t) : t :=
  {| className := className a; packageName := packageName a;
     modifiers := modifiers a; superClass := superClass a;
     interfaces := interfaces a; fields := fields a; methods := ms |}.
End ClassAnalysis.

(** ** The regular expressions of the analyzer

    Each pattern is written out as the matcher it denotes.  Where a greedy
    repetition is followed by a character its class excludes, the
    repetition takes the whole run ([JS.span]) and giving characters back
    cannot help; the two places where it can are spelled out. *)

Module Regex.
Import JS.

Fixpoint firstSome {A B : Type} (f : A -> option B) (l : list A) : option B :=
  match l with
  | [] => None
  | x :: rest => match f x with Some y => Some y | None => firstSome f rest end
  end.

(** An unanchored pattern is tried at every start position, leftmost first. *)
Fixpoint search {A : Type} (matchAt : string -> option A) (s : string) : option A :=
  match matchAt s with
  | Some r => Some r
  | None =>
      match s with
      | EmptyString => None
      | String _ s' => search matchAt s'
      end
  end.

Definition isWordAt (c : option ascii) : bool :=
  match c with Some a => isWord a | None => false end.

(** [\b] between the characters [prev] and [next] *)
Definition wordBoundary (prev next : option ascii) : bool :=
  xorb (isWordAt prev) (isWordAt next).

Definition headChar (s : string) : option ascii :=
  match s with EmptyString => None | String c _ => Some c end.

Fixpoint lastChar (s : string) : option ascii :=
  match s with
  | EmptyString => None
  | String c EmptyString => Some c
  | String _ s' => lastChar s'
  end.

Definition classModifierWords : list string :=
  ["public"; "private"; "protected"; "static"; "final"; "abstract"; "strictfp"].

(** [/\b(public|private|protected|static|final|abstract|strictfp)\b/]
    tried at one position; [prev] is the character before it. *)
Definition matchModifierAt (prev : option ascii) (s : string) : option string :=
  if wordBoundary prev (headChar s) then
    List.find
      (fun w => startsWith w s &&
                wordBoundary (lastChar w) (headChar (skip (String.length w) s)))
      classModifierWords
  else None.

(** [line.match(/.../g)]: all matches from left to right, each search
    resuming where the previous match ended ([inside] counts the
    characters of that match still to pass). *)
Fixpoint scanModifiers (prev : option ascii) (inside : nat) (s : string) : list string :=
  match s with
  | EmptyString => []
  | String c s' =>
      match inside with
      | S k => scanModifiers (Some c) k s'
      | O =>
          match matchModifierAt prev s with
          | Some w => w :: scanModifiers (Some c) (String.length w - 1) s'
          | None => scanModifiers (Some c) 0 s'
          end
      end
  end.

Definition matchModifiers (line : string) : list string := scanModifiers None 0 line.

(** [\s+] in front of a pattern that starts with a non-space character *)
Definition afterSpaces (s : string) : option string :=
  let '(w, r) := span isSpace s in
  if isEmpty w then None else Some r.

(** The capturing group [(IDENT)], where IDENT abbreviates
    [[a-zA-Z_$][a-zA-Z0-9_$.]*] in the comments below. *)
Definition identifier (s : string) : option string :=
  match s with
  | EmptyString => None
  | String c _ => if isIdentStart c then Some (fst (span isIdentPart s)) else None
  end.

(** [(?:k1|k2|...)\s+(IDENT)] at one position *)
Definition keywordThenName (keywords : list string) (s : string) : option string :=
  firstSome
    (fun k =>
       if startsWith k s then
         match afterSpaces (skip (String.length k) s) with
         | Some r => identifier r
         | None => None
         end
       else None)
    keywords.

(** [/(?:public\s+)?(?:class|interface|enum)\s+(IDENT)/]
    at one position: the optional prefix is tried first, then skipped. *)
Definition matchClassNameAt (s : string) : option string :=
  let declaration := keywordThenName ["class"; "interface"; "enum"] in
  let withPrefix :=
    if startsWith "public" s then
      match afterSpaces (skip 6 s) with
      | Some r => declaration r
      | None => None
      end
    else None in
  match withPrefix with
  | Some n => Some n
  | None => declaration s
  end.

Definition matchClassName (line : string) : option string :=
  search matchClassNameAt line.

(** [/extends\s+(IDENT)/] *)
Definition matchExtends (line : string) : option string :=
  search (keywordThenName ["extends"]) line.

Definition notBrace (c : ascii) : bool := negb (Ascii.eqb c "{"%char).

(** [/implements\s+([^{]+)/] at one position.  The class of the group
    contains the spaces: when the run of spaces is followed by an opening
    brace or by the end, the run gives its last character to the group. *)
Definition matchImplementsAt (s : string) : option string :=
  if startsWith "implements" s then
    let '(w, r) := span isSpace (skip 10 s) in
    if isEmpty w then None
    else
      let '(g, _) := span notBrace r in
      if isEmpty g then
        match lastChar w with
        | Some c =>
            if (2 <=? String.length w)%nat && notBrace c
            then Some (String c EmptyString) else None
        | None => None
        end
      else Some g
  else None.

Definition matchImplements (line : string) : option string :=
  search matchImplementsAt line.

Definition notLineTerminator (c : ascii) : bool := negb (isLineTerminator c).

(** The longest suffix of [w] without line terminator that is not all of
    [w]: what [(.+)$] can take back from the run of spaces [w]. *)
Fixpoint dotSuffix (w : string) : string :=
  match w with
  | EmptyString => EmptyString
  | String _ w' =>
      let '(g, r) := span notLineTerminator w' in
      if isEmpty r then w' else dotSuffix w'
  end.

(** [/^\s*\d+\s+\d+\s+(\d+)\s+(\w+)\s+(.+)$/]: the three groups. *)
Definition matchParamLine (s : string) : option (string * string * string) :=
  let '(_, s1) := span isSpace s in
  let '(d1, s2) := span isDigit s1 in
  if isEmpty d1 then None else
  let '(w1, s3) := span isSpace s2 in
  if isEmpty w1 then None else
  let '(d2, s4) := span isDigit s3 in
  if isEmpty d2 then None else
  let '(w2, s5) := span isSpace s4 in
  if isEmpty w2 then None else
  let '(slot, s6) := span isDigit s5 in
  if isEmpty slot then None else
  let '(w3, s7) := span isSpace s6 in
  if isEmpty w3 then None else
  let '(name, s8) := span isWord s7 in
  if isEmpty name then None else
  let '(w4, s9) := span isSpace s8 in
  if isEmpty w4 then None else
  let '(g, r) := span notLineTerminator s9 in
  if isEmpty r then
    let type := if isEmpty s9 then dotSuffix w4 else s9 in
    if isEmpty type then None else Some (slot, name, type)
  else None.

End Regex.

(** ** Declaration and method-signature extraction *)

(** [parseClassDeclaration(line, analysis)]: the analysis is updated in
    place by the source; here the updated record is returned. *)
Definition parseClassDeclaration (line : string) (analysis : ClassAnalysis.t)
  : ClassAnalysis.t :=
  let modifiers := Regex.matchModifiers line in
  let '(packageName, className) :=
    match Regex.matchClassName line with
    | Some fullClassName =>
        let parts := JS.split "."%char fullClassName in
        if (1 <? length parts)%nat
        then (JS.join "." (removelast parts), List.last parts EmptyString)
        else (ClassAnalysis.packageName analysis, ClassAnalysis.className analysis)
    | None => (ClassAnalysis.packageName analysis, ClassAnalysis.className analysis)
    end in
  let superClass :=
    match Regex.matchExtends line with
    | Some n => Some n
    | None => ClassAnalysis.superClass analysis
    end in
  let interfaces :=
    match Regex.matchImplements line with
    | Some l => List.filter JS.truthy (map JS.trim (JS.split ","%char l))
    | None => ClassAnalysis.interfaces analysis
    end in
  {| ClassAnalysis.className := className;
     ClassAnalysis.packageName := packageName;
     ClassAnalysis.modifiers := modifiers;
     ClassAnalysis.superClass := superClass;
     ClassAnalysis.interfaces := interfaces;
     ClassAnalysis.fields := ClassAnalysis.fields analysis;
     ClassAnalysis.methods := ClassAnalysis.methods analysis |}.

(** The loop of [splitParameters] over the characters still to read, with
    its three variables. *)
Fixpoint splitParametersLoop (rest : string) (params : list string)
    (current : string) (angleBracketCount : Z) : list string :=
  match rest with
  | EmptyString =>
      if JS.truthy (JS.trim current) then params ++ [JS.trim current] else params
  | String char rest' =>
      if Ascii.eqb char "<"%char then
        splitParametersLoop rest' params (current +:+ String char EmptyString)
          (angleBracketCount + 1)
      else if Ascii.eqb char ">"%char then
        splitParametersLoop rest' params (current +:+ String char EmptyString)
          (angleBracketCount - 1)
      else if Ascii.eqb char ","%char && (angleBracketCount =? 0)%Z then
        splitParametersLoop rest' (params ++ [JS.trim current]) EmptyString
          angleBracketCount
      else
        splitParametersLoop rest' params (current +:+ String char EmptyString)
          angleBracketCount
  end.

Definition splitParameters (paramsStr : string) : list string :=
  splitParametersLoop paramsStr [] EmptyString 0.

(** The parameters of a signature from the text between its parentheses
    (the last block of [parseMethodFromJavap]). *)
Definition collectParameters (rawParams : string) : list string :=
  let paramsStr := JS.trim rawParams in
  if JS.truthy paramsStr
  then List.filter JS.truthy (map JS.trim (splitParameters paramsStr))
  else [].

Definition modifierWords : list string :=
  ["public"; "private"; "protected"; "static"; "final"; "abstract";
   "synchronized"; "native"].

(** The inner [for] loop: the first modifier word that, followed by a
    space, starts the remaining line. *)
Definition findModifier (remainingLine : string) : option string :=
  List.find (fun modifier => JS.startsWith (modifier +:+ " ") remainingLine)
    modifierWords.

(** The [while (true)] loop that strips the leading modifiers.  Each round
    removes at least one character, so [fuel] rounds suffice when [fuel]
    exceeds the length of the line (lemma [stripModifiers_exits]). *)
Fixpoint stripModifiers (fuel : nat) (modifiers : list string)
    (remainingLine : string) (startIndex : nat) : list string * string * nat :=
  match fuel with
  | O => (modifiers, remainingLine, startIndex)
  | S fuel' =>
      match findModifier remainingLine with
      | Some modifier =>
          stripModifiers fuel' (modifiers ++ [modifier])
            (JS.substringFrom (String.length modifier + 1) remainingLine)
            (startIndex + (String.length modifier + 1))
      | None => (modifiers, remainingLine, startIndex)
      end
  end.

(** [parseMethodFromJavap(line)]; [None] is the source's [null]. *)
Definition parseMethodFromJavap (line : string) : option ClassMethod.t :=
  let trimmedLine := JS.trim line in
  let '(modifiers, _, startIndex) :=
    stripModifiers (S (String.length trimmedLine)) [] trimmedLine 0 in
  match JS.indexOf "("%char trimmedLine with
  | None => None
  | Some parenIndex =>
      match JS.indexOfFrom ")"%char parenIndex trimmedLine with
      | None => None
      | Some closeParenIndex =>
          let beforeParen := JS.trim (JS.substring startIndex parenIndex trimmedLine) in
          match JS.lastIndexOf " "%char beforeParen with
          | None => None
          | Some lastSpaceIndex =>
              let returnType := JS.trim (JS.substring 0 lastSpaceIndex beforeParen) in
              let methodName := JS.trim (JS.substringFrom (lastSpaceIndex + 1) beforeParen) in
              let parameters :=
                collectParameters (JS.substring (parenIndex + 1) closeParenIndex trimmedLine) in
              Some {| ClassMethod.name := methodName;
                      ClassMethod.returnType := returnType;
                      ClassMethod.parameters := parameters;
                      ClassMethod.modifiers := modifiers |}
          end
      end
  end.

(** ** The line scanner *)

(** The variables of the loop of [parseJavapOutput].  [currentMethod] is a
    reference to a method object that was pushed to [analysis.methods];
    it is modelled by the index of that object in the array, so that a
    write through the reference is a write to the array element. *)
Record ParserState := mkState {
  analysis : ClassAnalysis.t;
  currentMethod : option nat;
  inLocalVariableTable : bool;
  methodParameters : gmap nat string
}.

Definition initialAnalysis (className : string) : ClassAnalysis.t :=
  let simpleName := List.last (JS.split "."%char className) EmptyString in
  {| ClassAnalysis.className := if JS.truthy simpleName then simpleName else className;
     ClassAnalysis.packageName := EmptyString;
     ClassAnalysis.modifiers := [];
     ClassAnalysis.superClass := None;
     ClassAnalysis.interfaces := [];
     ClassAnalysis.fields := [];
     ClassAnalysis.methods := [] |}.

Definition initialState (className : string) : ParserState :=
  {| analysis := initialAnalysis className;
     currentMethod := None;
     inLocalVariableTable := false;
     methodParameters := ∅ |}.

Definition isClassDeclarationLine (trimmedLine : string) : bool :=
  JS.startsWith "public class" trimmedLine ||
  JS.startsWith "public interface" trimmedLine ||
  JS.startsWith "public enum" trimmedLine.

Definition isMethodLine (trimmedLine : string) : bool :=
  JS.startsWith "public " trimmedLine &&
  JS.includes "("%char trimmedLine && JS.includes ")"%char trimmedLine.

(** [methodParameters[j] || `param${j + 1}`] *)
Definition parameterName (names : gmap nat string) (j : nat) : string :=
  match names !! j with
  | Some n => if JS.truthy n then n else "param" +:+ JS.numberToString (j + 1)
  | None => "param" +:+ JS.numberToString (j + 1)
  end.

(** The array [updatedParams] built by the inner loop: one descriptor
    [`${paramType} ${paramName}`] per parameter. *)
Definition updatedParams (names : gmap nat string) (parameters : list string)
  : list string :=
  imap (fun j paramType => paramType +:+ " " +:+ parameterName names j) parameters.

(** The block that rewrites the parameters of the current method, guarded
    by [Object.keys(methodParameters).length > 0]; it occurs twice in the
    source, with the same text. *)
Definition updateParameterNames (names : gmap nat string) (cur : nat)
    (a : ClassAnalysis.t) : ClassAnalysis.t :=
  if (0 <? size names)%nat then
    ClassAnalysis.withMethods a
      (alter (fun m => ClassMethod.withParameters m
                         (updatedParams names (ClassMethod.parameters m)))
         cur (ClassAnalysis.methods a))
  else a.

(** [currentMethod.parameters.length] *)
Definition parameterCount (a : ClassAnalysis.t) (cur : nat) : nat :=
  match ClassAnalysis.methods a !! cur with
  | Some m => length (ClassMethod.parameters m)
  | None => 0
  end.

(** The data line of a variable table: the name is recorded under its
    slot when the slot is below the parameter count. *)
Definition recordParameterName (trimmedLine : string) (cur : nat)
    (st : ParserState) : ParserState :=
  match Regex.matchParamLine trimmedLine with
  | Some (slotText, paramName, _) =>
      let slot := JS.parseInt slotText in
      if (0 <=? slot)%nat && (slot <? parameterCount (analysis st) cur)%nat then
        {| analysis := analysis st;
           currentMethod := currentMethod st;
           inLocalVariableTable := inLocalVariableTable st;
           methodParameters := <[slot := paramName]> (methodParameters st) |}
      else st
  | None => st
  end.

(** The last block of the loop body: the end of the current method. *)
Definition endOfMethod (trimmedLine : string) (st : ParserState) : ParserState :=
  match currentMethod st with
  | Some cur =>
      if isMethodLine trimmedLine || JS.startsWith "}" trimmedLine ||
         JS.startsWith "SourceFile:" trimmedLine
      then
        {| analysis := updateParameterNames (methodParameters st) cur (analysis st);
           currentMethod := None;
           inLocalVariableTable := false;
           methodParameters := ∅ |}
      else st
  | None => st
  end.

(** One round of the loop of [parseJavapOutput]; every [continue] of the
    source is a branch that does not reach [endOfMethod]. *)
Definition processLine (st : ParserState) (line : string) : ParserState :=
  let trimmedLine := JS.trim line in
  if isClassDeclarationLine trimmedLine then
    {| analysis := parseClassDeclaration trimmedLine (analysis st);
       currentMethod := currentMethod st;
       inLocalVariableTable := inLocalVariableTable st;
       methodParameters := methodParameters st |}
  else if isMethodLine trimmedLine then
    match parseMethodFromJavap trimmedLine with
    | Some m =>
        {| analysis :=
             ClassAnalysis.withMethods (analysis st)
               (ClassAnalysis.methods (analysis st) ++ [m]);
           currentMethod := Some (length (ClassAnalysis.methods (analysis st)));
           inLocalVariableTable := inLocalVariableTable st;
           methodParameters := ∅ |}
    | None =>
        {| analysis := analysis st;
           currentMethod := None;
           inLocalVariableTable := inLocalVariableTable st;
           methodParameters := methodParameters st |}
    end
  else if String.eqb trimmedLine "LocalVariableTable:" then
    {| analysis := analysis st;
       currentMethod := currentMethod st;
       inLocalVariableTable := true;
       methodParameters := methodParameters st |}
  else
    match (if inLocalVariableTable st then currentMethod st else None) with
    | Some cur =>
        if JS.startsWith "Start" trimmedLine || JS.startsWith "Slot" trimmedLine then st
        else if String.eqb trimmedLine "" then
          {| analysis := updateParameterNames (methodParameters st) cur (analysis st);
             currentMethod := currentMethod st;
             inLocalVariableTable := false;
             methodParameters := ∅ |}
        else endOfMethod trimmedLine (recordParameterName trimmedLine cur st)
    | None => endOfMethod trimmedLine st
    end.

Definition scanLines (st : ParserState) (lines : list string) : ParserState :=
  fold_left processLine lines st.

(** [parseJavapOutput(output, className)] *)
Definition parseJavapOutput (output className : string) : ClassAnalysis.t :=
  analysis (scanLines (initialState className) (JS.split "010"%char output)).

(** ** Class analysis and subclass search

    The scanner and the [javap] process are outside the analyzer.  They are
    operations on an abstract world [W]; each returns a value or throws.
    The messages of the errors, which no caller reads, are abridged. *)

Inductive outcome (A : Type) : Type :=
| Returned (a : A)
| Thrown (message : string).
Arguments Returned {A} a.
Arguments Thrown {A} message.

Section Search.

Variable W : Type.

(** [scanner.findJarForClass(className, projectPath)]; [None] is [null]. *)
Variable findJarForClass : string -> string -> W -> outcome (option string) * W.

(** [scanner.getAllClassNames(projectPath)] *)
Variable getAllClassNames : string -> W -> outcome (list string) * W.

(** The [javap -v -cp jarPath className] process of
    [analyzeClassWithJavap]: its standard output, or its failure. *)
Variable runJavap : string -> string -> W -> outcome string * W.

Definition analyzeClassWithJavap (jarPath className : string) (w : W)
  : outcome ClassAnalysis.t * W :=
  match runJavap jarPath className w with
  | (Returned stdout, w') => (Returned (parseJavapOutput stdout className), w')
  | (Thrown e, w') => (Thrown ("javap: " +:+ e), w')
  end.

(** [analyzeClass(className, projectPath)]; the test [!jarPath] holds for
    [null] and for the empty string. *)
Definition analyzeClass (className projectPath : string) (w : W)
  : outcome ClassAnalysis.t * W :=
  match findJarForClass className projectPath w with
  | (Returned (Some jarPath), w') =>
      if JS.truthy jarPath then analyzeClassWithJavap jarPath className w'
      else (Thrown ("no JAR for " +:+ className), w')
  | (Returned None, w') => (Thrown ("no JAR for " +:+ className), w')
  | (Thrown e, w') => (Thrown e, w')
  end.

(** [analysis.superClass === className] *)
Definition hasSuperClass (className : string) (a : ClassAnalysis.t) : bool :=
  match ClassAnalysis.superClass a with
  | Some s => String.eqb s className
  | None => false
  end.

(** The loop of [findSubClasses] with its [try]/[catch]. *)
Fixpoint findSubClassesLoop (className projectPath : string)
    (allClasses : list string) (subClasses : list string) (w : W)
  : list string * W :=
  match allClasses with
  | [] => (subClasses, w)
  | cls :: rest =>
      match analyzeClass cls projectPath w with
      | (Returned a, w') =>
          findSubClassesLoop className projectPath rest
            (if hasSuperClass className a then subClasses ++ [cls] else subClasses) w'
      | (Thrown _, w') =>
          findSubClassesLoop className projectPath rest subClasses w'
      end
  end.

Definition findSubClasses (className projectPath : string) (w : W)
  : outcome (list string) * W :=
  match getAllClassNames projectPath w with
  | (Returned allClasses, w') =>
      let '(subClasses, w'') :=
        findSubClassesLoop className projectPath allClasses [] w' in
      (Returned subClasses, w'')
  | (Thrown e, w') => (Thrown e, w')
  end.

End Search.

Definition nl : string := String "010"%char EmptyString.

(** ** Notions of the specification *)

(** *** Parameter splitting, by positions

    A comma splits when as many [<] as [>] precede it; the fragments are
    the pieces of the string between the commas that split. *)

Fixpoint countChar (c : ascii) (s : string) : nat :=
  match s with
  | EmptyString => 0
  | String a s' => (if Ascii.eqb a c then 1 else 0) + countChar c s'
  end.

(** The nesting counter after the characters of [prefix]. *)
Definition nesting (prefix : string) : Z :=
  Z.of_nat (countChar "<"%char prefix) - Z.of_nat (countChar ">"%char prefix).

Definition isTopLevelComma (s : string) (i : nat) : bool :=
  match String.get i s with
  | Some c => Ascii.eqb c ","%char && (nesting (JS.keep i s) =? 0)%Z
  | None => false
  end.

Definition topLevelCommas (s : string) : list bool :=
  map (isTopLevelComma s) (seq 0 (String.length s)).

(** The pieces of [s] between its marked characters. *)
Fixpoint cutAt (marks : list bool) (s : string) {struct s} : list string :=
  match s, marks with
  | EmptyString, _ => [EmptyString]
  | String c s', true :: marks' => EmptyString :: cutAt marks' s'
  | String c s', false :: marks' =>
      match cutAt marks' s' with
      | h :: t => String c h :: t
      | [] => [String c EmptyString]
      end
  | String _ _, [] => [s]
  end.

(** The marks of the characters of [s] when [s] follows [p]. *)
Definition commasAfter (p s : string) : list bool :=
  map (fun i => isTopLevelComma (p +:+ s) (String.length p + i))
      (seq 0 (String.length s)).

(** What [splitParameters] pushes for a list of raw pieces: every piece
    but the last is pushed trimmed, the last one only if it is not blank. *)
Definition pushed (pieces : list string) : list string :=
  map JS.trim (removelast pieces) ++
  (if JS.truthy (JS.trim (List.last pieces EmptyString))
   then [JS.trim (List.last pieces EmptyString)] else []).

Definition prependTo (current : string) (pieces : list string) : list string :=
  match pieces with
  | h :: t => (current +:+ h) :: t
  | [] => [current]
  end.

Definition fragments (s : string) : list string := cutAt (topLevelCommas s) s.

(** *** Methods and their signatures *)

(** The trimmed lines on which the scanner runs the method-signature
    extraction: method lines that are no class declaration lines. *)
Definition signatureLines (lines : list string) : list string :=
  List.filter (fun t => negb (isClassDeclarationLine t) && isMethodLine t)
    (map JS.trim lines).

(** The methods as their signature lines declare them, parameters bare. *)
Definition declaredMethods (lines : list string) : list ClassMethod.t :=
  omap parseMethodFromJavap (signatureLines lines).

(** A parameter descriptor with a name: a type, a space, a name. *)
Definition namedDescriptor (p : string) : Prop :=
  exists type name : string, p = type +:+ " " +:+ name /\ name <> EmptyString.

(** The parameters of a method whose signature declares [bare]: the bare
    ones, or the result of rewriting all of them together, once for each
    reconciliation that found a non-empty name map. *)
Inductive bareOrRewritten (bare : list string) : list string -> Prop :=
| parameters_bare : bareOrRewritten bare bare
| parameters_rewritten (names : gmap nat string) (prev : list string) :
    bareOrRewritten bare prev ->
    0 < size names ->
    bareOrRewritten bare (updatedParams names prev).

(** [m] is the method declared as [m0], up to a rewriting of its parameters. *)
Definition follows (m0 m : ClassMethod.t) : Prop :=
  ClassMethod.name m = ClassMethod.name m0 /\
  ClassMethod.returnType m = ClassMethod.returnType m0 /\
  ClassMethod.modifiers m = ClassMethod.modifiers m0 /\
  bareOrRewritten (ClassMethod.parameters m0) (ClassMethod.parameters m).

(** A disassembly text from its lines. *)
Definition text (lines : list string) : string := JS.join nl lines.

(** The declaration part of an analysis. *)
Definition declaration (a : ClassAnalysis.t)
  : string * string * list string * option string * list string :=
  (ClassAnalysis.className a, ClassAnalysis.packageName a,
   ClassAnalysis.modifiers a, ClassAnalysis.superClass a,
   ClassAnalysis.interfaces a).

(** The text of a signature line between its leading modifiers and its
    first opening parenthesis, before it is trimmed ([beforeParen]). *)
Definition signatureHead (trimmedLine : string) : option string :=
  let '(_, _, startIndex) :=
    stripModifiers (S (String.length trimmedLine)) [] trimmedLine 0 in
  match JS.indexOf "("%char trimmedLine with
  | Some parenIndex => Some (JS.substring startIndex parenIndex trimmedLine)
  | None => None
  end.


Definition headIsNoDigit (p : string) : bool :=
  match p with
  | EmptyString => false
  | String a _ => negb (JS.isDigit a)
  end.

(** *** Modifier tokens *)

(** The words of a line: its maximal runs of word characters, in order. *)
Fixpoint tokens (s : string) : list string :=
  match s with
  | EmptyString => []
  | String c s' =>
      if JS.isWord c then
        match s' with
        | EmptyString => [String c EmptyString]
        | String d _ =>
            if JS.isWord d then
              match tokens s' with
              | h :: t => String c h :: t
              | [] => [String c EmptyString]
              end
            else String c EmptyString :: tokens s'
        end
      else tokens s'
  end.

Definition isClassModifier (w : string) : bool :=
  existsb (String.eqb w) Regex.classModifierWords.

Definition isMethodModifier (w : string) : bool :=
  existsb (String.eqb w) modifierWords.

Fixpoint allWord (w : string) : bool :=
  match w with
  | EmptyString => true
  | String c w' => JS.isWord c && allWord w'
  end.

(** The text made of the given words, each followed by a space. *)
Fixpoint modifierPrefix (words : list string) : string :=
  match words with
  | [] => EmptyString
  | w :: rest => w +:+ " " +:+ modifierPrefix rest
  end.

(** *** The analyses of a subclass search *)

Section Attempts.

Variable W : Type.
Variable findJarForClass : string -> string -> W -> outcome (option string) * W.
Variable runJavap : string -> string -> W -> outcome string * W.

(** The analysis of one candidate.  It succeeds when the scanner gives a
    JAR path that is not empty and the disassembler returns a text, with
    the parse of that text; it fails when the scanner fails, when it
    gives no path or an empty one, and when the disassembler fails. *)
Inductive analyzed (cls projectPath : string) (w : W)
  : outcome ClassAnalysis.t -> W -> Prop :=
| analyzed_parsed jarPath w1 stdout w2 :
    findJarForClass cls projectPath w = (Returned (Some jarPath), w1) ->
    jarPath <> EmptyString ->
    runJavap jarPath cls w1 = (Returned stdout, w2) ->
    analyzed cls projectPath w (Returned (parseJavapOutput stdout cls)) w2
| analyzed_javap_failed jarPath w1 e w2 m :
    findJarForClass cls projectPath w = (Returned (Some jarPath), w1) ->
    jarPath <> EmptyString ->
    runJavap jarPath cls w1 = (Thrown e, w2) ->
    analyzed cls projectPath w (Thrown m) w2
| analyzed_no_jar found w1 m :
    findJarForClass cls projectPath w = (Returned found, w1) ->
    found = None \/ found = Some EmptyString ->
    analyzed cls projectPath w (Thrown m) w1
| analyzed_lookup_failed e w1 :
    findJarForClass cls projectPath w = (Thrown e, w1) ->
    analyzed cls projectPath w (Thrown e) w1.

(** The analyses a scan performs, one after the other: each candidate
    with the outcome of its analysis in the world it was reached in. *)
Inductive attempts (projectPath : string)
  : list string -> W -> list (string * outcome ClassAnalysis.t) -> W -> Prop :=
| attempts_done w : attempts projectPath [] w [] w
| attempts_next cls rest w r w' trace w'' :
    analyzed cls projectPath w r w' ->
    attempts projectPath rest w' trace w'' ->
    attempts projectPath (cls :: rest) w ((cls, r) :: trace) w''.

End Attempts.

(** *** The candidates that a subclass search keeps

    A candidate is kept when its analysis succeeded and the superclass
    name of the analysis equals the target class name. *)
Definition isSubClassAttempt (className : string)
    (x : string * outcome ClassAnalysis.t) : bool :=
  match snd x with
  | Returned a => bool_decide (ClassAnalysis.superClass a = Some className)
  | Thrown _ => false
  end.

(** *** A scan over a universe of six classes, three of which fail *)

Definition exampleClassNames (projectPath : string) (calls : nat)
  : outcome (list string) * nat :=
  (Returned ["p.A"; "p.Broken"; "p.Missing"; "p.B"; "p.Slow"; "p.D"], S calls).

Definition exampleJars (className projectPath : string) (calls : nat)
  : outcome (option string) * nat :=
  if String.eqb className "p.Broken" then (Thrown "index unreadable", S calls)
  else if String.eqb className "p.Missing" then (Returned None, S calls)
  else (Returned (Some "lib.jar"), S calls).

Definition exampleJavap (jarPath className : string) (calls : nat)
  : outcome string * nat :=
  if String.eqb className "p.Slow" then (Thrown "timeout", S calls)
  else if String.eqb className "p.B"
  then (Returned (text ["public class p.B extends p.Other {"; "}"]), S calls)
  else (Returned (text ["public class " +:+ className +:+ " extends p.Base {"; "}"]),
        S calls).

(** *** Characters of a string *)

(** Some character of [s] satisfies [p]. *)
Fixpoint anyChar (p : ascii -> bool) (s : string) : bool :=
  match s with
  | EmptyString => false
  | String c s' => p c || anyChar p s'
  end.

Definition notSpace (c : ascii) : bool := negb (JS.isSpace c).

(** A trimmed line on which the scanner runs the method extraction. *)
Definition isSignatureLine (trimmedLine : string) : bool :=
  negb (isClassDeclarationLine trimmedLine) && isMethodLine trimmedLine.

(** *** The lines of a variable table *)

(** The slot and the name that a data line gives. *)
Definition tableEntry (line : string) : option (nat * string) :=
  match Regex.matchParamLine (JS.trim line) with
  | Some (slotText, paramName, _) => Some (JS.parseInt slotText, paramName)
  | None => None
  end.

(** A line of column labels. *)
Definition isTableHeader (line : string) : bool :=
  JS.startsWith "Start" (JS.trim line) || JS.startsWith "Slot" (JS.trim line).

(** The pending names after the given entries, for a method with [count]
    parameters. *)
Definition recordEntries (count : nat) (names : gmap nat string)
    (entries : list (nat * string)) : gmap nat string :=
  fold_left
    (fun pending e => if (fst e <? count)%nat then <[fst e := snd e]> pending else pending)
    entries names.

Definition withNames (st : ParserState) (names : gmap nat string) : ParserState :=
  {| analysis := analysis st;
     currentMethod := currentMethod st;
     inLocalVariableTable := inLocalVariableTable st;
     methodParameters := names |}.

(** Every character of [s] satisfies [p]. *)
Fixpoint allChar (p : ascii -> bool) (s : string) : bool :=
  match s with
  | EmptyString => true
  | String c s' => p c && allChar p s'
  end.

(** The superclass and the interfaces of an analysis are well formed. *)
Definition wellFormedDeclaration (a : ClassAnalysis.t) : Prop :=
  (forall s, ClassAnalysis.superClass a = Some s ->
             s <> EmptyString /\ allChar JS.isIdentPart s = true) /\
  Forall (fun i => i <> EmptyString /\ JS.trim i = i /\
                   JS.includes ","%char i = false /\ JS.includes "{"%char i = false)
    (ClassAnalysis.interfaces a).

(** ** The inheritance hierarchy *)

Section Hierarchy.

Variable W : Type.
Variable findJarForClass : string -> string -> W -> outcome (option string) * W.
Variable runJavap : string -> string -> W -> outcome string * W.

(** [getInheritanceHierarchy(className, projectPath)].  The recursion of
    the source follows the superclasses as far as they go; [fuel] bounds
    its depth and [None] says that the bound was reached.  A failure of
    the recursive call is caught and the superclass is recorded by name. *)
Fixpoint getInheritanceHierarchy (fuel : nat) (className projectPath : string) (w : W)
  : option (outcome (list string) * W) :=
  match fuel with
  | O => None
  | S fuel' =>
      match analyzeClass W findJarForClass runJavap className projectPath w with
      | (Thrown e, w') => Some (Thrown e, w')
      | (Returned analysis, w') =>
          match ClassAnalysis.superClass analysis with
          | Some superClass =>
              if JS.truthy superClass then
                match getInheritanceHierarchy fuel' superClass projectPath w' with
                | None => None
                | Some (Returned superHierarchy, w'') =>
                    Some (Returned (superHierarchy ++ [className]), w'')
                | Some (Thrown _, w'') =>
                    Some (Returned [superClass; className], w'')
                end
              else Some (Returned [className], w')
          | None => Some (Returned [className], w')
          end
      end
  end.

(** The superclass that the hierarchy follows from an analysis. *)
Definition parentOf (a : ClassAnalysis.t) : option string :=
  match ClassAnalysis.superClass a with
  | Some s => if JS.truthy s then Some s else None
  | None => None
  end.

(** The ascent from a class: its own analysis returns; the ascent stops at
    a class without superclass, or at a superclass whose analysis fails. *)
Inductive ascent (projectPath : string) : string -> W -> list string -> W -> Prop :=
| ascent_top c w a w' :
    analyzeClass W findJarForClass runJavap c projectPath w = (Returned a, w') ->
    parentOf a = None ->
    ascent projectPath c w [c] w'
| ascent_unresolved c w a w' s e w'' :
    analyzeClass W findJarForClass runJavap c projectPath w = (Returned a, w') ->
    parentOf a = Some s ->
    analyzeClass W findJarForClass runJavap s projectPath w' = (Thrown e, w'') ->
    ascent projectPath c w [s; c] w''
| ascent_up c w a w' s h w'' :
    analyzeClass W findJarForClass runJavap c projectPath w = (Returned a, w') ->
    parentOf a = Some s ->
    ascent projectPath s w' h w'' ->
    ascent projectPath c w (h ++ [c]) w''.

End Hierarchy.

(** *** Three classes in a chain, below a class that is not in the project *)

Definition chainJavap (jarPath className : string) (calls : nat)
  : outcome string * nat :=
  if String.eqb className "p.C"
  then (Returned (text ["public class p.C extends p.B {"; "}"]), S calls)
  else if String.eqb className "p.B"
  then (Returned (text ["public class p.B extends p.A {"; "}"]), S calls)
  else if String.eqb className "p.A"
  then (Returned (text ["public class p.A extends java.lang.Object {"; "}"]), S calls)
  else (Thrown "class not found", S calls).

Definition chainRank (className : string) : nat :=
  if String.eqb className "p.C" then 3
  else if String.eqb className "p.B" then 2
  else if String.eqb className "p.A" then 1
  else 0.

(** ** The dependency scanner and its class index *)

(** Further string primitives, with the same conventions as [JS]. *)
Module JSText.

(** [s.replace(/c/g, d)] for one character [c] and one character [d] *)
Fixpoint replaceChar (c d : ascii) (s : string) : string :=
  match s with
  | EmptyString => EmptyString
  | String a s' => String (if Ascii.eqb a c then d else a) (replaceChar c d s')
  end.

(** [s.endsWith(suffix)] *)
Definition endsWith (suffix s : string) : bool :=
  (String.length suffix <=? String.length s)%nat &&
  String.eqb (JS.skip (String.length s - String.length suffix) s) suffix.

(** [s.replace(/\.class$/, '')]: the suffix is removed when [s] ends with it. *)
Definition removeClassSuffix (s : string) : string :=
  if endsWith ".class" s then JS.keep (String.length s - 6) s else s.

End JSText.

Module ClassIndexEntry.
Record t := mk {
  className : string;
  jarPath : string;
  packageName : string;
  simpleName : string
}.
End ClassIndexEntry.

Module ScanResult.
Record t := mk {
  jarCount : nat;
  classCount : nat;
  indexPath : string;
  sampleEntries : list string
}.
End ScanResult.

(** The content of the index file [.mcp-class-index.json] as [scanProject]
    writes it. *)
Module IndexFile.
Record t := mk {
  jarCount : nat;
  classCount : nat;
  indexPath : string;
  sampleEntries : list string;
  classIndex : list ClassIndexEntry.t;
  lastUpdated : string
}.
End IndexFile.

(** The handler of the [entry] event in [extractClassesFromJar]: the index
    entry for one file of a JAR, if the file is a class file outside any
    inner class. *)
Definition indexEntry (jarPath fileName : string) : option ClassIndexEntry.t :=
  if JSText.endsWith ".class" fileName && negb (JS.includes "$"%char fileName) then
    let className :=
      JSText.replaceChar "/"%char "."%char (JSText.removeClassSuffix fileName) in
    let lastDotIndex := JS.lastIndexOf "."%char className in
    let positive :=
      match lastDotIndex with Some i => (0 <? i)%nat | None => false end in
    let packageName :=
      match lastDotIndex with
      | Some i => if positive then JS.substring 0 i className else EmptyString
      | None => EmptyString
      end in
    let simpleName :=
      match lastDotIndex with
      | Some i => if positive then JS.substringFrom (i + 1) className else className
      | None => className
      end in
    Some {| ClassIndexEntry.className := className;
            ClassIndexEntry.jarPath := jarPath;
            ClassIndexEntry.packageName := packageName;
            ClassIndexEntry.simpleName := simpleName |}
  else None.

(** The name of the file that [extractClassFile] of the decompiler looks
    for in the JAR: [className.replace(/\./g, '/') + '.class']. *)
Definition classFileName (className : string) : string :=
  JSText.replaceChar "."%char "/"%char className +:+ ".class".

(** The first element that satisfies [p], as [Array.prototype.find]. *)
Definition findEntry (className : string) (classIndex : list ClassIndexEntry.t)
  : option ClassIndexEntry.t :=
  List.find (fun entry => String.eqb (ClassIndexEntry.className entry) className)
    classIndex.

Section Scanner.

(** [path.join] and [path.basename] of the platform. *)
Variable pathJoin : list string -> string.
Variable basename : string -> string.

(** What lies outside the index files: the Maven run, the archives, the
    clock. *)
Variable E : Type.

(** [getMavenDependencies(projectPath)]: the JAR paths of the project, or
    the failure of the fallback scan of the local repository. *)
Variable getMavenDependencies : string -> E -> outcome (list string) * E.

(** The names of the files of a JAR as [yauzl] reports them, or its error. *)
Variable jarEntries : string -> E -> outcome (list string) * E.

(** [new Date().toISOString()] *)
Variable now : E -> string * E.

(** The index files are a map from paths to their content.  A file that
    exists holds an index: nothing else in the repository writes
    [.mcp-class-index.json], and writing and removing it are taken to
    succeed. *)
Definition indexPathOf (projectPath : string) : string :=
  pathJoin [projectPath; ".mcp-class-index.json"].

(** [findJarForClass(className, projectPath)]; [Returned None] is [null]. *)
Definition lookupJar (files : gmap string IndexFile.t) (className projectPath : string)
  : outcome (option string) :=
  match files !! indexPathOf projectPath with
  | None => Thrown "no class index, run the dependency scan first"
  | Some indexData =>
      Returned
        match findEntry className (IndexFile.classIndex indexData) with
        | Some entry => Some (ClassIndexEntry.jarPath entry)
        | None => None
        end
  end.

(** [getAllClassNames(projectPath)] *)
Definition allClassNames (files : gmap string IndexFile.t) (projectPath : string)
  : list string :=
  match files !! indexPathOf projectPath with
  | None => []
  | Some indexData => map ClassIndexEntry.className (IndexFile.classIndex indexData)
  end.

(** [extractClassesFromJar(jarPath)] *)
Definition extractClassesFromJar (jarPath : string) (e : E)
  : outcome (list ClassIndexEntry.t) * E :=
  match jarEntries jarPath e with
  | (Returned fileNames, e') => (Returned (omap (indexEntry jarPath) fileNames), e')
  | (Thrown m, e') => (Thrown m, e')
  end.

(** The loop of [scanProject] over the dependencies, with its
    [try]/[catch]: a JAR that cannot be read is skipped. *)
Fixpoint scanJars (dependencies : list string)
    (classIndex : list ClassIndexEntry.t) (processedJars : nat) (e : E)
  : list ClassIndexEntry.t * nat * E :=
  match dependencies with
  | [] => (classIndex, processedJars, e)
  | jarPath :: rest =>
      match extractClassesFromJar jarPath e with
      | (Returned classes, e') => scanJars rest (classIndex ++ classes) (S processedJars) e'
      | (Thrown _, e') => scanJars rest classIndex processedJars e'
      end
  end.

Definition sampleEntry (entry : ClassIndexEntry.t) : string :=
  ClassIndexEntry.className entry +:+ " -> " +:+ basename (ClassIndexEntry.jarPath entry).

(** [scanProject(projectPath, forceRefresh)] on the index files and the
    rest of the world. *)
Definition scanProject (projectPath : string) (forceRefresh : bool)
    (files : gmap string IndexFile.t) (e : E)
  : outcome ScanResult.t * gmap string IndexFile.t * E :=
  let indexPath := indexPathOf projectPath in
  let files1 :=
    if forceRefresh && bool_decide (is_Some (files !! indexPath))
    then delete indexPath files else files in
  match (if negb forceRefresh then files1 !! indexPath else None) with
  | Some cachedIndex =>
      (Returned {| ScanResult.jarCount := IndexFile.jarCount cachedIndex;
                   ScanResult.classCount := IndexFile.classCount cachedIndex;
                   ScanResult.indexPath := indexPath;
                   ScanResult.sampleEntries := IndexFile.sampleEntries cachedIndex |},
       files1, e)
  | None =>
      match getMavenDependencies projectPath e with
      | (Thrown m, e1) => (Thrown m, files1, e1)
      | (Returned dependencies, e1) =>
          let '(classIndex, processedJars, e2) := scanJars dependencies [] 0 e1 in
          let result :=
            {| ScanResult.jarCount := processedJars;
               ScanResult.classCount := length classIndex;
               ScanResult.indexPath := indexPath;
               ScanResult.sampleEntries := map sampleEntry (take 10 classIndex) |} in
          let '(lastUpdated, e3) := now e2 in
          (Returned result,
           <[indexPath :=
               {| IndexFile.jarCount := processedJars;
                  IndexFile.classCount := length classIndex;
                  IndexFile.indexPath := indexPath;
                  IndexFile.sampleEntries := map sampleEntry (take 10 classIndex);
                  IndexFile.classIndex := classIndex;
                  IndexFile.lastUpdated := lastUpdated |}]> files1,
           e3)
      end
  end.

End Scanner.

(** The scanner as the analyzer uses it: the world is the index files and
    the rest; the two operations read the index files and change nothing. *)
Section ScannerForAnalyzer.

Variable pathJoin : list string -> string.
Variable E : Type.

Definition scannerFindJar (className projectPath : string)
    (w : gmap string IndexFile.t * E)
  : outcome (option string) * (gmap string IndexFile.t * E) :=
  (lookupJar pathJoin (fst w) className projectPath, w).

Definition scannerClassNames (projectPath : string)
    (w : gmap string IndexFile.t * E)
  : outcome (list string) * (gmap string IndexFile.t * E) :=
  (Returned (allClassNames pathJoin (fst w) projectPath), w).

End ScannerForAnalyzer.

(** The readings of the archives in a scan, one after the other: each
    dependency with the outcome of its extraction. *)
Inductive extractions {E : Type} (jarEntries : string -> E -> outcome (list string) * E)
  : list string -> E -> list (string * outcome (list ClassIndexEntry.t)) -> E -> Prop :=
| extractions_done e : extractions jarEntries [] e [] e
| extractions_next jarPath rest e r e' trace e'' :
    extractClassesFromJar E jarEntries jarPath e = (r, e') ->
    extractions jarEntries rest e' trace e'' ->
    extractions jarEntries (jarPath :: rest) e ((jarPath, r) :: trace) e''.

(** The classes of the archives that were read. *)
Definition classesRead (trace : list (string * outcome (list ClassIndexEntry.t)))
  : list ClassIndexEntry.t :=
  concat (omap (fun x => match snd x with Returned cs => Some cs | Thrown _ => None end) trace).

Definition wasRead (x : string * outcome (list ClassIndexEntry.t)) : bool :=
  match snd x with Returned _ => true | Thrown _ => false end.

(** *** A project with three dependencies, one of them unreadable *)

Definition examplePathJoin (parts : list string) : string := JS.join "/" parts.

Definition exampleBasename (path : string) : string :=
  List.last (JS.split "/"%char path) EmptyString.

Definition exampleDependencies (projectPath : string) (calls : nat)
  : outcome (list string) * nat :=
  (Returned ["repo/a.jar"; "repo/broken.jar"; "repo/b.jar"], S calls).

Definition failingDependencies (projectPath : string) (calls : nat)
  : outcome (list string) * nat :=
  (Thrown "no local repository", S calls).

Definition exampleJarEntries (jarPath : string) (calls : nat)
  : outcome (list string) * nat :=
  if String.eqb jarPath "repo/a.jar"
  then (Returned ["META-INF/MANIFEST.MF"; "com/acme/A.class"; "com/acme/A$1.class";
                  "com/acme/B.class"], S calls)
  else if String.eqb jarPath "repo/b.jar"
  then (Returned ["com/acme/B.class"; "C.class"], S calls)
  else (Thrown "not a zip file", S calls).

Definition exampleNow (calls : nat) : string * nat :=
  ("2024-01-01T00:00:00.000Z", calls).

(** The index files after a first scan of the project. *)
Definition exampleFiles : gmap string IndexFile.t :=
  snd (fst (scanProject examplePathJoin exampleBasename nat
              exampleDependencies exampleJarEntries exampleNow "proj" false ∅ 0)).

Definition entryA : ClassIndexEntry.t :=
  {| ClassIndexEntry.className := "com.acme.A"; ClassIndexEntry.jarPath := "repo/a.jar";
     ClassIndexEntry.packageName := "com.acme"; ClassIndexEntry.simpleName := "A" |}.

Definition entryB (jarPath : string) : ClassIndexEntry.t :=
  {| ClassIndexEntry.className := "com.acme.B"; ClassIndexEntry.jarPath := jarPath;
     ClassIndexEntry.packageName := "com.acme"; ClassIndexEntry.simpleName := "B" |}.

Definition entryC : ClassIndexEntry.t :=
  {| ClassIndexEntry.className := "C"; ClassIndexEntry.jarPath := "repo/b.jar";
     ClassIndexEntry.packageName := ""; ClassIndexEntry.simpleName := "C" |}.

Definition exampleIndex : IndexFile.t :=
  {| IndexFile.jarCount := 2;
     IndexFile.classCount := 4;
     IndexFile.indexPath := "proj/.mcp-class-index.json";
     IndexFile.sampleEntries :=
       ["com.acme.A -> a.jar"; "com.acme.B -> a.jar"; "com.acme.B -> b.jar"; "C -> b.jar"];
     IndexFile.classIndex := [entryA; entryB "repo/a.jar"; entryB "repo/b.jar"; entryC];
     IndexFile.lastUpdated := "2024-01-01T00:00:00.000Z" |}.

Definition exampleResult : ScanResult.t :=
  {| ScanResult.jarCount := 2;
     ScanResult.classCount := 4;
     ScanResult.indexPath := "proj/.mcp-class-index.json";
     ScanResult.sampleEntries :=
       ["com.acme.A -> a.jar"; "com.acme.B -> a.jar"; "com.acme.B -> b.jar"; "C -> b.jar"] |}.

(** The [javap] of the example project: [com.acme.B] extends [com.acme.A]. *)
Definition projectJavap (jarPath className : string) (w : gmap string IndexFile.t * nat)
  : outcome string * (gmap string IndexFile.t * nat) :=
  if String.eqb className "com.acme.B"
  then (Returned (text ["public class com.acme.B extends com.acme.A {"; "}"]),
        (fst w, S (snd w)))
  else if String.eqb className "com.acme.A"
  then (Returned (text ["public class com.acme.A {"; "}"]), (fst w, S (snd w)))
  else (Thrown "class not found", (fst w, S (snd w))).

(** ** Maven coordinates *)

(** [[a-zA-Z0-9._-]] *)
Definition isCoordChar (c : ascii) : bool :=
  JS.isLetter c || JS.isDigit c || Ascii.eqb c "."%char || Ascii.eqb c "_"%char
  || Ascii.eqb c "-"%char.

(** [[a-zA-Z0-9._-]+:]: the run cannot contain the colon that must follow
    it, so it is the whole run. *)
Definition segmentThenColon (s : string) : option (string * string) :=
  let '(segment, rest) := JS.span isCoordChar s in
  if JS.isEmpty segment then None
  else match rest with
       | String c rest' => if Ascii.eqb c ":"%char then Some (segment, rest') else None
       | EmptyString => None
       end.

(** The group of the dependency pattern, five runs separated by colons,
    at one position. *)
Definition coordinateAt (s : string) : option string :=
  match segmentThenColon s with
  | None => None
  | Some (groupId, s1) =>
  match segmentThenColon s1 with
  | None => None
  | Some (artifactId, s2) =>
  match segmentThenColon s2 with
  | None => None
  | Some (type, s3) =>
  match segmentThenColon s3 with
  | None => None
  | Some (version, s4) =>
      let '(scope, _) := JS.span isCoordChar s4 in
      if JS.isEmpty scope then None
      else Some (groupId +:+ ":" +:+ artifactId +:+ ":" +:+ type +:+ ":"
                 +:+ version +:+ ":" +:+ scope)
  end end end end.

(** The lazy [.*?] in front of the group: the group is tried at once,
    then after each further character that is no line terminator. *)
Fixpoint afterLazyDots (s : string) : option string :=
  match coordinateAt s with
  | Some d => Some d
  | None =>
      match s with
      | EmptyString => None
      | String c s' => if JS.isLineTerminator c then None else afterLazyDots s'
      end
  end.

(** The pattern of [getMavenDependencies], whose group is
    [[a-zA-Z0-9._-]+] five times with colons between, after [\[INFO\].*?]. *)
Definition matchDependency (line : string) : option string :=
  Regex.search
    (fun s => if JS.startsWith "[INFO]" s then afterLazyDots (JS.skip 6 s) else None)
    line.

Section ResolveJarPath.

Variable pathJoin : list string -> string.

(** [getMavenRepositoryPath()], taken from the environment. *)
Variable mavenRepoPath : string.

(** [resolveJarPath(dependency, projectPath)].  A part that the
    destructuring does not find is [undefined]; [path.join] throws on it. *)
Definition resolveJarPath (dependency : string) : outcome (option string) :=
  let parts := JS.split ":"%char dependency in
  match parts !! 2 with
  | Some type =>
      if String.eqb type "jar" then
        match parts !! 0, parts !! 1, parts !! 3 with
        | Some groupId, Some artifactId, Some version =>
            Returned
              (Some (pathJoin [mavenRepoPath;
                               JSText.replaceChar "."%char "/"%char groupId;
                               artifactId; version;
                               artifactId +:+ "-" +:+ version +:+ ".jar"]))
        | _, _, _ => Thrown "The path argument must be of type string"
        end
      else Returned None
  | None => Returned None
  end.

End ResolveJarPath.

(** ** The index before an analysis *)

Section EnsureIndex.

Variable pathJoin : list string -> string.
Variable basename : string -> string.
Variable E : Type.
Variable getMavenDependencies : string -> E -> outcome (list string) * E.
Variable jarEntries : string -> E -> outcome (list string) * E.
Variable now : E -> string * E.

(** [ensureIndexExists(projectPath)] of the server: a project without
    index file is scanned first, and a failure of the scan is thrown
    again under another message. *)
Definition ensureIndexExists (projectPath : string)
    (files : gmap string IndexFile.t) (e : E)
  : outcome unit * gmap string IndexFile.t * E :=
  match files !! indexPathOf pathJoin projectPath with
  | Some _ => (Returned tt, files, e)
  | None =>
      match scanProject pathJoin basename E getMavenDependencies jarEntries now
              projectPath false files e with
      | (Returned _, files', e') => (Returned tt, files', e')
      | (Thrown m, files', e') => (Thrown ("cannot create the class index: " +:+ m), files', e')
      end
  end.

End EnsureIndex.

(** *** The block of a method: signature, variable table, end

    The name that a table gives to the parameter at position [j] is that
    of its last entry for slot [j]; without such an entry the name is
    [param] with the 1-based position. *)
Definition nameFromTable (entries : list (nat * string)) (j : nat) : string :=
  match last (List.filter (fun e => (fst e =? j)%nat) entries) with
  | Some e => snd e
  | None => "param" +:+ JS.numberToString (j + 1)
  end.

(** The descriptors after the reconciliation: the type, a space, the name. *)
Definition reconciled (entries : list (nat * string)) (types : list string)
  : list string :=
  imap (fun j type => type +:+ " " +:+ nameFromTable entries j) types.

(** Some entry of the table has its slot below the parameter count. *)
Definition contributes (entries : list (nat * string)) (count : nat) : bool :=
  existsb (fun e => (fst e <? count)%nat) entries.

(** The method after its table: renamed when the table contributes a
    name, as declared otherwise. *)
Definition methodAfterTable (m : ClassMethod.t) (entries : list (nat * string))
  : ClassMethod.t :=
  if contributes entries (length (ClassMethod.parameters m))
  then ClassMethod.withParameters m (reconciled entries (ClassMethod.parameters m))
  else m.

(** A line inside a method: no class declaration, no signature, not
    blank, no closing brace and no [SourceFile:] trailer. *)
Definition staysInMethod (line : string) : bool :=
  let t := JS.trim line in
  negb (isClassDeclarationLine t) && negb (isMethodLine t) && negb (String.eqb t "") &&
  negb (JS.startsWith "}" t) && negb (JS.startsWith "SourceFile:" t).

(** A line that ends a method, or only its table. *)
Definition endsMethod (line : string) : bool :=
  JS.startsWith "}" (JS.trim line) || JS.startsWith "SourceFile:" (JS.trim line).

Definition endsTable (line : string) : bool :=
  String.eqb (JS.trim line) "" || endsMethod line.

(** The lines of a method from its signature to the end of its variable
    table: the signature [sig], from which the extraction gives [m]; the
    lines [body] before the table, none of which is the table header (nor
    reads as a table entry, when the text before has left the scanner
    inside a table: [inTable]); the header of the table; its lines
    [rows]; and the line that ends it. *)
Definition isMethodBlock (inTable : bool) (sig : string) (m : ClassMethod.t)
    (body : list string) (header : string) (rows : list string) (close : string) : Prop :=
  isSignatureLine (JS.trim sig) = true /\
  parseMethodFromJavap (JS.trim sig) = Some m /\
  Forall (fun l => staysInMethod l = true /\ JS.trim l <> "LocalVariableTable:" /\
                   (inTable = true -> tableEntry l = None)) body /\
  JS.trim header = "LocalVariableTable:" /\
  Forall (fun l => staysInMethod l = true) rows /\
  endsTable close = true.

(** After the block nothing more can reach its method: the block ended
    the method, or the text ends, or the next line is a signature line. *)
Definition methodIsOver (close : string) (post : list string) : Prop :=
  endsMethod close = true \/
  match post with
  | [] => True
  | next :: _ => isSignatureLine (JS.trim next) = true
  end.

(** *** A method of a disassembly, from its signature to its blank line *)

Definition blockSignature : string := "  public void f(int, long);".

Definition blockMethod : ClassMethod.t :=
  {| ClassMethod.name := "f"; ClassMethod.returnType := "void";
     ClassMethod.parameters := ["int"; "long"]; ClassMethod.modifiers := ["public"] |}.

Definition blockBody : list string :=
  ["    descriptor: (IJ)V"; "    flags: (0x0001) ACC_PUBLIC"; "    Code:";
   "      stack=0, locals=4, args_size=3"; "         0: return";
   "      LineNumberTable:"; "        line 7: 0"].

Definition blockHeader : string := "      LocalVariableTable:".

Definition blockRows : list string :=
  ["        Start  Length  Slot  Name   Signature";
   "            0       1     0  this   LFoo;";
   "            0       1     1     a   I";
   "            0       1     2     b   J"].

(** The methods [base] are out of reach of the scanner: they come first
    in the list and the current method, if any, comes after them. *)
Definition keepsMethods (base : list ClassMethod.t) (st : ParserState) : Prop :=
  (exists more, ClassAnalysis.methods (analysis st) = base ++ more) /\
  (forall cur, currentMethod st = Some cur -> length base <= cur).

(** ** Properties of the scanner *)

Lemma scanLines_invariant (P : ParserState -> Prop) :
  (forall st line, P st -> P (processLine st line)) ->
  forall lines st, P st -> P (scanLines st lines).
Proof.
  intros Hstep lines. unfold scanLines.
  induction lines as [|l lines IH]; intros st HP; simpl; auto.
Qed.

Lemma scanLines_app st l1 l2 :
  scanLines st (l1 ++ l2) = scanLines (scanLines st l1) l2.
Proof. unfold scanLines. apply fold_left_app. Qed.

Lemma fields_updateParameterNames names cur a :
  ClassAnalysis.fields (updateParameterNames names cur a) = ClassAnalysis.fields a.
Proof. unfold updateParameterNames. destruct (0 <? size names)%nat; reflexivity. Qed.

Lemma fields_parseClassDeclaration line a :
  ClassAnalysis.fields (parseClassDeclaration line a) = ClassAnalysis.fields a.
Proof.
  unfold parseClassDeclaration.
  destruct (Regex.matchClassName line) as [full|];
    [destruct (1 <? length (JS.split "." full))%nat|]; reflexivity.
Qed.

Lemma fields_endOfMethod t st :
  ClassAnalysis.fields (analysis (endOfMethod t st)) = ClassAnalysis.fields (analysis st).
Proof.
  unfold endOfMethod. destruct (currentMethod st); [|reflexivity].
  destruct (_ || _ || _); [|reflexivity]. simpl. apply fields_updateParameterNames.
Qed.

Lemma fields_recordParameterName t cur st :
  ClassAnalysis.fields (analysis (recordParameterName t cur st))
  = ClassAnalysis.fields (analysis st).
Proof.
  unfold recordParameterName.
  destruct (Regex.matchParamLine t) as [[[slot name] ty]|]; [|reflexivity].
  destruct (_ && _); reflexivity.
Qed.

Lemma fields_processLine st line :
  ClassAnalysis.fields (analysis (processLine st line)) = ClassAnalysis.fields (analysis st).
Proof.
  unfold processLine.
  destruct (isClassDeclarationLine _); [apply fields_parseClassDeclaration|].
  destruct (isMethodLine _).
  { destruct (parseMethodFromJavap _); reflexivity. }
  destruct (String.eqb _ "LocalVariableTable:"); [reflexivity|].
  destruct (if inLocalVariableTable st then currentMethod st else None) as [cur|].
  - destruct (_ || _); [reflexivity|].
    destruct (String.eqb _ ""); [apply fields_updateParameterNames|].
    rewrite fields_endOfMethod. apply fields_recordParameterName.
  - apply fields_endOfMethod.
Qed.

(** C3: the [fields] sequence of every parse result is empty, whatever the
    disassembly text and the class identifier are. *)
Theorem fields_always_empty (output className : string) :
  ClassAnalysis.fields (parseJavapOutput output className) = [].
Proof.
  unfold parseJavapOutput.
  apply (scanLines_invariant (fun st => ClassAnalysis.fields (analysis st) = [])).
  - intros st line H. rewrite fields_processLine. exact H.
  - reflexivity.
Qed.

(** ** Subclass search *)

Section SearchProperties.

Variable W : Type.
Variable findJarForClass : string -> string -> W -> outcome (option string) * W.
Variable getAllClassNames : string -> W -> outcome (list string) * W.
Variable runJavap : string -> string -> W -> outcome string * W.

Let analyze := analyzeClass W findJarForClass runJavap.
Let scan := findSubClassesLoop W findJarForClass runJavap.
Let ran := attempts W findJarForClass runJavap.

Lemma hasSuperClass_equals (className : string) (a : ClassAnalysis.t) :
  hasSuperClass className a = bool_decide (ClassAnalysis.superClass a = Some className).
Proof.
  unfold hasSuperClass. destruct (ClassAnalysis.superClass a) as [s|].
  - destruct (String.eqb s className) eqn:E.
    + apply String.eqb_eq in E. subst s. by rewrite bool_decide_eq_true_2.
    + apply String.eqb_neq in E. rewrite bool_decide_eq_false_2; [done|]. congruence.
  - by rewrite bool_decide_eq_false_2.
Qed.

Lemma analyzeClass_analyzed (cls projectPath : string) (w : W) :
  analyzed W findJarForClass runJavap cls projectPath w
    (fst (analyze cls projectPath w)) (snd (analyze cls projectPath w)).
Proof.
  unfold analyze, analyzeClass.
  destruct (findJarForClass cls projectPath w) as [[[jarPath|]|e] w1] eqn:Hjar.
  - destruct jarPath as [|c jarPath]; simpl.
    + eapply analyzed_no_jar; [exact Hjar|by right].
    + unfold analyzeClassWithJavap.
      destruct (runJavap (String c jarPath) cls w1) as [[stdout|e] w2] eqn:Hrun; simpl.
      * by eapply analyzed_parsed.
      * by eapply analyzed_javap_failed.
  - eapply analyzed_no_jar; [exact Hjar|by left].
  - by eapply analyzed_lookup_failed.
Qed.

Lemma findSubClassesLoop_trace (className projectPath : string) :
  forall (allClasses subClasses : list string) (w : W),
  exists trace w',
    ran projectPath allClasses w trace w' /\
    map fst trace = allClasses /\
    scan className projectPath allClasses subClasses w
    = (subClasses ++ map fst (List.filter (isSubClassAttempt className) trace), w').
Proof.
  induction allClasses as [|cls rest IH]; intros subClasses w.
  - exists [], w. split; [constructor|]. split; [reflexivity|].
    simpl. by rewrite app_nil_r.
  - pose proof (analyzeClass_analyzed cls projectPath w) as Ha.
    destruct (analyze cls projectPath w) as [r w1] eqn:Hr. simpl in Ha.
    destruct r as [a|e].
    + destruct (IH (if hasSuperClass className a then subClasses ++ [cls] else subClasses) w1)
        as (trace & w2 & Hran & Hfst & Hscan).
      exists ((cls, Returned a) :: trace), w2.
      split; [by eapply attempts_next|]. split; [simpl; by rewrite Hfst|].
      subst scan analyze. simpl. rewrite Hr, Hscan.
      unfold isSubClassAttempt at 2. simpl. rewrite <- hasSuperClass_equals.
      destruct (hasSuperClass className a); simpl; [|reflexivity].
      by rewrite <- app_assoc.
    + destruct (IH subClasses w1) as (trace & w2 & Hran & Hfst & Hscan).
      exists ((cls, Thrown e) :: trace), w2.
      split; [by eapply attempts_next|]. split; [simpl; by rewrite Hfst|].
      subst scan analyze. simpl. rewrite Hr, Hscan. reflexivity.
Qed.

(** C9: in the subclass search every candidate of the universe is
    analyzed, in order, whether or not the analyses before it failed (an
    analysis fails when the scanner fails or gives no JAR path or an empty
    one, and when the disassembler fails; otherwise it returns the parse of
    the disassembly), and the result is exactly the candidates whose
    analysis returned a class whose superclass name equals the target. *)
Theorem findSubClasses_isolates_failures
    (className projectPath : string) (allClasses : list string) (w w0 : W) :
  getAllClassNames projectPath w = (Returned allClasses, w0) ->
  exists trace w',
    attempts W findJarForClass runJavap projectPath allClasses w0 trace w' /\
    map fst trace = allClasses /\
    findSubClasses W findJarForClass getAllClassNames runJavap className projectPath w
    = (Returned (map fst (List.filter (isSubClassAttempt className) trace)), w').
Proof.
  intros Hall.
  destruct (findSubClassesLoop_trace className projectPath allClasses [] w0)
    as (trace & w' & Hran & Hfst & Hscan).
  exists trace, w'. split; [exact Hran|]. split; [exact Hfst|].
  unfold findSubClasses. rewrite Hall. subst scan. rewrite Hscan. reflexivity.
Qed.

End SearchProperties.

Lemma findSubClasses_isolates_failures_witness :
  exists trace calls,
    attempts nat exampleJars exampleJavap "proj"
      ["p.A"; "p.Broken"; "p.Missing"; "p.B"; "p.Slow"; "p.D"] 1 trace calls /\
    map fst trace = ["p.A"; "p.Broken"; "p.Missing"; "p.B"; "p.Slow"; "p.D"] /\
    findSubClasses nat exampleJars exampleClassNames exampleJavap "p.Base" "proj" 0
    = (Returned (map fst (List.filter (isSubClassAttempt "p.Base") trace)), calls).
Proof.
  apply (findSubClasses_isolates_failures nat exampleJars exampleClassNames exampleJavap
           "p.Base" "proj" ["p.A"; "p.Broken"; "p.Missing"; "p.B"; "p.Slow"; "p.D"] 0 1).
  reflexivity.
Defined.

(** The scan of the example goes past the three failing candidates. *)
Example findSubClasses_example :
  findSubClasses nat exampleJars exampleClassNames exampleJavap "p.Base" "proj" 0
  = (Returned ["p.A"; "p.D"], 11).
Proof. vm_compute. reflexivity. Qed.

(** An empty JAR path counts as no path: the disassembler is not run. *)
Example empty_jar_path_example :
  analyzeClass nat (fun _ _ calls => (Returned (Some EmptyString), S calls)) exampleJavap
    "p.A" "proj" 0
  = (Thrown "no JAR for p.A", 1).
Proof. reflexivity. Qed.

(** ** Parameter splitting *)

Lemma append_empty_r (s : string) : s +:+ EmptyString = s.
Proof. induction s as [|c s IH]; simpl; [reflexivity|by rewrite IH]. Qed.

Lemma append_assoc (a b c : string) : (a +:+ b) +:+ c = a +:+ (b +:+ c).
Proof. induction a as [|x a IH]; simpl; [reflexivity|by rewrite IH]. Qed.

Lemma length_append (a b : string) :
  String.length (a +:+ b) = String.length a + String.length b.
Proof. induction a as [|x a IH]; simpl; [reflexivity|by rewrite IH]. Qed.

Lemma get_append_at (p : string) (c : ascii) (s : string) :
  String.get (String.length p) (p +:+ String c s) = Some c.
Proof. induction p as [|x p IH]; simpl; [reflexivity|exact IH]. Qed.

Lemma keep_append_at (p s : string) : JS.keep (String.length p) (p +:+ s) = p.
Proof.
  induction p as [|x p IH]; simpl; [by destruct s|by rewrite IH].
Qed.

Lemma countChar_append (c : ascii) (a b : string) :
  countChar c (a +:+ b) = countChar c a + countChar c b.
Proof. induction a as [|x a IH]; simpl; [reflexivity|rewrite IH; lia]. Qed.

Lemma nesting_snoc (p : string) (c : ascii) :
  nesting (p +:+ String c EmptyString)
  = (nesting p + (if Ascii.eqb c "<"%char then 1
                  else if Ascii.eqb c ">"%char then -1 else 0))%Z.
Proof.
  unfold nesting. rewrite !countChar_append. simpl.
  destruct (Ascii.eqb c "<") eqn:Hlt.
  - apply Ascii.eqb_eq in Hlt. subst c. simpl. lia.
  - destruct (Ascii.eqb c ">"); simpl; lia.
Qed.

Lemma commasAfter_empty (s : string) : commasAfter EmptyString s = topLevelCommas s.
Proof. reflexivity. Qed.

Lemma commasAfter_cons (p : string) (c : ascii) (s : string) :
  commasAfter p (String c s)
  = (Ascii.eqb c ","%char && (nesting p =? 0)%Z)
      :: commasAfter (p +:+ String c EmptyString) s.
Proof.
  unfold commasAfter. simpl String.length. simpl seq. rewrite map_cons. f_equal.
  - unfold isTopLevelComma. rewrite Nat.add_0_r, get_append_at, keep_append_at.
    reflexivity.
  - rewrite <- seq_shift, map_map. apply map_ext. intros i.
    rewrite append_assoc, length_append. simpl.
    by replace (String.length p + 1 + i) with (String.length p + S i) by lia.
Qed.

Lemma cutAt_nonempty marks s : cutAt marks s <> [].
Proof.
  revert marks. induction s as [|c s IH]; intros marks; simpl; [done|].
  destruct marks as [|[] marks]; [done|done|].
  destruct (cutAt marks s); done.
Qed.

Lemma pushed_cons (x : string) (pieces : list string) :
  pieces <> [] -> pushed (x :: pieces) = JS.trim x :: pushed pieces.
Proof. destruct pieces as [|y pieces]; [done|]. intros _. reflexivity. Qed.

Lemma splitParametersLoop_pieces :
  forall (rest : string) (params : list string) (current p : string),
    splitParametersLoop rest params current (nesting p)
    = params ++ pushed (prependTo current (cutAt (commasAfter p rest) rest)).
Proof.
  induction rest as [|c rest IH]; intros params current p.
  - simpl. unfold pushed. simpl. rewrite append_empty_r.
    destruct (JS.truthy (JS.trim current)); [reflexivity|by rewrite app_nil_r].
  - rewrite commasAfter_cons. simpl splitParametersLoop.
    pose proof (nesting_snoc p c) as Hn.
    pose proof (cutAt_nonempty (commasAfter (p +:+ String c EmptyString) rest) rest) as Hne.
    assert (Hkeep :
      prependTo current
        (match cutAt (commasAfter (p +:+ String c EmptyString) rest) rest with
         | h :: t => String c h :: t
         | [] => [String c EmptyString]
         end)
      = prependTo (current +:+ String c EmptyString)
          (cutAt (commasAfter (p +:+ String c EmptyString) rest) rest)).
    { destruct (cutAt _ rest) as [|h t]; [done|].
      simpl. by rewrite append_assoc. }
    destruct (Ascii.eqb c "<") eqn:Hlt.
    { apply Ascii.eqb_eq in Hlt. subst c. simpl in Hn |- *.
      rewrite <- Hn, IH, Hkeep; done. }
    destruct (Ascii.eqb c ">") eqn:Hgt.
    { apply Ascii.eqb_eq in Hgt. subst c. simpl in Hn |- *.
      replace (nesting p - 1)%Z with (nesting p + -1)%Z by lia.
      rewrite <- Hn, IH, Hkeep; done. }
    rewrite Z.add_0_r in Hn.
    destruct (Ascii.eqb c "," && (nesting p =? 0)%Z) eqn:Hcomma; simpl.
    + rewrite <- Hn at 1. rewrite IH.
      rewrite pushed_cons.
      * rewrite <- app_assoc. simpl. rewrite append_empty_r.
        destruct (cutAt _ rest) as [|h t]; done.
      * destruct (cutAt _ rest); done.
    + rewrite <- Hn at 1. rewrite IH, Hkeep; done.
Qed.

Lemma trimEnd_cons_nonspace (c : ascii) (s : string) :
  JS.isSpace c = false -> JS.trimEnd (String c s) = String c (JS.trimEnd s).
Proof. intros Hc. simpl. rewrite Hc. by destruct (JS.trimEnd s). Qed.

Lemma trimEnd_idempotent (s : string) : JS.trimEnd (JS.trimEnd s) = JS.trimEnd s.
Proof.
  induction s as [|c s IH]; [reflexivity|]. simpl.
  destruct (JS.trimEnd s) as [|d r] eqn:Hr.
  - destruct (JS.isSpace c) eqn:Hc; [reflexivity|]. simpl. by rewrite Hc.
  - change (JS.trimEnd (String c (String d r)))
      with (match JS.trimEnd (String d r) with
            | EmptyString => if JS.isSpace c then EmptyString else String c EmptyString
            | x => String c x
            end).
    by rewrite IH.
Qed.

Lemma trimStart_head (s : string) :
  match JS.trimStart s with
  | EmptyString => True
  | String c _ => JS.isSpace c = false
  end.
Proof.
  induction s as [|c s IH]; simpl; [done|].
  destruct (JS.isSpace c) eqn:Hc; [exact IH|exact Hc].
Qed.

Lemma trimStart_nonspace (c : ascii) (s : string) :
  JS.isSpace c = false -> JS.trimStart (String c s) = String c s.
Proof. intros Hc. simpl. by rewrite Hc. Qed.

(** A trimmed string is empty or starts with a character that is no space. *)
Lemma trim_head (s : string) :
  match JS.trim s with
  | EmptyString => True
  | String c _ => JS.isSpace c = false
  end.
Proof.
  unfold JS.trim. pose proof (trimStart_head s) as H.
  destruct (JS.trimStart s) as [|c r]; [done|].
  rewrite (trimEnd_cons_nonspace _ _ H). exact H.
Qed.

Lemma trim_idempotent (s : string) : JS.trim (JS.trim s) = JS.trim s.
Proof.
  pose proof (trim_head s) as H. unfold JS.trim at 1.
  destruct (JS.trim s) as [|c r] eqn:Ht; [reflexivity|].
  rewrite (trimStart_nonspace _ _ H), <- Ht.
  unfold JS.trim. apply trimEnd_idempotent.
Qed.

Lemma filter_trim_pushed (pieces : list string) :
  pieces <> [] ->
  List.filter JS.truthy (map JS.trim (pushed pieces))
  = List.filter JS.truthy (map JS.trim pieces).
Proof.
  intros Hne. rewrite (app_removelast_last EmptyString Hne) at 2.
  unfold pushed. rewrite !map_app, !List.filter_app, map_map.
  f_equal.
  - f_equal. apply map_ext. intros x. apply trim_idempotent.
  - simpl. destruct (JS.truthy (JS.trim (List.last pieces EmptyString))) eqn:Ht.
    + simpl. rewrite trim_idempotent, Ht. reflexivity.
    + reflexivity.
Qed.

Lemma splitParameters_pushed (s : string) : splitParameters s = pushed (fragments s).
Proof.
  unfold splitParameters, fragments. rewrite <- commasAfter_empty.
  change 0%Z with (nesting EmptyString).
  rewrite splitParametersLoop_pieces. simpl.
  destruct (cutAt (commasAfter EmptyString s) s) as [|h t] eqn:Hc; [|reflexivity].
  by apply cutAt_nonempty in Hc.
Qed.

(** C6: parameter splitting is generic-aware.  The parameters of a
    signature are the trimmed, non-empty pieces of the parameter list
    between the commas that are preceded by as many [<] as [>]; the list
    [java.util.Map<K, V> m, int n] gives two parameters; a blank list gives
    none. *)
Theorem parameters_split_at_top_level_commas :
  (forall raw : string,
     collectParameters raw
     = List.filter JS.truthy (map JS.trim (fragments (JS.trim raw)))) /\
  (forall s : string, splitParameters s = pushed (fragments s)) /\
  splitParameters "java.util.Map<K, V> m, int n" = ["java.util.Map<K, V> m"; "int n"] /\
  collectParameters "java.util.Map<K, V> m, int n" = ["java.util.Map<K, V> m"; "int n"] /\
  (forall raw : string, JS.trim raw = EmptyString -> collectParameters raw = []).
Proof.
  split; [|split; [exact splitParameters_pushed|split; [reflexivity|split; [reflexivity|]]]].
  - intros raw. unfold collectParameters.
    destruct (JS.truthy (JS.trim raw)) eqn:Ht.
    + rewrite splitParameters_pushed. apply filter_trim_pushed, cutAt_nonempty.
    + destruct (JS.trim raw); [reflexivity|discriminate].
  - intros raw H. unfold collectParameters. rewrite H. reflexivity.
Qed.

Lemma parameters_split_at_top_level_commas_witness :
  JS.trim "   " = EmptyString /\ collectParameters "   " = [].
Proof.
  split; [reflexivity|].
  apply (proj2 (proj2 (proj2 (proj2 parameters_split_at_top_level_commas)))).
  reflexivity.
Defined.

(** ** The scanner keeps the methods in the order of their signatures *)

Ltac processLine_cases st line :=
  unfold processLine;
  destruct (isClassDeclarationLine (JS.trim line)) eqn:Hclass;
  [| destruct (isMethodLine (JS.trim line)) eqn:Hmeth;
     [ destruct (parseMethodFromJavap (JS.trim line)) as [m|] eqn:Hparse
     | destruct (String.eqb (JS.trim line) "LocalVariableTable:") eqn:Hlvt;
       [| destruct (inLocalVariableTable st) eqn:Hin;
          [ destruct (currentMethod st) as [cur|] eqn:Hcur;
            [ destruct (JS.startsWith "Start" (JS.trim line)
                        || JS.startsWith "Slot" (JS.trim line)) eqn:Hhdr;
              [| destruct (String.eqb (JS.trim line) "") eqn:Hblank ]
            | ]
          | ] ] ] ].

Lemma methods_parseClassDeclaration line a :
  ClassAnalysis.methods (parseClassDeclaration line a) = ClassAnalysis.methods a.
Proof.
  unfold parseClassDeclaration.
  destruct (Regex.matchClassName line) as [full|];
    [destruct (1 <? length (JS.split "." full))%nat|]; reflexivity.
Qed.

Lemma analysis_recordParameterName t cur st :
  analysis (recordParameterName t cur st) = analysis st.
Proof.
  unfold recordParameterName.
  destruct (Regex.matchParamLine t) as [[[slot name] ty]|]; [|reflexivity].
  destruct (_ && _); reflexivity.
Qed.


Lemma length_updatedParams names ps : length (updatedParams names ps) = length ps.
Proof. unfold updatedParams. apply length_imap. Qed.

Lemma bareOrRewritten_length bare ps :
  bareOrRewritten bare ps -> length ps = length bare.
Proof.
  induction 1 as [|names prev _ IH _]; [reflexivity|].
  by rewrite length_updatedParams.
Qed.

Lemma follows_updateParameterNames names cur a declared :
  Forall2 follows declared (ClassAnalysis.methods a) ->
  Forall2 follows declared (ClassAnalysis.methods (updateParameterNames names cur a)).
Proof.
  intros H. unfold updateParameterNames.
  destruct (0 <? size names)%nat eqn:Hsize; [|exact H]. simpl.
  apply Forall2_alter_r; [exact H|].
  intros m0 m _ _ (Hn & Hr & Hm & Hp).
  repeat split; simpl; try assumption.
  apply parameters_rewritten; [exact Hp|by apply Nat.ltb_lt].
Qed.

Lemma follows_endOfMethod t st declared :
  Forall2 follows declared (ClassAnalysis.methods (analysis st)) ->
  Forall2 follows declared (ClassAnalysis.methods (analysis (endOfMethod t st))).
Proof.
  intros H. unfold endOfMethod. destruct (currentMethod st); [|exact H].
  destruct (_ || _ || _); [|exact H]. simpl. by apply follows_updateParameterNames.
Qed.

Lemma follows_declared (m : ClassMethod.t) : follows m m.
Proof. repeat split. constructor. Qed.

Lemma declaredMethods_app l1 l2 :
  declaredMethods (l1 ++ l2) = declaredMethods l1 ++ declaredMethods l2.
Proof.
  unfold declaredMethods, signatureLines.
  by rewrite map_app, List.filter_app, omap_app.
Qed.

Lemma follows_processLine st line declared :
  Forall2 follows declared (ClassAnalysis.methods (analysis st)) ->
  Forall2 follows (declared ++ declaredMethods [line])
    (ClassAnalysis.methods (analysis (processLine st line))).
Proof.
  intros H. unfold declaredMethods, signatureLines. simpl.
  processLine_cases st line; simpl; rewrite ?app_nil_r;
    try exact H; try (by apply follows_endOfMethod);
    try (by apply follows_updateParameterNames).
  - by rewrite methods_parseClassDeclaration.
  - rewrite Hparse. simpl. apply Forall2_app; [exact H|].
    constructor; [apply follows_declared|constructor].
  - by rewrite Hparse, app_nil_r.
  - apply follows_endOfMethod. by rewrite analysis_recordParameterName.
Qed.

Lemma follows_scanLines lines : forall st declared,
  Forall2 follows declared (ClassAnalysis.methods (analysis st)) ->
  Forall2 follows (declared ++ declaredMethods lines)
    (ClassAnalysis.methods (analysis (scanLines st lines))).
Proof.
  induction lines as [|l lines IH]; intros st declared H.
  - unfold declaredMethods. simpl. by rewrite app_nil_r.
  - change (l :: lines) with ([l] ++ lines).
    rewrite declaredMethods_app, app_assoc, scanLines_app.
    apply IH. simpl. by apply follows_processLine.
Qed.

Lemma parseJavapOutput_follows output className :
  Forall2 follows (declaredMethods (JS.split "010"%char output))
    (ClassAnalysis.methods (parseJavapOutput output className)).
Proof.
  unfold parseJavapOutput.
  apply (follows_scanLines _ (initialState className) []). constructor.
Qed.

(** ** Reconciliation of parameter names *)

Lemma includes_append (c : ascii) (a b : string) :
  JS.includes c (a +:+ b) = JS.includes c a || JS.includes c b.
Proof.
  induction a as [|x a IH]; simpl; [reflexivity|].
  rewrite IH. by rewrite orb_assoc.
Qed.

Lemma namedDescriptor_has_space (p : string) :
  namedDescriptor p -> JS.includes " "%char p = true.
Proof.
  intros (ty & nm & -> & _). rewrite !includes_append. simpl.
  by rewrite orb_true_r.
Qed.

Lemma parameterName_cases (names : gmap nat string) (j : nat) :
  (exists n, names !! j = Some n /\ n <> EmptyString /\ parameterName names j = n) \/
  parameterName names j = "param" +:+ JS.numberToString (j + 1).
Proof.
  unfold parameterName. destruct (names !! j) as [n|]; [|by right].
  destruct n as [|c n]; simpl; [by right|]. left. by exists (String c n).
Qed.

Lemma parameterName_nonempty (names : gmap nat string) (j : nat) :
  parameterName names j <> EmptyString.
Proof.
  destruct (parameterName_cases names j) as [(n & _ & Hn & ->) | ->]; [exact Hn|done].
Qed.

Lemma updatedParams_lookup (names : gmap nat string) (prev : list string) (j : nat) (p : string) :
  updatedParams names prev !! j = Some p ->
  exists type, prev !! j = Some type /\ p = type +:+ " " +:+ parameterName names j.
Proof.
  unfold updatedParams. rewrite list_lookup_imap.
  destruct (prev !! j) as [ty|]; simpl; [|done].
  intros [= <-]. by exists ty.
Qed.

Lemma updateParameterNames_empty cur a : updateParameterNames ∅ cur a = a.
Proof. unfold updateParameterNames. by rewrite map_size_empty. Qed.

(** Without a table header the scanner never enters a table and never
    holds a pending name. *)
Lemma processLine_without_table st line :
  JS.trim line <> "LocalVariableTable:" ->
  inLocalVariableTable st = false -> methodParameters st = ∅ ->
  inLocalVariableTable (processLine st line) = false /\
  methodParameters (processLine st line) = ∅ /\
  ClassAnalysis.methods (analysis (processLine st line))
  = ClassAnalysis.methods (analysis st) ++ declaredMethods [line].
Proof.
  intros Hno Hin0 Hmp. unfold declaredMethods, signatureLines. simpl.
  processLine_cases st line; simpl; rewrite ?Hparse; simpl; rewrite ?app_nil_r;
    try congruence.
  - by rewrite methods_parseClassDeclaration.
  - done.
  - done.
  - by apply String.eqb_eq in Hlvt.
  - unfold endOfMethod. destruct (currentMethod st); [|done].
    destruct (_ || _ || _); [|done]. simpl.
    by rewrite Hmp, updateParameterNames_empty.
Qed.

Lemma scanLines_without_table lines : forall st,
  Forall (fun l => JS.trim l <> "LocalVariableTable:") lines ->
  inLocalVariableTable st = false -> methodParameters st = ∅ ->
  ClassAnalysis.methods (analysis (scanLines st lines))
  = ClassAnalysis.methods (analysis st) ++ declaredMethods lines.
Proof.
  induction lines as [|l lines IH]; intros st Hall Hin Hmp.
  - unfold declaredMethods. simpl. by rewrite app_nil_r.
  - inversion Hall as [|? ? Hl Hrest]; subst.
    destruct (processLine_without_table st l Hl Hin Hmp) as (Hin' & Hmp' & Hm).
    change (l :: lines) with ([l] ++ lines).
    rewrite declaredMethods_app, scanLines_app. simpl.
    rewrite (IH _ Hrest Hin' Hmp'), Hm. by rewrite app_assoc.
Qed.

Lemma updatedParams_named (names : gmap nat string) (prev : list string) :
  Forall namedDescriptor (updatedParams names prev).
Proof.
  apply Forall_lookup. intros j p Hp.
  destruct (updatedParams_lookup _ _ _ _ Hp) as (ty & _ & ->).
  exists ty, (parameterName names j). split; [reflexivity|apply parameterName_nonempty].
Qed.

Lemma bareOrRewritten_named (bare ps : list string) :
  bareOrRewritten bare ps -> ps = bare \/ Forall namedDescriptor ps.
Proof.
  destruct 1 as [|names prev _ _]; [by left|right]. apply updatedParams_named.
Qed.

(** The claim of C1 as the specification words it fails: in a text
    without variable table the method keeps the bare type of its
    parameter, and a method with two tables has its parameter rewritten
    twice. *)
Lemma bare_parameter_survives :
  ClassAnalysis.methods (parseJavapOutput (text ["public void f(int);"; "}"]) "Foo")
  = [{| ClassMethod.name := "f"; ClassMethod.returnType := "void";
        ClassMethod.parameters := ["int"]; ClassMethod.modifiers := ["public"] |}] /\
  ~ namedDescriptor "int" /\
  ClassAnalysis.methods
    (parseJavapOutput
       (text ["public void f(int);";
              "LocalVariableTable:"; "0 1 0 x I"; "";
              "LocalVariableTable:"; "0 1 0 y I"; ""]) "Foo")
  = [{| ClassMethod.name := "f"; ClassMethod.returnType := "void";
        ClassMethod.parameters := ["int x y"]; ClassMethod.modifiers := ["public"] |}].
Proof.
  split; [reflexivity|]. split; [|reflexivity].
  intros H. apply namedDescriptor_has_space in H. discriminate.
Qed.

(** C2, on the code: when the signature of [g] arrives while the name [x]
    is pending for the parameter of [f], the name is dropped; [f] keeps its
    bare parameter and the scan goes on with an empty map. *)
Theorem pending_names_dropped_at_next_signature :
  let st := scanLines (initialState "Foo")
              ["public void f(int);"; "LocalVariableTable:"; "0 1 0 x I"] in
  methodParameters st = {[0 := "x"]} /\
  currentMethod st = Some 0 /\
  methodParameters (processLine st "public void g();") = ∅ /\
  ClassAnalysis.methods (analysis (processLine st "public void g();"))
  = [{| ClassMethod.name := "f"; ClassMethod.returnType := "void";
        ClassMethod.parameters := ["int"]; ClassMethod.modifiers := ["public"] |};
     {| ClassMethod.name := "g"; ClassMethod.returnType := "void";
        ClassMethod.parameters := []; ClassMethod.modifiers := ["public"] |}] /\
  ClassAnalysis.methods
    (parseJavapOutput
       (text ["public void f(int);"; "LocalVariableTable:"; "0 1 0 x I";
              "public void g();"; "}"]) "Foo")
  = [{| ClassMethod.name := "f"; ClassMethod.returnType := "void";
        ClassMethod.parameters := ["int"]; ClassMethod.modifiers := ["public"] |};
     {| ClassMethod.name := "g"; ClassMethod.returnType := "void";
        ClassMethod.parameters := []; ClassMethod.modifiers := ["public"] |}].
Proof. repeat split; vm_compute; reflexivity. Qed.

(** ** Lines without class declaration *)

Lemma declaration_updateParameterNames names cur a :
  declaration (updateParameterNames names cur a) = declaration a.
Proof. unfold updateParameterNames. by destruct (0 <? size names)%nat. Qed.

Lemma declaration_endOfMethod t st :
  declaration (analysis (endOfMethod t st)) = declaration (analysis st).
Proof.
  unfold endOfMethod. destruct (currentMethod st); [|done].
  destruct (_ || _ || _); [|done]. apply declaration_updateParameterNames.
Qed.

Lemma declaration_processLine st line :
  isClassDeclarationLine (JS.trim line) = false ->
  declaration (analysis (processLine st line)) = declaration (analysis st).
Proof.
  intros Hno. processLine_cases st line; simpl;
    rewrite ?declaration_endOfMethod, ?analysis_recordParameterName,
      ?declaration_updateParameterNames; done.
Qed.





(** ** Signature lines *)

Lemma startsWith_append (a b s : string) :
  JS.startsWith (a +:+ b) s = true -> JS.startsWith a s = true.
Proof.
  revert s. induction a as [|x a IH]; intros s; simpl; [done|].
  destruct s as [|y s]; [done|].
  intros H. apply andb_true_iff in H as [Hxy Hrest].
  rewrite Hxy. simpl. by apply IH.
Qed.

Lemma classDeclarationLine_public (t : string) :
  isClassDeclarationLine t = true -> JS.startsWith "public " t = true.
Proof.
  unfold isClassDeclarationLine. intros H.
  apply orb_true_iff in H as [H|H]; [apply orb_true_iff in H as [H|H]|].
  - by apply (startsWith_append "public " "class").
  - by apply (startsWith_append "public " "interface").
  - by apply (startsWith_append "public " "enum").
Qed.

Lemma length_methods_updateParameterNames names cur a :
  length (ClassAnalysis.methods (updateParameterNames names cur a))
  = length (ClassAnalysis.methods a).
Proof.
  unfold updateParameterNames. destruct (0 <? size names)%nat; [|done].
  simpl. apply length_alter.
Qed.

Lemma length_methods_endOfMethod t st :
  length (ClassAnalysis.methods (analysis (endOfMethod t st)))
  = length (ClassAnalysis.methods (analysis st)).
Proof.
  unfold endOfMethod. destruct (currentMethod st); [|done].
  destruct (_ || _ || _); [|done]. apply length_methods_updateParameterNames.
Qed.

Lemma includes_trimStart (c : ascii) (s : string) :
  JS.includes c s = false -> JS.includes c (JS.trimStart s) = false.
Proof.
  induction s as [|x s IH]; simpl; [done|].
  intros H. apply orb_false_iff in H as [Hx Hs].
  destruct (JS.isSpace x); [by apply IH|]. simpl. by rewrite Hx, Hs.
Qed.

Lemma includes_trimEnd (c : ascii) (s : string) :
  JS.includes c s = false -> JS.includes c (JS.trimEnd s) = false.
Proof.
  induction s as [|x s IH]; simpl; [done|].
  intros H. apply orb_false_iff in H as [Hx Hs]. specialize (IH Hs).
  destruct (JS.trimEnd s) as [|y r].
  - destruct (JS.isSpace x); [done|]. simpl. by rewrite Hx.
  - change (JS.includes c (String x (String y r)))
      with (Ascii.eqb x c || JS.includes c (String y r)).
    by rewrite Hx, IH.
Qed.

Lemma includes_trim (c : ascii) (s : string) :
  JS.includes c s = false -> JS.includes c (JS.trim s) = false.
Proof. intros H. unfold JS.trim. by apply includes_trimEnd, includes_trimStart. Qed.

Lemma lastIndexOf_absent (c : ascii) (s : string) :
  JS.includes c s = false -> JS.lastIndexOf c s = None.
Proof.
  induction s as [|x s IH]; simpl; [done|].
  intros H. apply orb_false_iff in H as [Hx Hs]. by rewrite (IH Hs), Hx.
Qed.

(** C4, as the scanner has it: a line is a signature line when its trimmed
    text starts with [public ] (and is no class declaration line) and
    contains an opening and a closing parenthesis; on such a line the
    method extracted from it, if the extraction returns one, is appended
    and becomes the current method; a line that does not start with
    [public ] appends nothing. *)
Theorem public_signature_line_appends (st : ParserState) (line : string) :
  (isClassDeclarationLine (JS.trim line) = false ->
   isMethodLine (JS.trim line) = true ->
   ClassAnalysis.methods (analysis (processLine st line))
   = ClassAnalysis.methods (analysis st)
       ++ match parseMethodFromJavap (JS.trim line) with
          | Some m => [m]
          | None => []
          end /\
   currentMethod (processLine st line)
   = match parseMethodFromJavap (JS.trim line) with
     | Some _ => Some (length (ClassAnalysis.methods (analysis st)))
     | None => None
     end) /\
  (JS.startsWith "public " (JS.trim line) = false ->
   length (ClassAnalysis.methods (analysis (processLine st line)))
   = length (ClassAnalysis.methods (analysis st))).
Proof.
  split.
  - intros Hclass Hmeth. unfold processLine. rewrite Hclass, Hmeth.
    destruct (parseMethodFromJavap (JS.trim line)); simpl; [done|].
    by rewrite app_nil_r.
  - intros Hpub.
    assert (Hc : isClassDeclarationLine (JS.trim line) = false).
    { destruct (isClassDeclarationLine (JS.trim line)) eqn:E; [|done].
      apply classDeclarationLine_public in E. congruence. }
    assert (Hm : isMethodLine (JS.trim line) = false).
    { unfold isMethodLine. by rewrite Hpub. }
    processLine_cases st line; simpl; try congruence;
      rewrite ?length_methods_endOfMethod, ?analysis_recordParameterName,
        ?length_methods_updateParameterNames; done.
Qed.

Lemma public_signature_line_appends_witness :
  ClassAnalysis.methods
    (analysis (processLine (initialState "Foo") "  public static int size(java.util.List<T>);"))
  = [{| ClassMethod.name := "size"; ClassMethod.returnType := "int";
        ClassMethod.parameters := ["java.util.List<T>"];
        ClassMethod.modifiers := ["public"; "static"] |}] /\
  length (ClassAnalysis.methods
            (analysis (processLine (initialState "Foo") "private void hidden();")))
  = 0.
Proof.
  split.
  - apply (proj1 (public_signature_line_appends (initialState "Foo")
                    "  public static int size(java.util.List<T>);")); reflexivity.
  - apply (proj2 (public_signature_line_appends (initialState "Foo")
                    "private void hidden();")); reflexivity.
Defined.

(** The claim of C4 as the specification words it fails: a line that
    begins with [protected] and has its parentheses is no signature line
    for the scanner, although the extraction would accept it. *)
Lemma protected_signature_ignored :
  JS.startsWith "protected " "protected void run(int);" = true /\
  JS.indexOf "("%char "protected void run(int);" = Some 18 /\
  JS.indexOfFrom ")"%char 18 "protected void run(int);" = Some 22 /\
  parseMethodFromJavap "protected void run(int);"
  = Some {| ClassMethod.name := "run"; ClassMethod.returnType := "void";
            ClassMethod.parameters := ["int"];
            ClassMethod.modifiers := ["protected"] |} /\
  ClassAnalysis.methods (analysis (processLine (initialState "Foo") "protected void run(int);"))
  = [] /\
  ClassAnalysis.methods (parseJavapOutput (text ["protected void run(int);"; "}"]) "Foo")
  = [].
Proof. repeat split; vm_compute; reflexivity. Qed.

(** C10: a line that passes the method test and whose text between the
    leading modifiers and the first opening parenthesis has no space, as
    the constructor line [public Foo();], yields no method: the extraction
    returns nothing and the methods of the analysis stay as they were. *)
Theorem constructor_line_dropped (st : ParserState) (line : string) :
  isMethodLine (JS.trim line) = true ->
  (forall head, signatureHead (JS.trim line) = Some head ->
                JS.includes " "%char head = false) ->
  parseMethodFromJavap (JS.trim line) = None /\
  ClassAnalysis.methods (analysis (processLine st line))
  = ClassAnalysis.methods (analysis st).
Proof.
  intros Hmeth Hhead.
  assert (Hnone : parseMethodFromJavap (JS.trim line) = None).
  { unfold parseMethodFromJavap. unfold signatureHead in Hhead.
    rewrite trim_idempotent.
    destruct (stripModifiers _ [] (JS.trim line) 0) as [[mods rem] startIndex].
    destruct (JS.indexOf "(" (JS.trim line)) as [parenIndex|]; [|done].
    destruct (JS.indexOfFrom ")" parenIndex (JS.trim line)); [|done].
    specialize (Hhead _ eq_refl).
    by rewrite (lastIndexOf_absent _ _ (includes_trim _ _ Hhead)). }
  split; [exact Hnone|].
  unfold processLine.
  destruct (isClassDeclarationLine (JS.trim line)).
  - apply methods_parseClassDeclaration.
  - by rewrite Hmeth, Hnone.
Qed.

Lemma constructor_line_dropped_witness :
  parseMethodFromJavap (JS.trim "  public Foo();") = None /\
  ClassAnalysis.methods (analysis (processLine (initialState "Foo") "  public Foo();"))
  = ClassAnalysis.methods (analysis (initialState "Foo")).
Proof.
  apply (constructor_line_dropped (initialState "Foo") "  public Foo();").
  - reflexivity.
  - intros head H. vm_compute in H. injection H as <-. reflexivity.
Defined.

(** ** Variable-table lines *)

Lemma startsWith_digit_head (p : string) (c : ascii) (r : string) :
  JS.isDigit c = true -> headIsNoDigit p = true -> JS.startsWith p (String c r) = false.
Proof.
  intros Hc Hp. destruct p as [|a p]; [done|]. simpl in *.
  destruct (Ascii.eqb a c) eqn:E; [|done].
  apply Ascii.eqb_eq in E. subst a. by rewrite Hc in Hp.
Qed.

Lemma eqb_digit_head (p : string) (c : ascii) (r : string) :
  JS.isDigit c = true -> headIsNoDigit p = true -> String.eqb (String c r) p = false.
Proof.
  intros Hc Hp. destruct p as [|a p]; [done|]. simpl in *.
  destruct (Ascii.eqb c a) eqn:E; [|done].
  apply Ascii.eqb_eq in E. subst a. by rewrite Hc in Hp.
Qed.

Lemma matchParamLine_digit_head (t : string) x :
  Regex.matchParamLine (JS.trim t) = Some x ->
  exists c r, JS.trim t = String c r /\ JS.isDigit c = true.
Proof.
  pose proof (trim_head t) as Hh.
  destruct (JS.trim t) as [|c r]; [done|].
  intros Hm. exists c, r. split; [done|].
  unfold Regex.matchParamLine in Hm. simpl in Hm. rewrite Hh in Hm.
  simpl in Hm. destruct (JS.isDigit c); [done|]. simpl in Hm. done.
Qed.

Lemma endOfMethod_digit_head (c : ascii) (r : string) (st : ParserState) :
  JS.isDigit c = true -> endOfMethod (String c r) st = st.
Proof.
  intros Hc. unfold endOfMethod, isMethodLine.
  rewrite !(startsWith_digit_head _ c r Hc) by reflexivity.
  simpl. by destruct (currentMethod st).
Qed.

(** What the loop body does on a data line of a variable table. *)
Lemma processLine_data_line (st : ParserState) (line slotText name type : string) :
  Regex.matchParamLine (JS.trim line) = Some (slotText, name, type) ->
  processLine st line
  = match (if inLocalVariableTable st then currentMethod st else None) with
    | Some cur =>
        if (JS.parseInt slotText <? parameterCount (analysis st) cur)%nat then
          {| analysis := analysis st;
             currentMethod := currentMethod st;
             inLocalVariableTable := inLocalVariableTable st;
             methodParameters := <[JS.parseInt slotText := name]> (methodParameters st) |}
        else st
    | None => st
    end.
Proof.
  intros Hm. destruct (matchParamLine_digit_head _ _ Hm) as (c & r & Ht & Hc).
  unfold processLine, isClassDeclarationLine, isMethodLine.
  rewrite Ht in *.
  rewrite !(startsWith_digit_head _ c r Hc) by reflexivity.
  rewrite !(eqb_digit_head _ c r Hc) by reflexivity. simpl.
  destruct (if inLocalVariableTable st then currentMethod st else None) as [cur|];
    [|by apply endOfMethod_digit_head].
  rewrite endOfMethod_digit_head by done.
  unfold recordParameterName. rewrite Hm. reflexivity.
Qed.









(** ** Modifiers *)

Lemma span_cons_true (p : ascii -> bool) (c : ascii) (s : string) :
  p c = true ->
  JS.span p (String c s) = (String c (fst (JS.span p s)), snd (JS.span p s)).
Proof. intros H. simpl. rewrite H. by destruct (JS.span p s). Qed.

Lemma span_cons_false (p : ascii -> bool) (c : ascii) (s : string) :
  p c = false -> JS.span p (String c s) = (EmptyString, String c s).
Proof. intros H. simpl. by rewrite H. Qed.

Lemma span_append (p : ascii -> bool) (s : string) :
  s = fst (JS.span p s) +:+ snd (JS.span p s).
Proof.
  induction s as [|c s IH]; [done|].
  destruct (p c) eqn:Hc.
  - rewrite (span_cons_true _ _ _ Hc). simpl. by rewrite <- IH.
  - by rewrite (span_cons_false _ _ _ Hc).
Qed.

Lemma span_rest (p : ascii -> bool) (s : string) :
  JS.span p (snd (JS.span p s)) = (EmptyString, snd (JS.span p s)).
Proof.
  induction s as [|c s IH]; [done|].
  destruct (p c) eqn:Hc.
  - by rewrite (span_cons_true _ _ _ Hc).
  - rewrite (span_cons_false _ _ _ Hc). simpl. by rewrite Hc.
Qed.

Lemma span_allWord (s : string) : allWord (fst (JS.span JS.isWord s)) = true.
Proof.
  induction s as [|c s IH]; [done|].
  destruct (JS.isWord c) eqn:Hc.
  - rewrite (span_cons_true _ _ _ Hc). simpl. by rewrite Hc, IH.
  - by rewrite (span_cons_false _ _ _ Hc).
Qed.

Lemma length_span_rest (p : ascii -> bool) (s : string) :
  String.length (snd (JS.span p s)) <= String.length s.
Proof.
  induction s as [|c s IH]; [done|].
  destruct (p c) eqn:Hc.
  - rewrite (span_cons_true _ _ _ Hc). simpl. lia.
  - by rewrite (span_cons_false _ _ _ Hc).
Qed.

Lemma tokens_nonword (c : ascii) (s : string) :
  JS.isWord c = false -> tokens (String c s) = tokens s.
Proof. intros H. simpl. by rewrite H. Qed.

(** The tokens of a string that starts with a word character: its first
    run, then the tokens of what follows the run. *)
Lemma tokens_word (s : string) : forall c : ascii,
  JS.isWord c = true ->
  tokens (String c s)
  = String c (fst (JS.span JS.isWord s)) :: tokens (snd (JS.span JS.isWord s)).
Proof.
  induction s as [|d s IH]; intros c Hc.
  - simpl. by rewrite Hc.
  - change (tokens (String c (String d s)))
      with (if JS.isWord c then
              if JS.isWord d then
                match tokens (String d s) with
                | h :: t => String c h :: t
                | [] => [String c EmptyString]
                end
              else String c EmptyString :: tokens (String d s)
            else tokens (String d s)).
    rewrite Hc. destruct (JS.isWord d) eqn:Hd.
    + rewrite (IH d Hd), (span_cons_true _ _ _ Hd). reflexivity.
    + by rewrite (span_cons_false _ _ _ Hd).
Qed.

Lemma eqb_cons (a b : ascii) (u v : string) :
  String.eqb (String a u) (String b v) = Ascii.eqb a b && String.eqb u v.
Proof. simpl. by destruct (Ascii.eqb a b). Qed.

(** A word of word characters matches at the head of [s], with a word
    boundary behind it, exactly when it is the first run of [s]. *)
Lemma keyword_is_run (w : string) : forall s : string,
  allWord w = true -> w <> EmptyString ->
  JS.startsWith w s
  && negb (Regex.isWordAt (Regex.headChar (JS.skip (String.length w) s)))
  = String.eqb w (fst (JS.span JS.isWord s)).
Proof.
  induction w as [|a w IH]; [done|]. intros s Hall _.
  simpl in Hall. apply andb_true_iff in Hall as [Ha Hw].
  destruct s as [|b s].
  - reflexivity.
  - change (JS.startsWith (String a w) (String b s))
      with (Ascii.eqb a b && JS.startsWith w s).
    change (JS.skip (String.length (String a w)) (String b s))
      with (JS.skip (String.length w) s).
    destruct (Ascii.eqb a b) eqn:Hab.
    + apply Ascii.eqb_eq in Hab. subst b.
      rewrite (span_cons_true _ _ _ Ha). simpl fst.
      rewrite eqb_cons, Ascii.eqb_refl. simpl andb.
      destruct w as [|a' w].
      * simpl. destruct s as [|x s]; [done|]. simpl.
        destruct (JS.isWord x) eqn:Hx; [|done].
        by destruct (JS.span JS.isWord s).
      * by apply IH.
    + simpl andb. destruct (JS.isWord b) eqn:Hb.
      * rewrite (span_cons_true _ _ _ Hb). simpl fst. by rewrite eqb_cons, Hab.
      * by rewrite (span_cons_false _ _ _ Hb).
Qed.

Lemma lastChar_word (w : string) :
  allWord w = true -> w <> EmptyString -> Regex.isWordAt (Regex.lastChar w) = true.
Proof.
  induction w as [|a w IH]; [done|]. intros Hall _.
  simpl in Hall. apply andb_true_iff in Hall as [Ha Hw].
  destruct w as [|b w]; [exact Ha|]. by apply IH.
Qed.

Lemma find_ext_Forall {A : Type} (f g : A -> bool) (l : list A) :
  Forall (fun x => f x = g x) l -> List.find f l = List.find g l.
Proof.
  induction 1 as [|x l Hx _ IH]; [done|]. simpl. by rewrite Hx, IH.
Qed.

Lemma find_eqb (run : string) (l : list string) :
  List.find (fun w => String.eqb w run) l
  = if existsb (String.eqb run) l then Some run else None.
Proof.
  induction l as [|w l IH]; [done|]. simpl.
  rewrite (String.eqb_sym run w).
  destruct (String.eqb w run) eqn:E; [|exact IH].
  apply String.eqb_eq in E. by subst w.
Qed.

Lemma classModifierWords_words :
  Forall (fun w => allWord w = true /\ w <> EmptyString) Regex.classModifierWords.
Proof. repeat constructor; done. Qed.

(** At the start of a run, the pattern matches exactly when the run is one
    of the modifier words. *)
Lemma matchModifierAt_run (prev : option ascii) (c : ascii) (s : string) :
  Regex.isWordAt prev = false -> JS.isWord c = true ->
  Regex.matchModifierAt prev (String c s)
  = if isClassModifier (fst (JS.span JS.isWord (String c s)))
    then Some (fst (JS.span JS.isWord (String c s))) else None.
Proof.
  intros Hprev Hc. unfold Regex.matchModifierAt, Regex.wordBoundary.
  simpl Regex.headChar at 1. simpl Regex.isWordAt at 2. rewrite Hprev, Hc. simpl xorb.
  unfold isClassModifier. rewrite <- find_eqb.
  apply find_ext_Forall.
  eapply Forall_impl; [exact classModifierWords_words|].
  intros w [Hall Hne]. simpl.
  rewrite (lastChar_word _ Hall Hne). simpl xorb.
  by apply keyword_is_run.
Qed.

Lemma startsWith_nonword_head (w : string) (c : ascii) (s : string) :
  allWord w = true -> w <> EmptyString -> JS.isWord c = false ->
  JS.startsWith w (String c s) = false.
Proof.
  intros Hall Hne Hc. destruct w as [|a w]; [done|].
  simpl in *. apply andb_true_iff in Hall as [Ha _].
  destruct (Ascii.eqb a c) eqn:E; [|done].
  apply Ascii.eqb_eq in E. subst a. congruence.
Qed.

(** No match where the pattern would have to start with a character that
    is no word character, or in the middle of a run. *)
Lemma matchModifierAt_none (prev : option ascii) (c : ascii) (s : string) :
  Regex.isWordAt prev = true \/ JS.isWord c = false ->
  Regex.matchModifierAt prev (String c s) = None.
Proof.
  intros H. unfold Regex.matchModifierAt, Regex.wordBoundary. simpl Regex.headChar at 1.
  simpl Regex.isWordAt at 2.
  destruct (JS.isWord c) eqn:Hc.
  - destruct H as [H|H]; [|done]. by rewrite H.
  - destruct (xorb _ false); [|done].
    rewrite (find_ext_Forall _ (fun _ => false)).
    + by induction Regex.classModifierWords.
    + eapply Forall_impl; [exact classModifierWords_words|].
      intros w [Hall Hne]. simpl.
      by rewrite (startsWith_nonword_head _ _ _ Hall Hne Hc).
Qed.

Lemma scanModifiers_cons (prev : option ascii) (c : ascii) (s : string) :
  Regex.scanModifiers prev 0 (String c s)
  = match Regex.matchModifierAt prev (String c s) with
    | Some w => w :: Regex.scanModifiers (Some c) (String.length w - 1) s
    | None => Regex.scanModifiers (Some c) 0 s
    end.
Proof. reflexivity. Qed.

(** Passing over the rest of a matched word. *)
Lemma scanModifiers_inside (a : string) : forall (rest : string) (c : ascii),
  JS.isWord c = true -> allWord a = true ->
  exists x, JS.isWord x = true /\
    Regex.scanModifiers (Some c) (String.length a) (a +:+ rest)
    = Regex.scanModifiers (Some x) 0 rest.
Proof.
  induction a as [|d a IH]; intros rest c Hc Hall.
  - by exists c.
  - simpl in Hall. apply andb_true_iff in Hall as [Hd Ha].
    destruct (IH rest d Hd Ha) as (x & Hx & Heq).
    exists x. split; [exact Hx|]. simpl. exact Heq.
Qed.

Lemma scanModifiers_tokens (n : nat) : forall (s : string) (prev : option ascii),
  String.length s <= n ->
  Regex.scanModifiers prev 0 s
  = List.filter isClassModifier
      (if Regex.isWordAt prev then tokens (snd (JS.span JS.isWord s)) else tokens s).
Proof.
  induction n as [|n IH]; intros s prev Hlen; destruct s as [|c s];
    try (simpl; by destruct (Regex.isWordAt prev));
    try (simpl in Hlen; lia).
  simpl in Hlen. assert (Hs : String.length s <= n) by lia.
  rewrite scanModifiers_cons.
  destruct (Regex.isWordAt prev) eqn:Hprev.
  { rewrite matchModifierAt_none by (by left). rewrite (IH _ _ Hs). simpl Regex.isWordAt.
    destruct (JS.isWord c) eqn:Hc.
    - by rewrite (span_cons_true _ _ _ Hc).
    - rewrite (span_cons_false _ _ _ Hc). simpl snd. by rewrite (tokens_nonword _ _ Hc). }
  destruct (JS.isWord c) eqn:Hc.
  - rewrite (matchModifierAt_run _ _ _ Hprev Hc), (tokens_word _ _ Hc).
    rewrite (span_cons_true _ _ _ Hc). simpl fst. simpl List.filter.
    destruct (isClassModifier (String c (fst (JS.span JS.isWord s)))).
    + f_equal.
      replace (String.length (String c (fst (JS.span JS.isWord s))) - 1)
        with (String.length (fst (JS.span JS.isWord s))) by (simpl; lia).
      destruct (scanModifiers_inside _ (snd (JS.span JS.isWord s)) c Hc (span_allWord s))
        as (x & Hx & Hin).
      rewrite <- (span_append JS.isWord s) in Hin. rewrite Hin.
      rewrite IH by (pose proof (length_span_rest JS.isWord s); lia).
      simpl Regex.isWordAt. by rewrite Hx, span_rest.
    + rewrite (IH _ _ Hs). simpl Regex.isWordAt. by rewrite Hc.
  - rewrite matchModifierAt_none by (by right). rewrite (IH _ _ Hs).
    simpl Regex.isWordAt. by rewrite Hc, (tokens_nonword _ _ Hc).
Qed.

(** The modifiers of a declaration line are its tokens that are modifier
    words, in the order of the line. *)
Lemma matchModifiers_tokens (line : string) :
  Regex.matchModifiers line = List.filter isClassModifier (tokens line).
Proof.
  unfold Regex.matchModifiers. by rewrite (scanModifiers_tokens (String.length line)).
Qed.

Lemma startsWith_split (p s : string) :
  JS.startsWith p s = true -> s = p +:+ JS.skip (String.length p) s.
Proof.
  revert s. induction p as [|a p IH]; intros s H; [done|].
  destruct s as [|b s]; [done|]. simpl in H.
  apply andb_true_iff in H as [Hab Hp]. apply Ascii.eqb_eq in Hab. subst b.
  simpl. by rewrite <- (IH _ Hp).
Qed.

Lemma isMethodModifier_In (w : string) :
  isMethodModifier w = true <-> In w modifierWords.
Proof.
  unfold isMethodModifier. rewrite existsb_exists. split.
  - intros (x & Hx & E). apply String.eqb_eq in E. by subst x.
  - intros H. exists w. split; [exact H|apply String.eqb_refl].
Qed.

Lemma isClassModifier_In (w : string) :
  isClassModifier w = true <-> In w Regex.classModifierWords.
Proof.
  unfold isClassModifier. rewrite existsb_exists. split.
  - intros (x & Hx & E). apply String.eqb_eq in E. by subst x.
  - intros H. exists w. split; [exact H|apply String.eqb_refl].
Qed.

Lemma findModifier_Some (rem w : string) :
  findModifier rem = Some w ->
  In w modifierWords /\ rem = (w +:+ " ") +:+ JS.skip (String.length w + 1) rem.
Proof.
  intros H. apply find_some in H as [Hin Hs]. split; [exact Hin|].
  apply startsWith_split in Hs. rewrite length_append in Hs. exact Hs.
Qed.

(** The loop that strips the modifiers: what it has consumed is the
    modifiers it returns, each followed by a space; with fuel beyond the
    length of the line it stops because no modifier is left in front. *)
Lemma stripModifiers_exits (fuel : nat) :
  forall (mods : list string) (rem : string) (start : nat)
         (mods' : list string) (rem' : string) (start' : nat),
  stripModifiers fuel mods rem start = (mods', rem', start') ->
  exists stripped,
    mods' = mods ++ stripped /\
    Forall (fun w => In w modifierWords) stripped /\
    rem = modifierPrefix stripped +:+ rem' /\
    start' = start + String.length (modifierPrefix stripped) /\
    (String.length rem < fuel -> findModifier rem' = None).
Proof.
  induction fuel as [|fuel IH]; intros mods rem start mods' rem' start' H.
  - injection H as <- <- <-. exists []. simpl.
    rewrite app_nil_r, Nat.add_0_r. repeat split; [constructor|lia].
  - simpl in H. destruct (findModifier rem) as [w|] eqn:Hf.
    + destruct (findModifier_Some _ _ Hf) as [Hin Hrem].
      apply IH in H as (stripped & -> & Hall & Hrest & -> & Hfuel).
      exists (w :: stripped). rewrite <- app_assoc. simpl.
      split; [done|]. split; [by constructor|].
      unfold JS.substringFrom in *.
      split; [|split].
      * rewrite Hrem at 1. rewrite Hrest at 1. by rewrite !append_assoc.
      * rewrite !length_append. simpl. lia.
      * intros Hlen. apply Hfuel.
        apply (f_equal String.length) in Hrem.
        rewrite !length_append in Hrem. simpl in Hrem. lia.
    + injection H as <- <- <-. exists []. simpl.
      rewrite app_nil_r, Nat.add_0_r. repeat split; [constructor|done].
Qed.

Lemma parseMethodFromJavap_modifiers (line : string) (m : ClassMethod.t) :
  parseMethodFromJavap line = Some m ->
  Forall (fun w => In w modifierWords) (ClassMethod.modifiers m) /\
  exists rest,
    JS.trim line = modifierPrefix (ClassMethod.modifiers m) +:+ rest /\
    findModifier rest = None.
Proof.
  unfold parseMethodFromJavap.
  destruct (stripModifiers _ [] (JS.trim line) 0) as [[mods rem] start] eqn:Hs.
  apply stripModifiers_exits in Hs as (stripped & -> & Hall & Hrem & _ & Hfuel).
  destruct (JS.indexOf "(" (JS.trim line)) as [parenIndex|]; [|done].
  destruct (JS.indexOfFrom ")" parenIndex (JS.trim line)); [|done].
  destruct (JS.lastIndexOf " " _); [|done].
  intros [= <-]. simpl. split; [exact Hall|].
  exists rem. split; [exact Hrem|]. apply Hfuel. lia.
Qed.

Lemma declaredMethods_modifiers (lines : list string) :
  Forall (fun m0 => Forall (fun w => In w modifierWords) (ClassMethod.modifiers m0))
    (declaredMethods lines).
Proof.
  apply Forall_forall. intros m0 Hm0. unfold declaredMethods in Hm0.
  apply list_elem_of_omap in Hm0 as (t & _ & Hp).
  by apply parseMethodFromJavap_modifiers in Hp as [H _].
Qed.

Lemma classModifiers_processLine st line :
  Forall (fun w => In w Regex.classModifierWords) (ClassAnalysis.modifiers (analysis st)) ->
  Forall (fun w => In w Regex.classModifierWords)
    (ClassAnalysis.modifiers (analysis (processLine st line))).
Proof.
  intros H. destruct (isClassDeclarationLine (JS.trim line)) eqn:Hc.
  - unfold processLine. rewrite Hc. simpl.
    assert (Hm : forall a, ClassAnalysis.modifiers (parseClassDeclaration (JS.trim line) a)
                           = Regex.matchModifiers (JS.trim line)).
    { intros a. unfold parseClassDeclaration.
      destruct (Regex.matchClassName _) as [full|];
        [destruct (1 <? length (JS.split "." full))%nat|]; reflexivity. }
    rewrite Hm, matchModifiers_tokens. apply Forall_forall. intros w Hw.
    apply list_elem_of_In, filter_In in Hw as [_ Hw]. by apply isClassModifier_In.
  - pose proof (declaration_processLine st line Hc) as Hd.
    unfold declaration in Hd. by injection Hd as _ _ -> _ _.
Qed.

Lemma Forall2_Forall_transfer {A B : Type} (R : A -> B -> Prop)
    (P : A -> Prop) (Q : B -> Prop) (l : list A) (k : list B) :
  (forall x y, R x y -> P x -> Q y) -> Forall2 R l k -> Forall P l -> Forall Q k.
Proof.
  intros HR H2. induction H2 as [|x y l k Hxy _ IH]; intros HP; [constructor|].
  inversion HP; subst. constructor; eauto.
Qed.

(** X17: the modifiers that the two extractions store.  Handed a line,
    the declaration extraction stores the words of the line that belong to
    the class vocabulary, in the order of the line and as often as the line
    has them; the modifiers of a method are the vocabulary words, each
    followed by a space, that start its signature line, in order, up to the
    first text that starts with no such word; in every parse result the
    class modifiers belong to the class vocabulary and the modifiers of
    every method to the method vocabulary. *)
Theorem modifiers_follow_the_line :
  (forall (line : string) (a : ClassAnalysis.t),
     ClassAnalysis.modifiers (parseClassDeclaration line a)
     = List.filter isClassModifier (tokens line)) /\
  (forall (line : string) (m : ClassMethod.t),
     parseMethodFromJavap line = Some m ->
     exists rest,
       JS.trim line = modifierPrefix (ClassMethod.modifiers m) +:+ rest /\
       findModifier rest = None) /\
  (forall output className : string,
     Forall (fun w => In w Regex.classModifierWords)
       (ClassAnalysis.modifiers (parseJavapOutput output className)) /\
     Forall (fun m => Forall (fun w => In w modifierWords) (ClassMethod.modifiers m))
       (ClassAnalysis.methods (parseJavapOutput output className))).
Proof.
  split; [|split].
  - intros line a. rewrite <- matchModifiers_tokens. unfold parseClassDeclaration.
    destruct (Regex.matchClassName line) as [full|];
      [destruct (1 <? length (JS.split "." full))%nat|]; reflexivity.
  - intros line m H. by apply parseMethodFromJavap_modifiers in H as [_ H].
  - intros output className. split.
    + unfold parseJavapOutput.
      apply (scanLines_invariant
               (fun st => Forall (fun w => In w Regex.classModifierWords)
                            (ClassAnalysis.modifiers (analysis st)))).
      * intros st line. apply classModifiers_processLine.
      * constructor.
    + eapply Forall2_Forall_transfer;
        [|apply parseJavapOutput_follows|apply declaredMethods_modifiers].
      intros m0 m (_ & _ & Hm & _) H. simpl in H. by rewrite Hm.
Qed.

Lemma modifiers_follow_the_line_witness :
  exists rest,
    JS.trim "  public static final int size();"
    = modifierPrefix ["public"; "static"; "final"] +:+ rest /\
    findModifier rest = None.
Proof.
  apply (proj1 (proj2 modifiers_follow_the_line)
           "  public static final int size();"
           {| ClassMethod.name := "size"; ClassMethod.returnType := "int";
              ClassMethod.parameters := [];
              ClassMethod.modifiers := ["public"; "static"; "final"] |}).
  reflexivity.
Defined.

(** A word that a line repeats is repeated in the modifiers, for a
    declaration line and for a signature line. *)
Example repeated_modifier_kept :
  ClassAnalysis.modifiers (parseJavapOutput (text ["public class public"]) "Foo")
  = ["public"; "public"] /\
  map ClassMethod.modifiers
    (ClassAnalysis.methods (parseJavapOutput (text ["public public void f();"]) "Foo"))
  = [["public"; "public"]] /\
  ~ NoDup ["public"; "public"].
Proof.
  split; [reflexivity|]. split; [reflexivity|].
  intros H. apply NoDup_cons in H as [H _]. apply H. by left.
Qed.

(** ** The notions of the specification on examples *)

Example fragments_example :
  fragments "java.util.Map<K, V> m, int n" = ["java.util.Map<K, V> m"; " int n"] /\
  fragments "a>, b" = ["a>, b"] /\
  fragments EmptyString = [EmptyString].
Proof. repeat split; vm_compute; reflexivity. Qed.

Example tokens_example :
  tokens "public final class a.B$c extends static_x" 
  = ["public"; "final"; "class"; "a"; "B"; "c"; "extends"; "static_x"].
Proof. vm_compute. reflexivity. Qed.

Example declaredMethods_example :
  map ClassMethod.name
    (declaredMethods ["public class Foo {"; "  public void f(int);"; "  public Foo();";
                      "  private void g();"; "  public static int h();"; "}"])
  = ["f"; "h"].
Proof. vm_compute. reflexivity. Qed.

(** ** Names, return types and parameters of the methods *)

Lemma anyChar_trimStart (s : string) :
  anyChar notSpace (JS.trimStart s) = anyChar notSpace s.
Proof.
  induction s as [|c s IH]; [done|]. simpl. unfold notSpace at 2.
  destruct (JS.isSpace c) eqn:Hc; simpl; [exact IH|].
  unfold notSpace. by rewrite Hc.
Qed.

Lemma trimEnd_empty (s : string) :
  JS.trimEnd s = EmptyString <-> anyChar notSpace s = false.
Proof.
  induction s as [|c s IH]; [done|]. simpl. unfold notSpace at 1.
  destruct (JS.trimEnd s) as [|d r].
  - destruct (JS.isSpace c); simpl; [tauto|]. split; done.
  - split; [done|]. intros H. apply orb_false_iff in H as [_ H].
    by apply IH in H.
Qed.

(** A string trims to the empty string exactly when it is blank. *)
Lemma trim_empty (s : string) :
  JS.trim s = EmptyString <-> anyChar notSpace s = false.
Proof. unfold JS.trim. by rewrite trimEnd_empty, anyChar_trimStart. Qed.

Lemma lastChar_cons (c : ascii) (s : string) :
  Regex.lastChar (String c s)
  = match s with EmptyString => Some c | String _ _ => Regex.lastChar s end.
Proof. by destruct s. Qed.

Lemma lastChar_trimEnd (s : string) :
  match Regex.lastChar (JS.trimEnd s) with
  | Some c => JS.isSpace c = false
  | None => True
  end.
Proof.
  induction s as [|c s IH]; [done|]. simpl JS.trimEnd.
  destruct (JS.trimEnd s) as [|d r].
  - destruct (JS.isSpace c) eqn:Hc; [done|exact Hc].
  - by rewrite lastChar_cons.
Qed.

Lemma lastChar_trim (s : string) :
  match Regex.lastChar (JS.trim s) with
  | Some c => JS.isSpace c = false
  | None => True
  end.
Proof. apply lastChar_trimEnd. Qed.

Lemma lastChar_anyChar (p : ascii -> bool) (s : string) (c : ascii) :
  Regex.lastChar s = Some c -> p c = true -> anyChar p s = true.
Proof.
  induction s as [|d s IH]; [done|]. rewrite lastChar_cons.
  destruct s as [|e s].
  - intros [= ->] Hp. simpl. by rewrite Hp.
  - intros Hl Hp. simpl in *. rewrite (IH Hl Hp). apply orb_true_r.
Qed.

(** The string around the last occurrence of a character. *)
Lemma lastIndexOf_split (c : ascii) (s : string) (i : nat) :
  JS.lastIndexOf c s = Some i ->
  s = JS.keep i s +:+ String c (JS.skip (S i) s) /\
  JS.includes c (JS.skip (S i) s) = false.
Proof.
  revert i. induction s as [|a s IH]; intros i; [done|]. simpl JS.lastIndexOf.
  destruct (JS.lastIndexOf c s) as [j|] eqn:Hj.
  - intros [= <-]. destruct (IH j eq_refl) as [Hs Hn].
    split; [|exact Hn]. simpl. f_equal. exact Hs.
  - destruct (Ascii.eqb a c) eqn:Hac; [|done]. intros [= <-].
    apply Ascii.eqb_eq in Hac. subst a. split; [done|]. simpl.
    clear IH. induction s as [|b s IHs]; [done|]. simpl in Hj |- *.
    destruct (JS.lastIndexOf c s); [done|].
    destruct (Ascii.eqb b c); [done|]. by rewrite IHs.
Qed.

Lemma lastChar_append (a b : string) :
  b <> EmptyString -> Regex.lastChar (a +:+ b) = Regex.lastChar b.
Proof.
  intros Hb. induction a as [|x a IH]; [done|].
  change (String x a +:+ b) with (String x (a +:+ b)).
  rewrite lastChar_cons. destruct (a +:+ b) eqn:E; [|exact IH].
  destruct a; simpl in E; [done|discriminate].
Qed.

Lemma lastChar_nonempty (x : ascii) (u : string) :
  exists c, Regex.lastChar (String x u) = Some c.
Proof.
  revert x. induction u as [|y u IH]; intros x; [by exists x|].
  rewrite lastChar_cons. apply IH.
Qed.

Lemma space_is_space : JS.isSpace " "%char = true.
Proof. reflexivity. Qed.

(** The two halves of a trimmed text with a space inside: both have a
    character that is no space, and the second has no space character. *)
Lemma trimmed_around_last_space (b : string) (i : nat) :
  JS.lastIndexOf " "%char (JS.trim b) = Some i ->
  anyChar notSpace (JS.keep i (JS.trim b)) = true /\
  anyChar notSpace (JS.skip (S i) (JS.trim b)) = true /\
  JS.includes " "%char (JS.skip (S i) (JS.trim b)) = false.
Proof.
  intros Hi. destruct (lastIndexOf_split _ _ _ Hi) as [Hs Hn].
  pose proof (trim_head b) as Hh. pose proof (lastChar_trim b) as Hl.
  split; [|split; [|exact Hn]].
  - destruct (JS.trim b) as [|h r]; [done|].
    destruct i as [|i].
    + simpl in Hs. injection Hs as ->. by rewrite space_is_space in Hh.
    + simpl. unfold notSpace at 1. by rewrite Hh.
  - rewrite Hs in Hl.
    destruct (JS.skip (S i) (JS.trim b)) as [|x u] eqn:Hu.
    + rewrite lastChar_append in Hl by done. simpl in Hl. by rewrite space_is_space in Hl.
    + rewrite lastChar_append in Hl by done. rewrite lastChar_cons in Hl.
      destruct (Regex.lastChar (String x u)) as [c|] eqn:Hc.
      * apply (lastChar_anyChar _ _ c Hc). unfold notSpace. by rewrite Hl.
      * destruct (lastChar_nonempty x u) as [c Hc']. congruence.
Qed.

Lemma collectParameters_nonempty (raw : string) :
  Forall (fun p => p <> EmptyString) (collectParameters raw).
Proof.
  unfold collectParameters. destruct (JS.truthy (JS.trim raw)); [|constructor].
  apply Forall_forall. intros p Hp.
  apply list_elem_of_In, filter_In in Hp as [_ Hp]. by destruct p.
Qed.

Lemma parseMethodFromJavap_names (line : string) (m : ClassMethod.t) :
  parseMethodFromJavap line = Some m ->
  ClassMethod.name m <> EmptyString /\
  JS.includes " "%char (ClassMethod.name m) = false /\
  ClassMethod.returnType m <> EmptyString /\
  Forall (fun p => p <> EmptyString) (ClassMethod.parameters m).
Proof.
  unfold parseMethodFromJavap.
  destruct (stripModifiers _ [] (JS.trim line) 0) as [[mods rem] start].
  destruct (JS.indexOf "(" (JS.trim line)) as [parenIndex|]; [|done].
  destruct (JS.indexOfFrom ")" parenIndex (JS.trim line)) as [closeParenIndex|]; [|done].
  destruct (JS.lastIndexOf " " _) as [i|] eqn:Hi; [|done].
  intros [= <-]. simpl.
  destruct (trimmed_around_last_space _ _ Hi) as (Hret & Hname & Hnospace).
  set (b := JS.trim (JS.substring start parenIndex (JS.trim line))) in *.
  change (JS.substring 0 i b) with (JS.keep (i - 0) b).
  unfold JS.substringFrom. rewrite Nat.sub_0_r, Nat.add_1_r.
  repeat split.
  - intros H. apply trim_empty in H. congruence.
  - by apply includes_trim.
  - intros H. apply trim_empty in H. congruence.
  - apply collectParameters_nonempty.
Qed.

Lemma declaredMethods_names (lines : list string) :
  Forall (fun m0 =>
            ClassMethod.name m0 <> EmptyString /\
            JS.includes " "%char (ClassMethod.name m0) = false /\
            ClassMethod.returnType m0 <> EmptyString /\
            Forall (fun p => p <> EmptyString) (ClassMethod.parameters m0))
    (declaredMethods lines).
Proof.
  apply Forall_forall. intros m0 Hm0. unfold declaredMethods in Hm0.
  apply list_elem_of_omap in Hm0 as (t & _ & Hp).
  by apply parseMethodFromJavap_names in Hp.
Qed.

Lemma namedDescriptor_nonempty (p : string) : namedDescriptor p -> p <> EmptyString.
Proof. intros H ->. by apply namedDescriptor_has_space in H. Qed.

(** X1: in every parse result, every method has a name that is not empty
    and has no space, a return type that is not empty, and no empty
    parameter descriptor. *)
Theorem methods_have_names_and_types (output className : string) :
  Forall (fun m =>
            ClassMethod.name m <> EmptyString /\
            JS.includes " "%char (ClassMethod.name m) = false /\
            ClassMethod.returnType m <> EmptyString /\
            Forall (fun p => p <> EmptyString) (ClassMethod.parameters m))
    (ClassAnalysis.methods (parseJavapOutput output className)).
Proof.
  eapply Forall2_Forall_transfer;
    [|apply parseJavapOutput_follows|apply declaredMethods_names].
  intros m0 m (Hn & Hr & _ & Hp) (H1 & H2 & H3 & H4). simpl.
  rewrite Hn, Hr. repeat split; try assumption.
  destruct (bareOrRewritten_named _ _ Hp) as [->|Hnamed]; [exact H4|].
  eapply Forall_impl; [exact Hnamed|]. intros p. apply namedDescriptor_nonempty.
Qed.

(** ** Lines between two methods *)

Lemma endOfMethod_no_current (t : string) (st : ParserState) :
  currentMethod st = None -> endOfMethod t st = st.
Proof. intros H. unfold endOfMethod. by rewrite H. Qed.

Lemma processLine_no_current (st : ParserState) (line : string) :
  currentMethod st = None ->
  isSignatureLine (JS.trim line) = false ->
  ClassAnalysis.methods (analysis (processLine st line))
  = ClassAnalysis.methods (analysis st) /\
  currentMethod (processLine st line) = None.
Proof.
  intros Hnone Hsig. unfold isSignatureLine in Hsig.
  processLine_cases st line; simpl;
    rewrite ?Hclass, ?Hmeth in Hsig; try discriminate; try congruence;
    rewrite ?endOfMethod_no_current by done; try done.
  by rewrite methods_parseClassDeclaration.
Qed.

Lemma startsWith_head (a : ascii) (p t : string) :
  JS.startsWith (String a p) t = true -> exists r, t = String a r.
Proof.
  destruct t as [|b r]; [done|]. simpl. intros H.
  apply andb_true_iff in H as [H _]. apply Ascii.eqb_eq in H. subst b. by exists r.
Qed.

Lemma endOfMethod_closes (t : string) (st : ParserState) :
  JS.startsWith "}" t = true \/ JS.startsWith "SourceFile:" t = true ->
  currentMethod (endOfMethod t st) = None.
Proof.
  intros H. unfold endOfMethod. destruct (currentMethod st) eqn:Hc; [|done].
  destruct H as [-> | ->]; by rewrite ?orb_true_r.
Qed.

Lemma processLine_closes (st : ParserState) (line : string) :
  JS.startsWith "}" (JS.trim line) = true \/
  JS.startsWith "SourceFile:" (JS.trim line) = true ->
  currentMethod (processLine st line) = None.
Proof.
  intros H.
  assert (Hshape : isClassDeclarationLine (JS.trim line) = false /\
                   isMethodLine (JS.trim line) = false /\
                   String.eqb (JS.trim line) "LocalVariableTable:" = false /\
                   JS.startsWith "Start" (JS.trim line) = false /\
                   JS.startsWith "Slot" (JS.trim line) = false /\
                   String.eqb (JS.trim line) "" = false).
  { destruct H as [H|H].
    - apply startsWith_head in H as [r ->]. by repeat split.
    - apply startsWith_split in H. rewrite H. by repeat split. }
  destruct Hshape as (Hc & Hm & Hl & Hs1 & Hs2 & Hb).
  unfold processLine. rewrite Hc, Hm, Hl, Hs1, Hs2, Hb. simpl.
  destruct (if inLocalVariableTable st then currentMethod st else None);
    by apply endOfMethod_closes.
Qed.

(** X2: a closing brace, the [SourceFile:] trailer and a signature line
    whose extraction fails leave the scanner without current method; and
    as long as there is no current method, lines that are no signature
    lines change no method: a variable table that follows a constructor or
    a closing brace renames nothing. *)
Theorem nothing_renamed_between_methods (st : ParserState) (lines : list string) :
  (forall line,
     JS.startsWith "}" (JS.trim line) = true \/
     JS.startsWith "SourceFile:" (JS.trim line) = true \/
     (isSignatureLine (JS.trim line) = true /\
      parseMethodFromJavap (JS.trim line) = None) ->
     currentMethod (processLine st line) = None) /\
  (currentMethod st = None ->
   Forall (fun l => isSignatureLine (JS.trim l) = false) lines ->
   ClassAnalysis.methods (analysis (scanLines st lines))
   = ClassAnalysis.methods (analysis st) /\
   currentMethod (scanLines st lines) = None).
Proof.
  split.
  - intros line [H|[H|[Hsig Hnone]]];
      [apply processLine_closes; by left|apply processLine_closes; by right|].
    unfold isSignatureLine in Hsig. apply andb_true_iff in Hsig as [Hc Hm].
    apply negb_true_iff in Hc. unfold processLine. by rewrite Hc, Hm, Hnone.
  - revert st. induction lines as [|l lines IH]; intros st Hnone Hall; [done|].
    inversion Hall as [|? ? Hl Hrest]; subst.
    destruct (processLine_no_current st l Hnone Hl) as [Hm Hc].
    change (l :: lines) with ([l] ++ lines). rewrite scanLines_app. simpl.
    destruct (IH _ Hc Hrest) as [Hm' Hc']. by rewrite Hm', Hm.
Qed.

Lemma nothing_renamed_between_methods_witness :
  let st := scanLines (initialState "Foo") ["public void f(int);"] in
  currentMethod (processLine st "public Foo();") = None /\
  ClassAnalysis.methods
    (analysis (scanLines (processLine st "public Foo();")
                 ["LocalVariableTable:"; "0 1 0 x I"; ""; "}"]))
  = ClassAnalysis.methods (analysis (processLine st "public Foo();")).
Proof.
  split.
  - apply (proj1 (nothing_renamed_between_methods
                    (scanLines (initialState "Foo") ["public void f(int);"]) [])).
    right. right. split; reflexivity.
  - apply (proj2 (nothing_renamed_between_methods
                    (processLine (scanLines (initialState "Foo") ["public void f(int);"])
                       "public Foo();")
                    ["LocalVariableTable:"; "0 1 0 x I"; ""; "}"])).
    + reflexivity.
    + repeat constructor.
Defined.

(** ** A variable table, from its header to its blank line *)

Lemma withNames_same (st : ParserState) : withNames st (methodParameters st) = st.
Proof. by destruct st. Qed.

Lemma recordEntries_app count names e1 e2 :
  recordEntries count names (e1 ++ e2)
  = recordEntries count (recordEntries count names e1) e2.
Proof. unfold recordEntries. apply fold_left_app. Qed.

(** The name pending for a slot is the name of the last entry for it. *)
Lemma recordEntries_lookup (count : nat) (entries : list (nat * string)) :
  forall (names : gmap nat string) (j : nat),
  recordEntries count names entries !! j
  = match last (List.filter (fun e => (fst e =? j)%nat && (j <? count)%nat) entries) with
    | Some e => Some (snd e)
    | None => names !! j
    end.
Proof.
  induction entries as [|e entries IH] using rev_ind; intros names j; [done|].
  rewrite recordEntries_app, List.filter_app. simpl.
  pose proof (IH names j) as IHj.
  remember (List.filter (fun e0 => (fst e0 =? j)%nat && (j <? count)%nat) entries) as F.
  remember (recordEntries count names entries) as R.
  unfold recordEntries. simpl.
  destruct (fst e =? j)%nat eqn:Hej; simpl.
  - apply Nat.eqb_eq in Hej. rewrite Hej.
    destruct (j <? count)%nat; simpl.
    + by rewrite last_snoc, lookup_insert_eq.
    + by rewrite app_nil_r.
  - apply Nat.eqb_neq in Hej. rewrite app_nil_r.
    destruct (fst e <? count)%nat; [|done].
    by rewrite lookup_insert_ne.
Qed.



Lemma processLine_table_end (st : ParserState) (line : string) (cur : nat) :
  currentMethod st = Some cur -> inLocalVariableTable st = true ->
  JS.trim line = EmptyString ->
  processLine st line
  = {| analysis := updateParameterNames (methodParameters st) cur (analysis st);
       currentMethod := Some cur;
       inLocalVariableTable := false;
       methodParameters := ∅ |}.
Proof.
  intros Hc Hin Hb. unfold processLine. rewrite Hb, Hin, Hc. reflexivity.
Qed.



(** In the table of the witness the later name [c] replaces [a] for slot 0
    and the entry of slot 2 is left out. *)
Example table_example :
  map ClassMethod.parameters
    (ClassAnalysis.methods
       (parseJavapOutput
          (text ["public void f(int, long);"; "LocalVariableTable:";
                 "Start  Length  Slot  Name   Signature";
                 "0 1 0 a I"; "0 1 1 b J"; "0 1 0 c I"; "0 1 2 tmp I"; "   "]) "Foo"))
  = [["int c"; "long b"]].
Proof. vm_compute. reflexivity. Qed.

(** ** The declared name, the superclass and the interfaces *)

Lemma split_nonempty (c : ascii) (s : string) : JS.split c s <> [].
Proof.
  induction s as [|a s IH]; [done|]. simpl.
  destruct (Ascii.eqb a c); [done|]. by destruct (JS.split c s).
Qed.

Lemma join_cons (sep p : string) (rest : list string) :
  rest <> [] -> JS.join sep (p :: rest) = p +:+ sep +:+ JS.join sep rest.
Proof. by destruct rest. Qed.

Lemma join_snoc (sep x : string) (l : list string) :
  l <> [] -> JS.join sep (l ++ [x]) = JS.join sep l +:+ sep +:+ x.
Proof.
  induction l as [|p l IH]; [done|]. intros _.
  destruct l as [|q l]; [done|].
  change ((p :: q :: l) ++ [x]) with (p :: ((q :: l) ++ [x])).
  rewrite join_cons by (by destruct l). rewrite IH by done.
  rewrite (join_cons sep p (q :: l)) by done.
  by rewrite !append_assoc.
Qed.

(** Splitting at a character and joining with it gives the string back. *)
Lemma join_split (c : ascii) (s : string) :
  JS.join (String c EmptyString) (JS.split c s) = s.
Proof.
  induction s as [|a s IH]; [done|]. simpl JS.split.
  pose proof (split_nonempty c s) as Hne.
  destruct (Ascii.eqb a c) eqn:Hac.
  - apply Ascii.eqb_eq in Hac. subst a.
    rewrite join_cons by done. by rewrite IH.
  - destruct (JS.split c s) as [|h t]; [done|].
    destruct t as [|h' t].
    + simpl in IH |- *. by rewrite IH.
    + rewrite join_cons by done. rewrite join_cons in IH by done.
      by rewrite <- IH.
Qed.

Lemma split_pieces (c : ascii) (s : string) :
  Forall (fun p => JS.includes c p = false /\
                   forall x, JS.includes x p = true -> JS.includes x s = true)
    (JS.split c s).
Proof.
  induction s as [|a s IH]; [by repeat constructor|]. simpl JS.split.
  destruct (Ascii.eqb a c) eqn:Hac.
  - constructor; [done|].
    eapply Forall_impl; [exact IH|]. intros p [Hp Hx]. split; [exact Hp|].
    intros x H. simpl. rewrite (Hx x H). apply orb_true_r.
  - pose proof (split_nonempty c s) as Hne.
    destruct (JS.split c s) as [|h t]; [done|].
    inversion IH as [|? ? [Hh Hhx] Ht]; subst. constructor.
    + split; [simpl; by rewrite Hac|].
      intros x H. simpl in H |- *. apply orb_true_iff in H as [H|H]; [by rewrite H|].
      rewrite (Hhx x H). apply orb_true_r.
    + eapply Forall_impl; [exact Ht|]. intros p [Hp Hx]. split; [exact Hp|].
      intros x H. simpl. rewrite (Hx x H). apply orb_true_r.
Qed.

Lemma split_single (c : ascii) (s : string) :
  JS.includes c s = false -> JS.split c s = [s].
Proof.
  induction s as [|a s IH]; [done|]. simpl. intros H.
  apply orb_false_iff in H as [Hac Hs]. by rewrite Hac, (IH Hs).
Qed.

Lemma split_several (c : ascii) (s : string) :
  JS.includes c s = true -> (1 <? length (JS.split c s))%nat = true.
Proof.
  induction s as [|a s IH]; [done|]. simpl.
  pose proof (split_nonempty c s) as Hne.
  destruct (Ascii.eqb a c); simpl.
  - intros _. by destruct (JS.split c s).
  - intros H. specialize (IH H). by destruct (JS.split c s) as [|h [|h' t]].
Qed.

(** X4: when the declaration names the class with a qualified name, the
    package and the class name of the analysis, joined by a dot, are that
    name, and the class name has no dot; when the declared name has no
    dot, or no name is found, the package and the class name are left as
    they were: the simple name stays the one taken from the identifier the
    caller passed. *)
Theorem declared_name_is_split_at_its_last_dot (line : string) (a : ClassAnalysis.t) :
  match Regex.matchClassName line with
  | Some fullClassName =>
      (JS.includes "."%char fullClassName = true ->
       ClassAnalysis.packageName (parseClassDeclaration line a) +:+ "."
         +:+ ClassAnalysis.className (parseClassDeclaration line a)
       = fullClassName /\
       JS.includes "."%char (ClassAnalysis.className (parseClassDeclaration line a)) = false) /\
      (JS.includes "."%char fullClassName = false ->
       ClassAnalysis.packageName (parseClassDeclaration line a)
       = ClassAnalysis.packageName a /\
       ClassAnalysis.className (parseClassDeclaration line a)
       = ClassAnalysis.className a)
  | None =>
      ClassAnalysis.packageName (parseClassDeclaration line a)
      = ClassAnalysis.packageName a /\
      ClassAnalysis.className (parseClassDeclaration line a)
      = ClassAnalysis.className a
  end.
Proof.
  unfold parseClassDeclaration.
  destruct (Regex.matchClassName line) as [full|]; [|done]. split.
  - intros Hdot. rewrite (split_several _ _ Hdot). simpl.
    pose proof (split_nonempty "." full) as Hne.
    pose proof (split_pieces "." full) as Hp.
    pose proof (split_several _ _ Hdot) as Hlen.
    rewrite (app_removelast_last EmptyString Hne) in Hp.
    apply Forall_app in Hp as [_ Hlast]. inversion Hlast as [|? ? [Hnodot _] _]; subst.
    split; [|exact Hnodot].
    rewrite <- (join_split "." full) at 3.
    rewrite (app_removelast_last EmptyString Hne) at 3.
    rewrite join_snoc; [reflexivity|].
    destruct (JS.split "." full) as [|h [|h' t]]; done.
  - intros Hdot. by rewrite (split_single _ _ Hdot).
Qed.

Lemma declared_name_is_split_at_its_last_dot_witness :
  ClassAnalysis.packageName
    (parseClassDeclaration "public class com.acme.Widget extends Base {" (initialAnalysis "Widget"))
    +:+ "." +:+
  ClassAnalysis.className
    (parseClassDeclaration "public class com.acme.Widget extends Base {" (initialAnalysis "Widget"))
  = "com.acme.Widget" /\
  ClassAnalysis.className
    (parseClassDeclaration "public class Gadget {" (initialAnalysis "shop.Widget"))
  = "Widget".
Proof.
  split.
  - apply (proj1 (declared_name_is_split_at_its_last_dot
                    "public class com.acme.Widget extends Base {"
                    (initialAnalysis "Widget"))).
    reflexivity.
  - apply (proj2 (declared_name_is_split_at_its_last_dot
                    "public class Gadget {" (initialAnalysis "shop.Widget"))).
    reflexivity.
Defined.

Lemma span_allChar (p : ascii -> bool) (s : string) :
  allChar p (fst (JS.span p s)) = true.
Proof.
  induction s as [|c s IH]; [done|].
  destruct (p c) eqn:Hc.
  - rewrite (span_cons_true _ _ _ Hc). simpl. by rewrite Hc, IH.
  - by rewrite (span_cons_false _ _ _ Hc).
Qed.

Lemma firstSome_Some {A B : Type} (f : A -> option B) (l : list A) (y : B) :
  Regex.firstSome f l = Some y -> exists x, f x = Some y.
Proof.
  induction l as [|x l IH]; [done|]. simpl.
  destruct (f x) as [z|] eqn:Hx; [|exact IH]. intros [= <-]. by exists x.
Qed.

Lemma search_Some {A : Type} (matchAt : string -> option A) (s : string) (r : A) :
  Regex.search matchAt s = Some r -> exists s', matchAt s' = Some r.
Proof.
  induction s as [|c s IH]; simpl.
  - destruct (matchAt "") eqn:H; [|done]. intros [= <-]. by exists "".
  - destruct (matchAt (String c s)) eqn:H; [intros [= <-]; by exists (String c s)|].
    exact IH.
Qed.

Lemma identifier_Some (s n : string) :
  Regex.identifier s = Some n ->
  n <> EmptyString /\ allChar JS.isIdentPart n = true.
Proof.
  unfold Regex.identifier. destruct s as [|c s]; [done|].
  destruct (JS.isIdentStart c) eqn:Hc; [|done]. intros [= <-].
  assert (Hp : JS.isIdentPart c = true).
  { unfold JS.isIdentStart in Hc. unfold JS.isIdentPart.
    destruct (JS.isLetter c); [done|]. simpl in Hc |- *.
    destruct (JS.isDigit c); [done|]. simpl.
    apply orb_true_iff in Hc as [-> | ->]; [done|]. by rewrite orb_true_r. }
  pose proof (span_allChar JS.isIdentPart s) as Ha.
  simpl. rewrite Hp. destruct (JS.span JS.isIdentPart s) as [x y].
  simpl in *. by rewrite Hp, Ha.
Qed.

Lemma matchExtends_Some (line n : string) :
  Regex.matchExtends line = Some n ->
  n <> EmptyString /\ allChar JS.isIdentPart n = true.
Proof.
  intros H. apply search_Some in H as [s H].
  apply firstSome_Some in H as [k H].
  destruct (JS.startsWith k s); [|done].
  destruct (Regex.afterSpaces _) as [r|]; [|done].
  by apply identifier_Some in H.
Qed.

Lemma allChar_includes (p : ascii -> bool) (c : ascii) (s : string) :
  allChar p s = true -> p c = false -> JS.includes c s = false.
Proof.
  intros Hall Hc. induction s as [|a s IH]; [done|]. simpl in *.
  apply andb_true_iff in Hall as [Ha Hs]. rewrite (IH Hs), orb_false_r.
  destruct (Ascii.eqb a c) eqn:E; [|done]. apply Ascii.eqb_eq in E. congruence.
Qed.

Lemma matchImplements_Some (line l : string) :
  Regex.matchImplements line = Some l -> JS.includes "{"%char l = false.
Proof.
  intros H. apply search_Some in H as [s H]. unfold Regex.matchImplementsAt in H.
  destruct (JS.startsWith "implements" s); [|done].
  destruct (JS.span JS.isSpace (JS.skip 10 s)) as [w r].
  destruct (JS.isEmpty w); [done|].
  pose proof (span_allChar Regex.notBrace r) as Hg.
  destruct (JS.span Regex.notBrace r) as [g rest]. simpl in Hg.
  destruct (JS.isEmpty g).
  - destruct (Regex.lastChar w) as [c|]; [|done].
    destruct ((2 <=? String.length w)%nat && Regex.notBrace c) eqn:E; [|done].
    injection H as <-. apply andb_true_iff in E as [_ E].
    simpl. unfold Regex.notBrace in E. apply negb_true_iff in E. by rewrite E.
  - injection H as <-. by apply (allChar_includes Regex.notBrace).
Qed.

Lemma interfaces_of_list (l : string) :
  JS.includes "{"%char l = false ->
  Forall (fun i => i <> EmptyString /\ JS.trim i = i /\
                   JS.includes ","%char i = false /\ JS.includes "{"%char i = false)
    (List.filter JS.truthy (map JS.trim (JS.split ","%char l))).
Proof.
  intros Hl. apply Forall_forall. intros i Hi.
  apply list_elem_of_In, filter_In in Hi as [Hi Ht].
  apply in_map_iff in Hi as (p & <- & Hp).
  pose proof (split_pieces "," l) as Hpieces. rewrite Forall_forall in Hpieces.
  destruct (Hpieces p) as [Hcomma Hsub]; [by apply list_elem_of_In|].
  repeat split.
  - by destruct (JS.trim p).
  - apply trim_idempotent.
  - by apply includes_trim.
  - apply includes_trim. destruct (JS.includes "{" p) eqn:E; [|done].
    apply Hsub in E. congruence.
Qed.

Lemma wellFormedDeclaration_parseClassDeclaration (line : string) (a : ClassAnalysis.t) :
  wellFormedDeclaration a -> wellFormedDeclaration (parseClassDeclaration line a).
Proof.
  intros [Hs Hi]. unfold parseClassDeclaration, wellFormedDeclaration.
  destruct (Regex.matchClassName line) as [full|];
    [destruct (1 <? length (JS.split "." full))%nat|]; simpl;
    (split;
     [ destruct (Regex.matchExtends line) as [n|] eqn:He; [|exact Hs];
       intros s [= <-]; by apply (matchExtends_Some line)
     | destruct (Regex.matchImplements line) as [l|] eqn:Hl; [|exact Hi];
       by apply interfaces_of_list, (matchImplements_Some line) ]).
Qed.

Lemma wellFormedDeclaration_processLine (st : ParserState) (line : string) :
  wellFormedDeclaration (analysis st) ->
  wellFormedDeclaration (analysis (processLine st line)).
Proof.
  intros H. destruct (isClassDeclarationLine (JS.trim line)) eqn:Hc.
  - unfold processLine. rewrite Hc. simpl.
    by apply wellFormedDeclaration_parseClassDeclaration.
  - pose proof (declaration_processLine st line Hc) as Hd.
    unfold declaration in Hd. injection Hd as _ _ _ Hs Hi.
    unfold wellFormedDeclaration. by rewrite Hs, Hi.
Qed.

(** X5: in every parse result a superclass, when there is one, is not the
    empty string and is made of identifier characters, and every interface
    is a trimmed, non-empty text without comma and without opening brace. *)
Theorem superclass_and_interfaces_well_formed (output className : string) :
  (forall s, ClassAnalysis.superClass (parseJavapOutput output className) = Some s ->
             s <> EmptyString /\ allChar JS.isIdentPart s = true) /\
  Forall (fun i => i <> EmptyString /\ JS.trim i = i /\
                   JS.includes ","%char i = false /\ JS.includes "{"%char i = false)
    (ClassAnalysis.interfaces (parseJavapOutput output className)).
Proof.
  unfold parseJavapOutput.
  apply (scanLines_invariant (fun st => wellFormedDeclaration (analysis st))).
  - intros st line. apply wellFormedDeclaration_processLine.
  - split; [done|constructor].
Qed.

Lemma superclass_and_interfaces_well_formed_witness :
  "java.util.AbstractMap" <> EmptyString /\
  allChar JS.isIdentPart "java.util.AbstractMap" = true.
Proof.
  apply (proj1 (superclass_and_interfaces_well_formed
                  (text ["public class p.M extends java.util.AbstractMap<K, V> implements java.util.Map<K, V> {"])
                  "p.M")).
  reflexivity.
Defined.

(** An interface with two type arguments is split at the comma between
    them. *)
Example generic_interface_example :
  ClassAnalysis.interfaces
    (parseJavapOutput
       (text ["public class p.M extends java.util.AbstractMap<K, V> implements java.util.Map<K, V> {"])
       "p.M")
  = ["java.util.Map<K"; "V>"].
Proof. vm_compute. reflexivity. Qed.

(** ** The inheritance hierarchy *)

Section HierarchyProperties.

Variable W : Type.
Variable findJarForClass : string -> string -> W -> outcome (option string) * W.
Variable runJavap : string -> string -> W -> outcome string * W.

Local Abbreviation analyze := (analyzeClass W findJarForClass runJavap).
Local Abbreviation climb := (getInheritanceHierarchy W findJarForClass runJavap).
Local Abbreviation ascends := (ascent W findJarForClass runJavap).

Lemma hierarchy_unfold (fuel : nat) (c p : string) (w : W) :
  climb (S fuel) c p w
  = match analyze c p w with
    | (Thrown e, w') => Some (Thrown e, w')
    | (Returned a, w') =>
        match parentOf a with
        | Some s =>
            match climb fuel s p w' with
            | None => None
            | Some (Returned h, w'') => Some (Returned (h ++ [c]), w'')
            | Some (Thrown _, w'') => Some (Returned [s; c], w'')
            end
        | None => Some (Returned [c], w')
        end
    end.
Proof.
  simpl. unfold parentOf.
  destruct (analyzeClass W findJarForClass runJavap c p w) as [[a|e] w']; [|done].
  destruct (ClassAnalysis.superClass a) as [s|]; [|done].
  by destruct (JS.truthy s).
Qed.

(** The hierarchy throws exactly when the analysis of the class itself
    throws. *)
Lemma hierarchy_thrown (fuel : nat) (c p : string) (w : W) (e : string) (w' : W) :
  climb (S fuel) c p w = Some (Thrown e, w') <-> analyze c p w = (Thrown e, w').
Proof.
  rewrite hierarchy_unfold. destruct (analyze c p w) as [[a|e0] w0].
  - split; [|done]. destruct (parentOf a) as [s|]; [|done].
    by destruct (climb fuel s p w0) as [[[h|e1] w1]|].
  - split; congruence.
Qed.

Lemma hierarchy_sound (fuel : nat) : forall (c p : string) (w : W) (h : list string) (w' : W),
  climb fuel c p w = Some (Returned h, w') -> ascends p c w h w'.
Proof.
  induction fuel as [|fuel IH]; intros c p w h w' H; [done|].
  rewrite hierarchy_unfold in H.
  destruct (analyze c p w) as [[a|e0] w0] eqn:Ha; [|done].
  destruct (parentOf a) as [s|] eqn:Hp.
  - destruct (climb fuel s p w0) as [[[hs|e1] w1]|] eqn:Hs; [| |done].
    + injection H as <- <-. eapply ascent_up; eauto.
    + injection H as <- <-. destruct fuel as [|fuel]; [done|].
      apply hierarchy_thrown in Hs. eapply ascent_unresolved; eauto.
  - injection H as <- <-. eapply ascent_top; eauto.
Qed.

Lemma hierarchy_complete (p c : string) (w : W) (h : list string) (w' : W) :
  ascends p c w h w' ->
  exists fuel, forall more, climb (fuel + more) c p w = Some (Returned h, w').
Proof.
  induction 1 as [c w a w' Ha Hp|c w a w' s e w'' Ha Hp Hs|c w a w' s h w'' Ha Hp _ IH].
  - exists 1. intros more. change (1 + more) with (S more).
    rewrite hierarchy_unfold. by rewrite Ha, Hp.
  - exists 2. intros more. change (2 + more) with (S (S more)).
    rewrite hierarchy_unfold. rewrite Ha, Hp.
    by rewrite (proj2 (hierarchy_thrown more s p w' e w'') Hs).
  - destruct IH as [fuel IH]. exists (S fuel). intros more.
    change (S fuel + more) with (S (fuel + more)).
    rewrite hierarchy_unfold. by rewrite Ha, Hp, IH.
Qed.

Lemma ascent_last (p c : string) (w : W) (h : list string) (w' : W) :
  ascends p c w h w' -> last h = Some c.
Proof.
  destruct 1; [done|done|]. apply last_snoc.
Qed.

(** X6: the hierarchy of a class.  It throws exactly when the analysis of
    the class itself throws; it returns exactly the lists of an ascent
    (the class alone when it has no superclass, the superclass by name and
    the class when the analysis of the superclass fails, else the
    hierarchy of the superclass followed by the class), given fuel enough
    for the ascent and whatever fuel is added; and a list it returns ends
    with the class itself. *)
Theorem hierarchy_follows_the_superclasses (className projectPath : string) (w : W) :
  (forall fuel e w',
     getInheritanceHierarchy W findJarForClass runJavap (S fuel) className projectPath w
     = Some (Thrown e, w')
     <-> analyzeClass W findJarForClass runJavap className projectPath w = (Thrown e, w')) /\
  (forall h w',
     (exists fuel, forall more,
        getInheritanceHierarchy W findJarForClass runJavap (fuel + more)
          className projectPath w = Some (Returned h, w'))
     <-> ascent W findJarForClass runJavap projectPath className w h w') /\
  (forall fuel h w',
     getInheritanceHierarchy W findJarForClass runJavap fuel className projectPath w
     = Some (Returned h, w') ->
     last h = Some className).
Proof.
  split; [|split].
  - intros fuel e w'. apply hierarchy_thrown.
  - intros h w'. split.
    + intros [fuel H]. specialize (H 0). rewrite Nat.add_0_r in H.
      by apply hierarchy_sound in H.
    + apply hierarchy_complete.
  - intros fuel h w' H. apply hierarchy_sound in H. by apply ascent_last in H.
Qed.

End HierarchyProperties.

Lemma hierarchy_follows_the_superclasses_witness :
  last ["java.lang.Object"; "p.A"; "p.B"; "p.C"] = Some "p.C".
Proof.
  apply (proj2 (proj2 (hierarchy_follows_the_superclasses nat exampleJars chainJavap
                         "p.C" "proj" 0)) 4 _ 8).
  reflexivity.
Defined.

Section HierarchyTermination.

Variable W : Type.
Variable findJarForClass : string -> string -> W -> outcome (option string) * W.
Variable runJavap : string -> string -> W -> outcome string * W.

Local Abbreviation analyze := (analyzeClass W findJarForClass runJavap).
Local Abbreviation climb := (getInheritanceHierarchy W findJarForClass runJavap).

Lemma hierarchy_returns_below (rank : string -> nat) (p : string) :
  (forall c w a w' s,
     analyze c p w = (Returned a, w') -> parentOf a = Some s -> rank s < rank c) ->
  forall n c w, rank c < n ->
    exists r, forall fuel, n <= fuel -> climb fuel c p w = Some r.
Proof.
  intros Hrank. induction n as [|n IH]; intros c w Hn; [lia|].
  destruct (analyze c p w) as [[a|e] w0] eqn:Ha.
  - destruct (parentOf a) as [s|] eqn:Hp.
    + destruct (IH s w0) as [[r w1] Hr]; [specialize (Hrank _ _ _ _ _ Ha Hp); lia|].
      exists (match r with
              | Returned h => (Returned (h ++ [c]), w1)
              | Thrown _ => (Returned [s; c], w1)
              end).
      intros [|fuel] Hfuel; [lia|].
      rewrite hierarchy_unfold, Ha, Hp, Hr by lia. by destruct r.
    + exists (Returned [c], w0). intros [|fuel] Hfuel; [lia|].
      by rewrite hierarchy_unfold, Ha, Hp.
  - exists (Thrown e, w0). intros [|fuel] Hfuel; [lia|].
    by rewrite hierarchy_unfold, Ha.
Qed.

Lemma hierarchy_endless_on_cycle (onCycle : string -> Prop) (p : string) :
  (forall c w, onCycle c ->
     exists a w' s, analyze c p w = (Returned a, w') /\ parentOf a = Some s /\ onCycle s) ->
  forall fuel c w, onCycle c -> climb fuel c p w = None.
Proof.
  intros Hcycle. induction fuel as [|fuel IH]; intros c w Hc; [done|].
  destruct (Hcycle c w Hc) as (a & w' & s & Ha & Hp & Hs).
  by rewrite hierarchy_unfold, Ha, Hp, (IH s w' Hs).
Qed.

(** X7: when the superclass relation that the analyses show is well
    founded (some rank decreases from every class to its superclass), the
    hierarchy of a class is determined: with any fuel beyond the rank of
    the class the recursion ends, always with the same result.  When the
    class lies on a cycle of that relation (a set of classes whose
    analyses return, each with a superclass in the set; a class that names
    itself as superclass is the smallest one), the recursion is endless:
    no fuel gives a result. *)
Theorem hierarchy_returns_when_acyclic (className projectPath : string) (w : W) :
  (forall rank : string -> nat,
     (forall c w0 a w' s,
        analyzeClass W findJarForClass runJavap c projectPath w0 = (Returned a, w') ->
        parentOf a = Some s -> rank s < rank c) ->
     exists r, forall fuel,
       rank className < fuel ->
       getInheritanceHierarchy W findJarForClass runJavap fuel className projectPath w
       = Some r) /\
  (forall onCycle : string -> Prop,
     (forall c w0, onCycle c ->
        exists a w' s,
          analyzeClass W findJarForClass runJavap c projectPath w0 = (Returned a, w') /\
          parentOf a = Some s /\ onCycle s) ->
     onCycle className ->
     forall fuel,
       getInheritanceHierarchy W findJarForClass runJavap fuel className projectPath w
       = None).
Proof.
  split.
  - intros rank Hrank.
    destruct (hierarchy_returns_below rank projectPath Hrank (S (rank className)) className w)
      as [r Hr]; [lia|].
    exists r. intros fuel Hfuel. apply Hr. lia.
  - intros onCycle Hcycle Hc fuel.
    by apply (hierarchy_endless_on_cycle onCycle projectPath Hcycle).
Qed.

End HierarchyTermination.

Lemma chainRank_decreases (c : string) (w0 : nat) (a : ClassAnalysis.t) (w' : nat) (s : string) :
  analyzeClass nat exampleJars chainJavap c "proj" w0 = (Returned a, w') ->
  parentOf a = Some s -> chainRank s < chainRank c.
Proof.
  intros Ha Hp. unfold analyzeClass, exampleJars in Ha.
  destruct (String.eqb c "p.Broken"); [discriminate|].
  destruct (String.eqb c "p.Missing"); [discriminate|].
  unfold analyzeClassWithJavap, chainJavap in Ha. simpl JS.truthy in Ha. cbv iota in Ha.
  unfold chainRank at 2.
  destruct (String.eqb c "p.C") eqn:E1.
  { apply String.eqb_eq in E1. subst c. injection Ha as <- <-.
    vm_compute in Hp. injection Hp as <-. vm_compute. lia. }
  destruct (String.eqb c "p.B") eqn:E2.
  { apply String.eqb_eq in E2. subst c. injection Ha as <- <-.
    vm_compute in Hp. injection Hp as <-. vm_compute. lia. }
  destruct (String.eqb c "p.A") eqn:E3.
  { apply String.eqb_eq in E3. subst c. injection Ha as <- <-.
    vm_compute in Hp. injection Hp as <-. vm_compute. lia. }
  discriminate.
Defined.

Lemma selfSuperclass_cycle (c : string) (w0 : nat) :
  c = "p.Base" ->
  exists a w' s,
    analyzeClass nat exampleJars exampleJavap c "proj" w0 = (Returned a, w') /\
    parentOf a = Some s /\ s = "p.Base".
Proof.
  intros ->. eexists _, _, _. split; [reflexivity|]. split; [|reflexivity].
  vm_compute. reflexivity.
Defined.

Lemma hierarchy_returns_when_acyclic_witness :
  (exists r, forall fuel,
     chainRank "p.C" < fuel ->
     getInheritanceHierarchy nat exampleJars chainJavap fuel "p.C" "proj" 0 = Some r) /\
  getInheritanceHierarchy nat exampleJars exampleJavap 7 "p.Base" "proj" 0 = None.
Proof.
  split.
  - exact (proj1 (hierarchy_returns_when_acyclic nat exampleJars chainJavap "p.C" "proj" 0)
             chainRank chainRank_decreases).
  - exact (proj2 (hierarchy_returns_when_acyclic nat exampleJars exampleJavap
                    "p.Base" "proj" 0)
             (fun c => c = "p.Base") selfSuperclass_cycle eq_refl 7).
Defined.

(** The chain of the example, and a class that names itself as its
    superclass, for which no fuel is enough. *)
Example hierarchy_example :
  getInheritanceHierarchy nat exampleJars chainJavap 4 "p.C" "proj" 0
  = Some (Returned ["java.lang.Object"; "p.A"; "p.B"; "p.C"], 8) /\
  getInheritanceHierarchy nat exampleJars exampleJavap 50 "p.Base" "proj" 0 = None.
Proof. split; vm_compute; reflexivity. Qed.


(** ** The class index *)

Lemma keep_skip (n : nat) (s : string) : JS.keep n s +:+ JS.skip n s = s.
Proof.
  revert s. induction n as [|n IH]; intros s; [done|].
  destruct s as [|a s]; [done|]. simpl. by rewrite IH.
Qed.

Lemma endsWith_split (suffix s : string) :
  JSText.endsWith suffix s = true ->
  s = JS.keep (String.length s - String.length suffix) s +:+ suffix.
Proof.
  unfold JSText.endsWith. intros H. apply andb_true_iff in H as [_ H].
  apply String.eqb_eq in H.
  remember (String.length s - String.length suffix) as n.
  rewrite <- H. by rewrite keep_skip.
Qed.

Lemma includes_keep (c : ascii) (n : nat) (s : string) :
  JS.includes c s = false -> JS.includes c (JS.keep n s) = false.
Proof.
  revert s. induction n as [|n IH]; intros s H; [done|].
  destruct s as [|a s]; [done|]. simpl in *.
  apply orb_false_iff in H as [Ha Hs]. by rewrite Ha, (IH _ Hs).
Qed.

Lemma includes_replaceChar_target (c d : ascii) (s : string) :
  Ascii.eqb d c = false -> JS.includes c (JSText.replaceChar c d s) = false.
Proof.
  intros Hdc. induction s as [|a s IH]; [done|]. simpl. rewrite IH, orb_false_r.
  destruct (Ascii.eqb a c) eqn:Hac; [exact Hdc|exact Hac].
Qed.

Lemma includes_replaceChar_other (x c d : ascii) (s : string) :
  Ascii.eqb d x = false ->
  JS.includes x s = false -> JS.includes x (JSText.replaceChar c d s) = false.
Proof.
  intros Hdx. induction s as [|a s IH]; [done|]. simpl. intros H.
  apply orb_false_iff in H as [Ha Hs]. rewrite (IH Hs), orb_false_r.
  by destruct (Ascii.eqb a c).
Qed.

Lemma replaceChar_back (s : string) :
  JS.includes "."%char s = false ->
  JSText.replaceChar "."%char "/"%char (JSText.replaceChar "/"%char "."%char s) = s.
Proof.
  induction s as [|a s IH]; [done|]. simpl. intros H.
  apply orb_false_iff in H as [Ha Hs]. rewrite (IH Hs). f_equal.
  destruct (Ascii.eqb a "/") eqn:E; [by apply Ascii.eqb_eq in E|].
  by rewrite Ha.
Qed.

Lemma append_cancel_r (a b s : string) : a +:+ s = b +:+ s -> a = b.
Proof.
  revert b. induction a as [|x a IH]; intros b H.
  - destruct b as [|y b]; [done|]. apply (f_equal String.length) in H.
    simpl in H. rewrite length_append in H. lia.
  - destruct b as [|y b].
    + apply (f_equal String.length) in H. simpl in H. rewrite length_append in H. lia.
    + simpl in H. injection H as -> H. by rewrite (IH _ H).
Qed.

Lemma indexEntry_className (jar f : string) (e : ClassIndexEntry.t) :
  indexEntry jar f = Some e ->
  JSText.endsWith ".class" f = true /\ JS.includes "$"%char f = false /\
  ClassIndexEntry.jarPath e = jar /\
  ClassIndexEntry.className e
  = JSText.replaceChar "/"%char "."%char (JSText.removeClassSuffix f).
Proof.
  unfold indexEntry.
  destruct (JSText.endsWith ".class" f) eqn:He; [|done].
  destruct (JS.includes "$" f) eqn:Hd; [done|]. simpl.
  by intros [= <-].
Qed.

(** X8: the index entry of a class file.  Its class name has no slash and
    no dollar sign; either the package is empty and the simple name is the
    whole class name (no dot, or only a leading one), or the package is
    not empty, the simple name has no dot, and package, dot and simple
    name make up the class name. *)
Theorem index_entry_names (jarPath fileName : string) (e : ClassIndexEntry.t) :
  indexEntry jarPath fileName = Some e ->
  ClassIndexEntry.jarPath e = jarPath /\
  JS.includes "/"%char (ClassIndexEntry.className e) = false /\
  JS.includes "$"%char (ClassIndexEntry.className e) = false /\
  ((ClassIndexEntry.packageName e = EmptyString /\
    ClassIndexEntry.simpleName e = ClassIndexEntry.className e) \/
   (ClassIndexEntry.packageName e <> EmptyString /\
    JS.includes "."%char (ClassIndexEntry.simpleName e) = false /\
    ClassIndexEntry.packageName e +:+ "." +:+ ClassIndexEntry.simpleName e
    = ClassIndexEntry.className e)).
Proof.
  intros H. destruct (indexEntry_className _ _ _ H) as (He & Hd & Hj & Hc).
  split; [exact Hj|]. split; [rewrite Hc; by apply includes_replaceChar_target|].
  split.
  { rewrite Hc. apply includes_replaceChar_other; [done|].
    unfold JSText.removeClassSuffix. rewrite He. by apply includes_keep. }
  unfold indexEntry in H. rewrite He, Hd in H. simpl in H.
  set (cn := JSText.replaceChar "/" "." (JSText.removeClassSuffix fileName)) in *.
  destruct (JS.lastIndexOf "." cn) as [i|] eqn:Hi.
  - destruct (0 <? i)%nat eqn:Hpos.
    + injection H as <-. simpl. right.
      destruct (lastIndexOf_split _ _ _ Hi) as [Hs Hn].
      change (JS.substring 0 i cn) with (JS.keep (i - 0) cn).
      unfold JS.substringFrom. rewrite Nat.sub_0_r, Nat.add_1_r.
      split; [|split; [exact Hn|by rewrite <- Hs]].
      apply Nat.ltb_lt in Hpos. destruct i as [|i]; [lia|].
      destruct cn; [done|discriminate].
    + injection H as <-. simpl. by left.
  - injection H as <-. simpl. by left.
Qed.

Lemma index_entry_names_witness :
  ClassIndexEntry.jarPath
    {| ClassIndexEntry.className := "com.acme.Widget";
       ClassIndexEntry.jarPath := "lib/acme.jar";
       ClassIndexEntry.packageName := "com.acme";
       ClassIndexEntry.simpleName := "Widget" |} = "lib/acme.jar".
Proof.
  apply (index_entry_names "lib/acme.jar" "com/acme/Widget.class"). reflexivity.
Defined.

(** X9: the decompiler finds again the file from which the scanner made
    an index entry exactly when the path of the file has no dot besides
    the one of its extension: then, and only then, the file name it looks
    for under the class name of the entry is the name of the file. *)
Theorem indexed_class_file_is_found_again (jarPath fileName : string) (e : ClassIndexEntry.t) :
  indexEntry jarPath fileName = Some e ->
  (classFileName (ClassIndexEntry.className e) = fileName
   <-> JS.includes "."%char (JSText.removeClassSuffix fileName) = false).
Proof.
  intros H. destruct (indexEntry_className _ _ _ H) as (He & _ & _ & Hc).
  pose proof (endsWith_split _ _ He) as Hf. simpl String.length in Hf.
  unfold classFileName. rewrite Hc. unfold JSText.removeClassSuffix. rewrite He.
  remember (JS.keep (String.length fileName - 6) fileName) as stem eqn:Hstem.
  clear Hstem. subst fileName.
  split.
  - intros Heq. apply append_cancel_r in Heq.
    rewrite <- Heq. by apply includes_replaceChar_target.
  - intros Hnodot. by rewrite replaceChar_back.
Qed.

Lemma indexed_class_file_is_found_again_witness :
  classFileName "com.acme.Widget" = "com/acme/Widget.class".
Proof.
  apply (proj2 (indexed_class_file_is_found_again "lib/acme.jar" "com/acme/Widget.class"
                  {| ClassIndexEntry.className := "com.acme.Widget";
                     ClassIndexEntry.jarPath := "lib/acme.jar";
                     ClassIndexEntry.packageName := "com.acme";
                     ClassIndexEntry.simpleName := "Widget" |} eq_refl)).
  reflexivity.
Defined.

(** A class file of a multi-release JAR is indexed under a name that does
    not lead back to it. *)
Example versioned_class_file_example :
  option_map ClassIndexEntry.className
    (indexEntry "lib/acme.jar" "META-INF/versions/9.0/Widget.class")
  = Some "META-INF.versions.9.0.Widget" /\
  classFileName "META-INF.versions.9.0.Widget" = "META-INF/versions/9/0/Widget.class".
Proof. split; vm_compute; reflexivity. Qed.

(** ** Lookups in the class index *)

Section ScannerProperties.

Variable pathJoin : list string -> string.
Variable basename : string -> string.
Variable E : Type.
Variable getMavenDependencies : string -> E -> outcome (list string) * E.
Variable jarEntries : string -> E -> outcome (list string) * E.
Variable now : E -> string * E.

Local Abbreviation indexPath := (indexPathOf pathJoin).
Local Abbreviation lookup := (lookupJar pathJoin).
Local Abbreviation names := (allClassNames pathJoin).
Local Abbreviation scan := (scanProject pathJoin basename E getMavenDependencies jarEntries now).

Lemma findEntry_first (className : string) (pre post : list ClassIndexEntry.t)
    (entry : ClassIndexEntry.t) :
  ClassIndexEntry.className entry = className ->
  Forall (fun x => ClassIndexEntry.className x <> className) pre ->
  findEntry className (pre ++ entry :: post) = Some entry.
Proof.
  intros He Hpre. unfold findEntry. induction Hpre as [|x pre Hx _ IH]; simpl.
  - by rewrite He, String.eqb_refl.
  - apply String.eqb_neq in Hx. by rewrite Hx.
Qed.

Lemma findEntry_In (className : string) (classIndex : list ClassIndexEntry.t) :
  In className (map ClassIndexEntry.className classIndex)
  <-> exists entry, findEntry className classIndex = Some entry.
Proof.
  unfold findEntry. split.
  - intros H. apply in_map_iff in H as (x & Hx & Hin).
    destruct (List.find _ classIndex) as [y|] eqn:Hf; [by exists y|].
    apply (find_none _ _ Hf) in Hin. apply String.eqb_neq in Hin. done.
  - intros [entry H]. apply find_some in H as [Hin He].
    apply String.eqb_eq in He. apply in_map_iff. by exists entry.
Qed.

(** X10: the lookup of a class and the listing of the classes read the
    same index.  Without index file the lookup throws while the listing is
    empty; with an index the lookup returns a JAR exactly for the classes
    of the listing, and the JAR is that of the first entry of the class. *)
Theorem lookup_agrees_with_listing
    (files : gmap string IndexFile.t) (className projectPath : string) :
  (files !! indexPathOf pathJoin projectPath = None ->
   (exists m, lookupJar pathJoin files className projectPath = Thrown m) /\
   allClassNames pathJoin files projectPath = []) /\
  (forall indexData,
     files !! indexPathOf pathJoin projectPath = Some indexData ->
     (In className (allClassNames pathJoin files projectPath)
      <-> exists jar, lookupJar pathJoin files className projectPath = Returned (Some jar)) /\
     (In className (allClassNames pathJoin files projectPath)
      \/ lookupJar pathJoin files className projectPath = Returned None) /\
     (forall pre entry post,
        IndexFile.classIndex indexData = pre ++ entry :: post ->
        ClassIndexEntry.className entry = className ->
        Forall (fun x => ClassIndexEntry.className x <> className) pre ->
        lookupJar pathJoin files className projectPath
        = Returned (Some (ClassIndexEntry.jarPath entry)))).
Proof.
  unfold lookupJar, allClassNames. split.
  - intros ->. split; [by eexists|done].
  - intros d ->. split; [|split].
    + rewrite findEntry_In. split.
      * intros [entry ->]. by eexists.
      * intros [jar H]. destruct (findEntry className _) as [entry|]; [by exists entry|done].
    + destruct (findEntry className (IndexFile.classIndex d)) as [entry|] eqn:Hf;
        [left|by right].
      apply findEntry_In. by exists entry.
    + intros pre entry post -> He Hpre. by rewrite (findEntry_first _ _ _ _ He Hpre).
Qed.

End ScannerProperties.

(** ** Scans of a project *)

Section ScanProperties.

Variable pathJoin : list string -> string.
Variable basename : string -> string.
Variable E : Type.
Variable getMavenDependencies : string -> E -> outcome (list string) * E.
Variable jarEntries : string -> E -> outcome (list string) * E.
Variable now : E -> string * E.

Local Abbreviation indexPath := (indexPathOf pathJoin).
Local Abbreviation scan :=
  (scanProject pathJoin basename E getMavenDependencies jarEntries now).

Lemma scanJars_trace (dependencies : list string) :
  forall (classIndex : list ClassIndexEntry.t) (processedJars : nat) (e : E),
  exists trace e',
    extractions jarEntries dependencies e trace e' /\
    map fst trace = dependencies /\
    scanJars E jarEntries dependencies classIndex processedJars e
    = (classIndex ++ classesRead trace,
       processedJars + length (List.filter wasRead trace), e').
Proof.
  induction dependencies as [|jar rest IH]; intros classIndex n e.
  - exists [], e. split; [constructor|]. split; [done|].
    simpl. by rewrite app_nil_r, Nat.add_0_r.
  - destruct (extractClassesFromJar E jarEntries jar e) as [[cs|m] e1] eqn:Hx.
    + destruct (IH (classIndex ++ cs) (S n) e1) as (trace & e2 & Hex & Hfst & Hscan).
      exists ((jar, Returned cs) :: trace), e2.
      split; [by econstructor|]. split; [simpl; by rewrite Hfst|].
      simpl. rewrite Hx, Hscan. unfold classesRead. simpl.
      rewrite <- app_assoc. f_equal. f_equal. lia.
    + destruct (IH classIndex n e1) as (trace & e2 & Hex & Hfst & Hscan).
      exists ((jar, Thrown m) :: trace), e2.
      split; [by econstructor|]. split; [simpl; by rewrite Hfst|].
      simpl. by rewrite Hx, Hscan.
Qed.

(** X11: a scan that returns leaves an index file that agrees with what it
    returned; a further scan without forced refresh returns the same
    result and changes nothing, whatever the state of Maven and of the
    archives; and the lookup of a class no longer throws. *)
Theorem scan_result_is_cached
    (projectPath : string) (forceRefresh : bool)
    (files files' : gmap string IndexFile.t) (e e' : E) (r : ScanResult.t) :
  scanProject pathJoin basename E getMavenDependencies jarEntries now
    projectPath forceRefresh files e = (Returned r, files', e') ->
  (exists indexData,
     files' !! indexPathOf pathJoin projectPath = Some indexData /\
     ScanResult.jarCount r = IndexFile.jarCount indexData /\
     ScanResult.classCount r = IndexFile.classCount indexData /\
     ScanResult.sampleEntries r = IndexFile.sampleEntries indexData /\
     ScanResult.indexPath r = indexPathOf pathJoin projectPath) /\
  (forall e2,
     scanProject pathJoin basename E getMavenDependencies jarEntries now
       projectPath false files' e2 = (Returned r, files', e2)) /\
  (forall className,
     exists jar, lookupJar pathJoin files' className projectPath = Returned jar).
Proof.
  intros H.
  assert (Hidx : exists indexData,
            files' !! indexPath projectPath = Some indexData /\
            r = {| ScanResult.jarCount := IndexFile.jarCount indexData;
                   ScanResult.classCount := IndexFile.classCount indexData;
                   ScanResult.indexPath := indexPath projectPath;
                   ScanResult.sampleEntries := IndexFile.sampleEntries indexData |}).
  { unfold scanProject in H.
    set (files1 := if forceRefresh && bool_decide (is_Some (files !! indexPath projectPath))
                   then delete (indexPath projectPath) files else files) in *.
    destruct (if negb forceRefresh then files1 !! indexPath projectPath else None)
      as [cached|] eqn:Hc.
    - injection H as <- <- <-. exists cached. split; [|done].
      destruct forceRefresh; [done|exact Hc].
    - destruct (getMavenDependencies projectPath e) as [[deps|m] e1]; [|done].
      destruct (scanJars E jarEntries deps [] 0 e1) as [[classIndex n] e2].
      destruct (now e2) as [stamp e3]. injection H as <- <- <-.
      eexists. split; [apply lookup_insert_eq|done]. }
  destruct Hidx as (d & Hd & ->). split; [by exists d|]. split.
  - intros e2. unfold scanProject. simpl. by rewrite Hd.
  - intros className. unfold lookupJar. rewrite Hd. by eexists.
Qed.

(** X12: a scan that runs (the refresh is forced or there is no index
    file) reads the dependencies in order and skips the archives that
    cannot be read: the JAR count is the number of archives read, the
    class count the number of their class entries, the samples are made
    from the first ten entries, and the classes listed afterwards are the
    classes of the archives read, in the order of the dependencies. *)
Theorem scan_indexes_the_readable_archives
    (projectPath : string) (forceRefresh : bool)
    (files : gmap string IndexFile.t) (e e1 : E) (dependencies : list string) :
  forceRefresh = true \/ files !! indexPathOf pathJoin projectPath = None ->
  getMavenDependencies projectPath e = (Returned dependencies, e1) ->
  exists trace e2 r files',
    extractions jarEntries dependencies e1 trace e2 /\
    map fst trace = dependencies /\
    scanProject pathJoin basename E getMavenDependencies jarEntries now
      projectPath forceRefresh files e = (Returned r, files', snd (now e2)) /\
    ScanResult.jarCount r = length (List.filter wasRead trace) /\
    ScanResult.classCount r = length (classesRead trace) /\
    ScanResult.sampleEntries r = map (sampleEntry basename) (take 10 (classesRead trace)) /\
    allClassNames pathJoin files' projectPath
    = map ClassIndexEntry.className (classesRead trace).
Proof.
  intros Hfresh Hdeps.
  destruct (scanJars_trace dependencies [] 0 e1) as (trace & e2 & Hex & Hfst & Hscan).
  simpl in Hscan.
  assert (Hnone : (if negb forceRefresh
                   then (if forceRefresh && bool_decide (is_Some (files !! indexPath projectPath))
                         then delete (indexPath projectPath) files else files)
                        !! indexPath projectPath
                   else None) = None).
  { destruct forceRefresh; [done|]. simpl. by destruct Hfresh. }
  unfold scanProject. rewrite Hnone, Hdeps, Hscan.
  destruct (now e2) as [stamp e3] eqn:Hnow.
  exists trace, e2. eexists. eexists. rewrite Hnow.
  split; [exact Hex|]. split; [exact Hfst|]. split; [reflexivity|].
  simpl. repeat split. unfold allClassNames. by rewrite lookup_insert_eq.
Qed.

(** X13: a forced refresh removes the index file before it scans; when the
    dependencies cannot be obtained the scan throws and the project is
    left without index file, so that the lookup of a class throws from
    then on.  Without forced refresh a scan that throws changes no file. *)
Theorem failed_refresh_loses_the_index
    (projectPath : string) (files : gmap string IndexFile.t) (e e1 : E) (m : string) :
  getMavenDependencies projectPath e = (Thrown m, e1) ->
  scanProject pathJoin basename E getMavenDependencies jarEntries now
    projectPath true files e
  = (Thrown m, delete (indexPathOf pathJoin projectPath) files, e1) /\
  (forall className,
     exists m', lookupJar pathJoin (delete (indexPathOf pathJoin projectPath) files)
                  className projectPath = Thrown m') /\
  (forall forceRefresh r files' e',
     scanProject pathJoin basename E getMavenDependencies jarEntries now
       projectPath forceRefresh files e = (r, files', e') ->
     forceRefresh = false -> (exists m', r = Thrown m') -> files' = files).
Proof.
  intros Hdeps. split; [|split].
  - unfold scanProject. simpl. rewrite Hdeps.
    destruct (bool_decide (is_Some (files !! indexPath projectPath))) eqn:Hb; [done|].
    apply bool_decide_eq_false in Hb. rewrite <- eq_None_not_Some in Hb.
    by rewrite delete_id.
  - intros className. unfold lookupJar. rewrite lookup_delete_eq. by eexists.
  - intros forceRefresh r files' e' H -> [m' ->]. unfold scanProject in H. simpl in H.
    destruct (files !! indexPath projectPath); [done|].
    rewrite Hdeps in H. by injection H as _ <- _.
Qed.

End ScanProperties.

Lemma exampleFiles_index :
  exampleFiles !! examplePathJoin ["proj"; ".mcp-class-index.json"] = Some exampleIndex.
Proof. vm_compute. reflexivity. Defined.

Lemma lookup_agrees_with_listing_witness :
  lookupJar examplePathJoin exampleFiles "com.acme.B" "proj" = Returned (Some "repo/a.jar") /\
  ((exists m, lookupJar examplePathJoin ∅ "com.acme.B" "proj" = Thrown m) /\
   allClassNames examplePathJoin ∅ "proj" = []).
Proof.
  split.
  - apply (proj2 (proj2 (proj2 (lookup_agrees_with_listing examplePathJoin exampleFiles
                                  "com.acme.B" "proj") exampleIndex exampleFiles_index))
             [entryA] (entryB "repo/a.jar") [entryB "repo/b.jar"; entryC]).
    + reflexivity.
    + reflexivity.
    + repeat constructor. discriminate.
  - apply (proj1 (lookup_agrees_with_listing examplePathJoin ∅ "com.acme.B" "proj")).
    reflexivity.
Defined.

Lemma exampleFiles_scan :
  scanProject examplePathJoin exampleBasename nat
    exampleDependencies exampleJarEntries exampleNow "proj" false ∅ 0
  = (Returned exampleResult, exampleFiles, 4).
Proof. vm_compute. reflexivity. Defined.

Lemma scan_result_is_cached_witness :
  scanProject examplePathJoin exampleBasename nat
    exampleDependencies exampleJarEntries exampleNow "proj" false exampleFiles 7
  = (Returned exampleResult, exampleFiles, 7).
Proof.
  exact (proj1 (proj2 (scan_result_is_cached examplePathJoin exampleBasename nat
                         exampleDependencies exampleJarEntries exampleNow
                         "proj" false ∅ exampleFiles 0 4 exampleResult exampleFiles_scan)) 7).
Defined.

Lemma scan_indexes_the_readable_archives_witness :
  exists trace e2 r files',
    extractions exampleJarEntries ["repo/a.jar"; "repo/broken.jar"; "repo/b.jar"] 1 trace e2 /\
    map fst trace = ["repo/a.jar"; "repo/broken.jar"; "repo/b.jar"] /\
    scanProject examplePathJoin exampleBasename nat
      exampleDependencies exampleJarEntries exampleNow "proj" true exampleFiles 0
    = (Returned r, files', snd (exampleNow e2)) /\
    ScanResult.jarCount r = length (List.filter wasRead trace) /\
    ScanResult.classCount r = length (classesRead trace) /\
    ScanResult.sampleEntries r
    = map (sampleEntry exampleBasename) (take 10 (classesRead trace)) /\
    allClassNames examplePathJoin files' "proj"
    = map ClassIndexEntry.className (classesRead trace).
Proof.
  apply (scan_indexes_the_readable_archives examplePathJoin exampleBasename nat
           exampleDependencies exampleJarEntries exampleNow "proj" true exampleFiles 0 1).
  - by left.
  - reflexivity.
Defined.

Lemma failed_refresh_loses_the_index_witness :
  scanProject examplePathJoin exampleBasename nat
    failingDependencies exampleJarEntries exampleNow "proj" true exampleFiles 0
  = (Thrown "no local repository",
     delete (indexPathOf examplePathJoin "proj") exampleFiles, 1).
Proof.
  apply (proj1 (failed_refresh_loses_the_index examplePathJoin exampleBasename nat
                  failingDependencies exampleJarEntries exampleNow
                  "proj" exampleFiles 0 1 "no local repository" eq_refl)).
Defined.

(** ** The subclass search over the class index *)

Lemma sublist_map_filter {A B : Type} (f : A -> B) (p : A -> bool) (l : list A) :
  sublist (map f (List.filter p l)) (map f l).
Proof.
  induction l as [|x l IH]; [constructor|]. simpl.
  destruct (p x); simpl; by constructor.
Qed.

Section SearchOverIndex.

Variable pathJoin : list string -> string.
Variable E : Type.
Variable runJavap :
  string -> string -> gmap string IndexFile.t * E ->
  outcome string * (gmap string IndexFile.t * E).

(** X14: the subclass search over the index of the scanner returns a list
    and does not throw, whatever happens to the analyses; the list is made
    of indexed class names, in the order of the index; for a project
    without index file it is empty and nothing is analyzed, although the
    analysis of any single class of that project throws. *)
Theorem subclass_search_over_the_index
    (className projectPath : string) (w : gmap string IndexFile.t * E) :
  (exists subClasses w',
     findSubClasses _ (scannerFindJar pathJoin E) (scannerClassNames pathJoin E) runJavap
       className projectPath w = (Returned subClasses, w') /\
     sublist subClasses (allClassNames pathJoin (fst w) projectPath)) /\
  (fst w !! indexPathOf pathJoin projectPath = None ->
   findSubClasses _ (scannerFindJar pathJoin E) (scannerClassNames pathJoin E) runJavap
     className projectPath w = (Returned [], w) /\
   exists m, analyzeClass _ (scannerFindJar pathJoin E) runJavap className projectPath w
             = (Thrown m, w)).
Proof.
  split.
  - destruct (findSubClassesLoop_trace _ (scannerFindJar pathJoin E) runJavap
                className projectPath (allClassNames pathJoin (fst w) projectPath) [] w)
      as (trace & w' & _ & Hfst & Hscan).
    eexists. exists w'. unfold findSubClasses, scannerClassNames at 1.
    rewrite Hscan. split; [reflexivity|]. simpl. rewrite <- Hfst.
    apply sublist_map_filter.
  - intros Hnone. unfold findSubClasses, analyzeClass, scannerClassNames, scannerFindJar,
      allClassNames, lookupJar. rewrite Hnone. split; [done|by eexists].
Qed.

End SearchOverIndex.

Lemma subclass_search_over_the_index_witness :
  findSubClasses _ (scannerFindJar examplePathJoin nat) (scannerClassNames examplePathJoin nat)
    projectJavap "com.acme.A" "proj" (∅, 0) = (Returned [], (∅, 0)) /\
  exists m, analyzeClass _ (scannerFindJar examplePathJoin nat) projectJavap
              "com.acme.A" "proj" (∅, 0) = (Thrown m, (∅, 0)).
Proof.
  apply (proj2 (subclass_search_over_the_index examplePathJoin nat projectJavap
                  "com.acme.A" "proj" (∅, 0))).
  reflexivity.
Defined.

(** In the scanned project the class [com.acme.B], indexed twice, is
    found twice as a subclass of [com.acme.A]. *)
Example subclass_search_example :
  fst (findSubClasses _ (scannerFindJar examplePathJoin nat)
         (scannerClassNames examplePathJoin nat) projectJavap
         "com.acme.A" "proj" (exampleFiles, 0))
  = Returned ["com.acme.B"; "com.acme.B"].
Proof. vm_compute. reflexivity. Qed.

(** ** Maven coordinates *)

Lemma isCoordChar_colon : isCoordChar ":"%char = false.
Proof. reflexivity. Qed.

Lemma split_segment (segment rest : string) :
  allChar isCoordChar segment = true ->
  JS.split ":"%char (segment +:+ String ":"%char rest) = segment :: JS.split ":"%char rest.
Proof.
  induction segment as [|c s IH]; intros H; [done|]. simpl in H |- *.
  apply andb_true_iff in H as [Hc Hs]. rewrite (IH Hs).
  destruct (Ascii.eqb c ":") eqn:E; [|done].
  apply Ascii.eqb_eq in E. subst c. by rewrite isCoordChar_colon in Hc.
Qed.

Lemma split_last_segment (segment : string) :
  allChar isCoordChar segment = true -> JS.split ":"%char segment = [segment].
Proof.
  intros H. apply split_single. by apply (allChar_includes isCoordChar).
Qed.

Lemma segmentThenColon_Some (s segment rest : string) :
  segmentThenColon s = Some (segment, rest) ->
  segment <> EmptyString /\ allChar isCoordChar segment = true.
Proof.
  unfold segmentThenColon. pose proof (span_allChar isCoordChar s) as Ha.
  destruct (JS.span isCoordChar s) as [g r]. simpl in Ha.
  destruct g as [|c g]; [done|]. simpl JS.isEmpty. cbv iota.
  destruct r as [|x r]; [done|]. destruct (Ascii.eqb x ":"); [|done].
  by intros [= <- <-].
Qed.

Lemma coordinateAt_Some (s d : string) :
  coordinateAt s = Some d ->
  exists groupId artifactId type version scope,
    d = groupId +:+ ":" +:+ artifactId +:+ ":" +:+ type +:+ ":" +:+ version +:+ ":" +:+ scope /\
    Forall (fun part => part <> EmptyString /\ allChar isCoordChar part = true)
      [groupId; artifactId; type; version; scope].
Proof.
  unfold coordinateAt.
  destruct (segmentThenColon s) as [[g s1]|] eqn:H1; [|done].
  destruct (segmentThenColon s1) as [[a s2]|] eqn:H2; [|done].
  destruct (segmentThenColon s2) as [[t s3]|] eqn:H3; [|done].
  destruct (segmentThenColon s3) as [[v s4]|] eqn:H4; [|done].
  pose proof (span_allChar isCoordChar s4) as Ha.
  destruct (JS.span isCoordChar s4) as [sc r]. simpl in Ha.
  destruct sc as [|c sc]; [done|]. simpl JS.isEmpty. cbv iota.
  intros [= <-]. exists g, a, t, v, (String c sc). split; [done|].
  apply segmentThenColon_Some in H1, H2, H3, H4.
  repeat (apply Forall_cons; split; [done|]).
  apply Forall_nil_2.
Qed.

Lemma afterLazyDots_Some (s d : string) :
  afterLazyDots s = Some d -> exists s', coordinateAt s' = Some d.
Proof.
  induction s as [|c s IH].
  - done.
  - change (afterLazyDots (String c s))
      with (match coordinateAt (String c s) with
            | Some d => Some d
            | None => if JS.isLineTerminator c then None else afterLazyDots s
            end).
    destruct (coordinateAt (String c s)) eqn:H; [intros [= <-]; by exists (String c s)|].
    destruct (JS.isLineTerminator c); [done|exact IH].
Qed.

(** X15: a coordinate that the dependency pattern finds on a line of the
    Maven output has exactly five parts between its colons, none empty;
    the resolution of the JAR path therefore finds all the parts it
    takes, does not throw, and gives a path exactly when the third part is
    [jar]: the repository, the group with its dots turned into slashes,
    the artifact, the version and [artifact-version.jar]. *)
Theorem dependency_has_five_parts
    (pathJoin : list string -> string) (mavenRepoPath line dependency : string) :
  matchDependency line = Some dependency ->
  exists groupId artifactId type version scope,
    JS.split ":"%char dependency = [groupId; artifactId; type; version; scope] /\
    Forall (fun part => part <> EmptyString /\ allChar isCoordChar part = true)
      [groupId; artifactId; type; version; scope] /\
    resolveJarPath pathJoin mavenRepoPath dependency
    = Returned
        (if String.eqb type "jar"
         then Some (pathJoin [mavenRepoPath;
                              JSText.replaceChar "."%char "/"%char groupId;
                              artifactId; version;
                              artifactId +:+ "-" +:+ version +:+ ".jar"])
         else None).
Proof.
  intros H. unfold matchDependency in H. apply search_Some in H as [s H].
  destruct (JS.startsWith "[INFO]" s); [|done].
  apply afterLazyDots_Some in H as [s' H].
  apply coordinateAt_Some in H as (g & a & t & v & sc & -> & Hall).
  exists g, a, t, v, sc.
  assert (Hsplit : JS.split ":" (g +:+ ":" +:+ a +:+ ":" +:+ t +:+ ":" +:+ v +:+ ":" +:+ sc)
                   = [g; a; t; v; sc]).
  { inversion Hall as [|? ? [_ Hg] Hall1]; subst.
    inversion Hall1 as [|? ? [_ Ha] Hall2]; subst.
    inversion Hall2 as [|? ? [_ Ht] Hall3]; subst.
    inversion Hall3 as [|? ? [_ Hv] Hall4]; subst.
    inversion Hall4 as [|? ? [_ Hsc] _]; subst.
    etrans; [exact (split_segment g (a +:+ ":" +:+ t +:+ ":" +:+ v +:+ ":" +:+ sc) Hg)|f_equal].
    etrans; [exact (split_segment a (t +:+ ":" +:+ v +:+ ":" +:+ sc) Ha)|f_equal].
    etrans; [exact (split_segment t (v +:+ ":" +:+ sc) Ht)|f_equal].
    etrans; [exact (split_segment v sc Hv)|f_equal].
    by apply split_last_segment. }
  split; [exact Hsplit|]. split; [exact Hall|].
  unfold resolveJarPath. rewrite Hsplit. simpl. by destruct (String.eqb t "jar").
Qed.

Lemma dependency_has_five_parts_witness :
  exists groupId artifactId type version scope,
    JS.split ":"%char "com.acme:widget-core:jar:1.0.0:compile"
    = [groupId; artifactId; type; version; scope] /\
    Forall (fun part => part <> EmptyString /\ allChar isCoordChar part = true)
      [groupId; artifactId; type; version; scope] /\
    resolveJarPath examplePathJoin "repo" "com.acme:widget-core:jar:1.0.0:compile"
    = Returned
        (if String.eqb type "jar"
         then Some (examplePathJoin ["repo";
                                     JSText.replaceChar "."%char "/"%char groupId;
                                     artifactId; version;
                                     artifactId +:+ "-" +:+ version +:+ ".jar"])
         else None).
Proof.
  apply (dependency_has_five_parts examplePathJoin "repo"
           "[INFO] +- com.acme:widget-core:jar:1.0.0:compile").
  reflexivity.
Defined.

(** A coordinate with a classifier has six parts: the pattern takes the
    first five, and the classifier stands where the version is read. *)
Example classifier_example :
  matchDependency "[INFO] |  \- org.x:y:jar:linux:2.1:runtime" = Some "org.x:y:jar:linux:2.1" /\
  resolveJarPath examplePathJoin "repo" "org.x:y:jar:linux:2.1"
  = Returned (Some "repo/org/x/y/linux/y-linux.jar") /\
  resolveJarPath examplePathJoin "repo" "org.x:y:pom:2.1:compile" = Returned None /\
  matchDependency "[INFO] BUILD SUCCESS" = None.
Proof. repeat split; vm_compute; reflexivity. Qed.

(** ** The index before an analysis *)

Section EnsureIndexProperties.

Variable pathJoin : list string -> string.
Variable basename : string -> string.
Variable E : Type.
Variable getMavenDependencies : string -> E -> outcome (list string) * E.
Variable jarEntries : string -> E -> outcome (list string) * E.
Variable now : E -> string * E.

(** X16: what the analysis of a class finds after [ensureIndexExists].
    When it returns, the project has an index file, so the lookup of the
    JAR of any class returns; an index that was there is left as it is and
    neither Maven nor an archive is consulted.  When it throws, there was
    no index, it was the listing of the dependencies that threw, its
    message is passed on behind a prefix, and there is still no index. *)
Theorem index_ensured_before_lookup
    (projectPath : string) (files files' : gmap string IndexFile.t) (e e' : E)
    (o : outcome unit) :
  ensureIndexExists pathJoin basename E getMavenDependencies jarEntries now
    projectPath files e = (o, files', e') ->
  match o with
  | Returned _ =>
      (forall className,
         exists jar, lookupJar pathJoin files' className projectPath = Returned jar) /\
      (is_Some (files !! indexPathOf pathJoin projectPath) -> files' = files /\ e' = e)
  | Thrown m =>
      files !! indexPathOf pathJoin projectPath = None /\
      files' = files /\
      exists m',
        getMavenDependencies projectPath e = (Thrown m', e') /\
        m = "cannot create the class index: " +:+ m'
  end.
Proof.
  unfold ensureIndexExists.
  destruct (files !! indexPathOf pathJoin projectPath) as [d|] eqn:Hd.
  - intros [= <- <- <-]. split; [|done].
    intros className. unfold lookupJar. rewrite Hd. by eexists.
  - unfold scanProject. simpl. rewrite Hd.
    destruct (getMavenDependencies projectPath e) as [[deps|m] e1].
    + destruct (scanJars E jarEntries deps [] 0 e1) as [[classIndex n] e2].
      destruct (now e2) as [stamp e3]. intros [= <- <- <-]. split.
      * intros className. unfold lookupJar. rewrite lookup_insert_eq. by eexists.
      * by intros [? ?].
    + intros [= <- <- <-]. split; [done|]. split; [done|]. by exists m.
Qed.

End EnsureIndexProperties.

Lemma exampleFiles_ensured :
  ensureIndexExists examplePathJoin exampleBasename nat
    exampleDependencies exampleJarEntries exampleNow "proj" ∅ 0
  = (Returned tt, exampleFiles, 4).
Proof. vm_compute. reflexivity. Defined.

Lemma index_ensured_before_lookup_witness :
  exists jar, lookupJar examplePathJoin exampleFiles "com.acme.B" "proj" = Returned jar.
Proof.
  exact (proj1 (index_ensured_before_lookup examplePathJoin exampleBasename nat
                  exampleDependencies exampleJarEntries exampleNow "proj" ∅ exampleFiles 0 4
                  (Returned tt) exampleFiles_ensured) "com.acme.B").
Defined.

(** With Maven failing and no index, the analysis request fails on the
    scan, and mentions it; with an index, Maven is not asked. *)
Example ensure_example :
  fst (fst (ensureIndexExists examplePathJoin exampleBasename nat
              failingDependencies exampleJarEntries exampleNow "proj" ∅ 0))
  = Thrown "cannot create the class index: no local repository" /\
  ensureIndexExists examplePathJoin exampleBasename nat
    failingDependencies exampleJarEntries exampleNow "proj" exampleFiles 0
  = (Returned tt, exampleFiles, 0).
Proof. split; vm_compute; reflexivity. Qed.

(** ** The names of a method block *)

Lemma processLine_signature (st : ParserState) (sig : string) (m : ClassMethod.t) :
  isSignatureLine (JS.trim sig) = true ->
  parseMethodFromJavap (JS.trim sig) = Some m ->
  processLine st sig
  = {| analysis :=
         ClassAnalysis.withMethods (analysis st) (ClassAnalysis.methods (analysis st) ++ [m]);
       currentMethod := Some (length (ClassAnalysis.methods (analysis st)));
       inLocalVariableTable := inLocalVariableTable st;
       methodParameters := ∅ |}.
Proof.
  unfold isSignatureLine. intros Hsig Hm.
  apply andb_true_iff in Hsig as [Hc Hl]. apply negb_true_iff in Hc.
  unfold processLine. by rewrite Hc, Hl, Hm.
Qed.

Lemma staysInMethod_shape (l : string) :
  staysInMethod l = true ->
  isClassDeclarationLine (JS.trim l) = false /\ isMethodLine (JS.trim l) = false /\
  String.eqb (JS.trim l) "" = false /\ JS.startsWith "}" (JS.trim l) = false /\
  JS.startsWith "SourceFile:" (JS.trim l) = false.
Proof.
  unfold staysInMethod. cbv zeta. rewrite !andb_true_iff, !negb_true_iff. tauto.
Qed.

Lemma endOfMethod_stays (t : string) (st : ParserState) :
  isMethodLine t = false -> JS.startsWith "}" t = false ->
  JS.startsWith "SourceFile:" t = false -> endOfMethod t st = st.
Proof.
  intros Hm Hb Hs. unfold endOfMethod. rewrite Hm, Hb, Hs. simpl.
  by destruct (currentMethod st).
Qed.

Lemma tableEntry_header (l : string) : isTableHeader l = true -> tableEntry l = None.
Proof.
  intros Hh. unfold isTableHeader in Hh. unfold tableEntry.
  destruct (Regex.matchParamLine (JS.trim l)) as [[[s n] t]|] eqn:Hm; [|done].
  destruct (matchParamLine_digit_head _ _ Hm) as (c & r & Ht & Hd).
  rewrite Ht in Hh. by rewrite !(startsWith_digit_head _ c r Hd) in Hh.
Qed.

Lemma recordParameterName_none (t : string) (cur : nat) (st : ParserState) :
  Regex.matchParamLine t = None -> recordParameterName t cur st = st.
Proof. intros H. unfold recordParameterName. by rewrite H. Qed.

(** Before the table: the lines of the body change nothing. *)
Lemma processLine_body (st : ParserState) (l : string) :
  staysInMethod l = true -> JS.trim l <> "LocalVariableTable:" ->
  (inLocalVariableTable st = true -> tableEntry l = None) ->
  processLine st l = st.
Proof.
  intros Hstay Hlvt Hentry.
  destruct (staysInMethod_shape l Hstay) as (Hc & Hm & Hb & Hbr & Hsf).
  apply String.eqb_neq in Hlvt.
  unfold processLine. rewrite Hc, Hm, Hlvt, Hb.
  destruct (inLocalVariableTable st) eqn:Hin;
    [|by apply endOfMethod_stays].
  destruct (currentMethod st) as [cur|] eqn:Hcur; [|by apply endOfMethod_stays].
  destruct (_ || _); [done|].
  rewrite recordParameterName_none; [by apply endOfMethod_stays|].
  specialize (Hentry eq_refl). unfold tableEntry in Hentry.
  by destruct (Regex.matchParamLine (JS.trim l)) as [[[? ?] ?]|].
Qed.

Lemma scanLines_body (body : list string) (st : ParserState) :
  Forall (fun l => staysInMethod l = true /\ JS.trim l <> "LocalVariableTable:" /\
                   (inLocalVariableTable st = true -> tableEntry l = None)) body ->
  scanLines st body = st.
Proof.
  induction 1 as [|l body (Hs & Hl & He) _ IH]; [done|].
  change (l :: body) with ([l] ++ body). rewrite scanLines_app. simpl scanLines at 2.
  by rewrite (processLine_body st l Hs Hl He).
Qed.

Lemma processLine_table_start (st : ParserState) (header : string) :
  JS.trim header = "LocalVariableTable:" ->
  processLine st header
  = {| analysis := analysis st;
       currentMethod := currentMethod st;
       inLocalVariableTable := true;
       methodParameters := methodParameters st |}.
Proof. intros H. unfold processLine. by rewrite H. Qed.

(** Inside the table: the lines that read as entries are recorded, the
    others change nothing. *)
Lemma scanLines_rows (rows : list string) : forall (st : ParserState) (cur : nat),
  currentMethod st = Some cur -> inLocalVariableTable st = true ->
  Forall (fun l => staysInMethod l = true) rows ->
  scanLines st rows
  = withNames st
      (recordEntries (parameterCount (analysis st) cur) (methodParameters st)
         (omap tableEntry rows)).
Proof.
  induction rows as [|l rows IH]; intros st cur Hc Hin Hall.
  - simpl. by rewrite withNames_same.
  - inversion Hall as [|? ? Hl Hrest]; subst.
    change (l :: rows) with ([l] ++ rows). rewrite scanLines_app. simpl scanLines at 2.
    rewrite omap_app. simpl omap.
    destruct (tableEntry l) as [e|] eqn:He.
    + unfold tableEntry in He.
      destruct (Regex.matchParamLine (JS.trim l)) as [[[slotText paramName] ty]|] eqn:Hm;
        [|done].
      injection He as <-.
      rewrite (processLine_data_line _ _ _ _ _ Hm), Hin, Hc. simpl.
      destruct (JS.parseInt slotText <? parameterCount (analysis st) cur)%nat eqn:Hlt.
      * rewrite (IH _ cur) by done. unfold withNames. simpl. by rewrite Hc, Hin.
      * by apply IH.
    + assert (Hstep : processLine st l = st).
      { destruct (String.eqb (JS.trim l) "LocalVariableTable:") eqn:Hlvt.
        - apply String.eqb_eq in Hlvt. rewrite (processLine_table_start _ _ Hlvt).
          rewrite <- Hin. by destruct st.
        - apply String.eqb_neq in Hlvt. apply processLine_body; [done|done|done]. }
      rewrite Hstep. by apply IH.
Qed.

Lemma endsMethod_shape (l : string) :
  endsMethod l = true ->
  isClassDeclarationLine (JS.trim l) = false /\
  isMethodLine (JS.trim l) = false /\
  String.eqb (JS.trim l) "LocalVariableTable:" = false /\
  JS.startsWith "Start" (JS.trim l) = false /\
  JS.startsWith "Slot" (JS.trim l) = false /\
  String.eqb (JS.trim l) "" = false /\
  Regex.matchParamLine (JS.trim l) = None.
Proof.
  unfold endsMethod. intros H. apply orb_true_iff in H as [H|H].
  - apply startsWith_head in H as [r ->]. by repeat split.
  - apply startsWith_split in H. rewrite H. by repeat split.
Qed.

(** A closing brace and the trailer end the current method, with the
    reconciliation of its parameters. *)
Lemma processLine_ends (st : ParserState) (l : string) (cur : nat) :
  endsMethod l = true -> currentMethod st = Some cur ->
  processLine st l
  = {| analysis := updateParameterNames (methodParameters st) cur (analysis st);
       currentMethod := None;
       inLocalVariableTable := false;
       methodParameters := ∅ |}.
Proof.
  intros He Hc.
  destruct (endsMethod_shape l He) as (Hcl & Hm & Hl & Hs1 & Hs2 & Hb & Hno).
  assert (Hend : forall s, currentMethod s = Some cur ->
            endOfMethod (JS.trim l) s
            = {| analysis := updateParameterNames (methodParameters s) cur (analysis s);
                 currentMethod := None;
                 inLocalVariableTable := false;
                 methodParameters := ∅ |}).
  { intros s Hs. unfold endOfMethod. rewrite Hs, Hm. unfold endsMethod in He.
    rewrite orb_false_l. by rewrite He. }
  unfold processLine. rewrite Hcl, Hm, Hl, Hs1, Hs2, Hb, Hc. simpl.
  destruct (inLocalVariableTable st); [|by apply Hend].
  rewrite (recordParameterName_none _ _ _ Hno). by apply Hend.
Qed.

Lemma matchParamLine_name (s slot name type : string) :
  Regex.matchParamLine s = Some (slot, name, type) -> name <> EmptyString.
Proof.
  unfold Regex.matchParamLine.
  repeat match goal with
         | |- context [JS.span ?p ?x] => destruct (JS.span p x) as [? ?]
         end.
  repeat match goal with
         | |- context [JS.isEmpty ?x] => destruct (JS.isEmpty x) eqn:?; try discriminate
         end;
    intros [= <- <- <-]; intros ->; discriminate.
Qed.

Lemma tableEntry_name (l : string) (e : nat * string) :
  tableEntry l = Some e -> snd e <> EmptyString.
Proof.
  unfold tableEntry.
  destruct (Regex.matchParamLine (JS.trim l)) as [[[slot name] ty]|] eqn:Hm; [|done].
  intros [= <-]. simpl. by apply matchParamLine_name in Hm.
Qed.

Lemma omap_tableEntry_names (rows : list string) :
  Forall (fun e => snd e <> EmptyString) (omap tableEntry rows).
Proof.
  apply Forall_forall. intros e He. apply list_elem_of_omap in He as (l & _ & Hl).
  by apply tableEntry_name in Hl.
Qed.

(** A name is pending after the entries exactly when one was pending
    before or some entry is in range. *)
Lemma size_recordEntries (count : nat) (entries : list (nat * string)) :
  forall names : gmap nat string,
  (0 <? size (recordEntries count names entries))%nat
  = (0 <? size names)%nat || contributes entries count.
Proof.
  induction entries as [|e entries IH]; intros names; [by rewrite orb_false_r|].
  change (recordEntries count names (e :: entries))
    with (recordEntries count
            (if (fst e <? count)%nat then <[fst e := snd e]> names else names) entries).
  rewrite IH. unfold contributes. simpl existsb.
  destruct (fst e <? count)%nat; [|done].
  assert (Hpos : (0 <? size (<[fst e := snd e]> names))%nat = true).
  { apply Nat.ltb_lt.
    assert (size (<[fst e := snd e]> names) <> 0); [|lia].
    apply map_size_non_empty_iff, insert_non_empty. }
  rewrite Hpos. simpl. by rewrite orb_true_r.
Qed.

(** The name that the reconciliation takes for a position is the one the
    table gives. *)
Lemma parameterName_recordEntries (count : nat) (entries : list (nat * string)) (j : nat) :
  Forall (fun e => snd e <> EmptyString) entries -> j < count ->
  parameterName (recordEntries count ∅ entries) j = nameFromTable entries j.
Proof.
  intros Hnames Hj. unfold parameterName, nameFromTable.
  rewrite recordEntries_lookup.
  assert (Hf : List.filter (fun e => (fst e =? j)%nat && (j <? count)%nat) entries
               = List.filter (fun e => (fst e =? j)%nat) entries).
  { apply List.filter_ext. intros e. apply Nat.ltb_lt in Hj. by rewrite Hj, andb_true_r. }
  rewrite Hf.
  destruct (last (List.filter (fun e => (fst e =? j)%nat) entries)) as [e|] eqn:Hlast;
    [|by rewrite lookup_empty].
  assert (Hne : snd e <> EmptyString).
  { apply last_Some in Hlast as [l' Hl'].
    assert (Hin : In e (List.filter (fun e => (fst e =? j)%nat) entries)).
    { rewrite Hl'. apply in_or_app. right. by left. }
    apply filter_In in Hin as [Hin _].
    rewrite Forall_forall in Hnames. apply Hnames. by apply list_elem_of_In. }
  destruct (snd e); [done|reflexivity].
Qed.

Lemma updatedParams_recordEntries (entries : list (nat * string)) (types : list string) :
  Forall (fun e => snd e <> EmptyString) entries ->
  updatedParams (recordEntries (length types) ∅ entries) types = reconciled entries types.
Proof.
  intros Hnames. unfold updatedParams, reconciled. apply imap_ext.
  intros j type Hj. simpl. f_equal. f_equal.
  apply parameterName_recordEntries; [done|]. by apply lookup_lt_Some in Hj.
Qed.

(** The reconciliation of the last method with the names of its table. *)
Lemma updateParameterNames_last (a : ClassAnalysis.t) (before : list ClassMethod.t)
    (m : ClassMethod.t) (entries : list (nat * string)) :
  ClassAnalysis.methods a = before ++ [m] ->
  Forall (fun e => snd e <> EmptyString) entries ->
  ClassAnalysis.methods
    (updateParameterNames
       (recordEntries (length (ClassMethod.parameters m)) ∅ entries) (length before) a)
  = before ++ [methodAfterTable m entries].
Proof.
  intros Hm Hnames. unfold updateParameterNames, methodAfterTable.
  rewrite size_recordEntries, map_size_empty. simpl.
  destruct (contributes entries (length (ClassMethod.parameters m))); [|done].
  destruct a; simpl in *. subst.
  rewrite alter_app_r_alt by lia. rewrite Nat.sub_diag. simpl.
  by rewrite updatedParams_recordEntries.
Qed.

(** What the scanner makes of a method block, from any state. *)
Lemma scanLines_method_block (st : ParserState) (sig : string) (m : ClassMethod.t)
    (body : list string) (header : string) (rows : list string) (close : string) :
  isMethodBlock (inLocalVariableTable st) sig m body header rows close ->
  let st' := scanLines st (sig :: body ++ header :: rows ++ [close]) in
  ClassAnalysis.methods (analysis st')
  = ClassAnalysis.methods (analysis st) ++ [methodAfterTable m (omap tableEntry rows)] /\
  currentMethod st'
  = (if endsMethod close then None
     else Some (length (ClassAnalysis.methods (analysis st)))) /\
  inLocalVariableTable st' = false /\
  methodParameters st' = ∅.
Proof.
  intros (Hsig & Hm & Hbody & Hheader & Hrows & Hclose). cbv zeta.
  set (before := ClassAnalysis.methods (analysis st)).
  change (sig :: body ++ header :: rows ++ [close])
    with ([sig] ++ body ++ [header] ++ rows ++ [close]).
  rewrite !scanLines_app.
  change (scanLines st [sig]) with (processLine st sig).
  rewrite (processLine_signature st sig m Hsig Hm). fold before.
  match goal with
  | |- context [scanLines ?s1 body] => rewrite (scanLines_body body s1) by exact Hbody
  end.
  match goal with
  | |- context [scanLines ?s1 [header]] =>
      change (scanLines s1 [header]) with (processLine s1 header)
  end.
  rewrite (processLine_table_start _ _ Hheader). simpl.
  rewrite (scanLines_rows rows _ (length before)) by done. simpl.
  assert (Hcount : parameterCount
                     (ClassAnalysis.withMethods (analysis st) (before ++ [m]))
                     (length before)
                   = length (ClassMethod.parameters m)).
  { unfold parameterCount. destruct (analysis st); simpl.
    by rewrite lookup_app_r, Nat.sub_diag by lia. }
  rewrite Hcount. unfold withNames. simpl.
  pose proof (omap_tableEntry_names rows) as Hnames.
  assert (Hmethods : ClassAnalysis.methods
                       (ClassAnalysis.withMethods (analysis st) (before ++ [m]))
                     = before ++ [m]) by (by destruct (analysis st)).
  unfold endsTable in Hclose.
  destruct (endsMethod close) eqn:Hend.
  - rewrite (processLine_ends _ close (length before)) by done. simpl.
    by rewrite (updateParameterNames_last _ before m).
  - rewrite orb_false_r in Hclose. apply String.eqb_eq in Hclose.
    rewrite (processLine_table_end _ close (length before)) by done. simpl.
    by rewrite (updateParameterNames_last _ before m).
Qed.

Lemma updateParameterNames_keeps (base more : list ClassMethod.t)
    (names : gmap nat string) (cur : nat) (a : ClassAnalysis.t) :
  ClassAnalysis.methods a = base ++ more -> length base <= cur ->
  exists more', ClassAnalysis.methods (updateParameterNames names cur a) = base ++ more'.
Proof.
  intros Hm Hcur. unfold updateParameterNames.
  destruct (0 <? size names)%nat; [|by exists more].
  destruct a; simpl in *. subst. rewrite alter_app_r_alt by done. by eexists.
Qed.

Lemma endOfMethod_keeps (base : list ClassMethod.t) (t : string) (st : ParserState) :
  keepsMethods base st -> keepsMethods base (endOfMethod t st).
Proof.
  intros Hk. pose proof Hk as [[more Hm] Hcur]. unfold endOfMethod.
  destruct (currentMethod st) as [cur|] eqn:Hc; [|exact Hk].
  destruct (_ || _ || _); [|exact Hk].
  split; [|done]. simpl. eapply updateParameterNames_keeps; [exact Hm|by apply Hcur].
Qed.

Lemma recordParameterName_keeps (base : list ClassMethod.t) (t : string) (cur : nat)
    (st : ParserState) :
  keepsMethods base st -> keepsMethods base (recordParameterName t cur st).
Proof.
  intros H. unfold recordParameterName.
  destruct (Regex.matchParamLine t) as [[[slot name] ty]|]; [|done].
  by destruct (_ && _).
Qed.

Lemma processLine_keeps (base : list ClassMethod.t) (st : ParserState) (line : string) :
  keepsMethods base st -> keepsMethods base (processLine st line).
Proof.
  intros Hk. pose proof Hk as [[more Hm] Hle].
  processLine_cases st line.
  - split; [|done]. simpl. rewrite methods_parseClassDeclaration. by exists more.
  - split; simpl.
    + exists (more ++ [m]). destruct (analysis st); simpl in *. subst.
      by rewrite app_assoc.
    + intros ? [= <-]. rewrite Hm, length_app. lia.
  - split; [by exists more|done].
  - split; [by exists more|done].
  - done.
  - split; simpl; [|done].
    eapply updateParameterNames_keeps; [exact Hm|by apply Hle].
  - by apply endOfMethod_keeps, recordParameterName_keeps.
  - by apply endOfMethod_keeps.
  - by apply endOfMethod_keeps.
Qed.

Lemma scanLines_keeps (base : list ClassMethod.t) (lines : list string) (st : ParserState) :
  keepsMethods base st -> keepsMethods base (scanLines st lines).
Proof.
  apply (scanLines_invariant (keepsMethods base)). intros s l. apply processLine_keeps.
Qed.

Lemma length_methods_scanLines (className : string) (lines : list string) :
  length (ClassAnalysis.methods (analysis (scanLines (initialState className) lines)))
  = length (declaredMethods lines).
Proof.
  symmetry. eapply Forall2_length.
  apply (follows_scanLines lines (initialState className) []). constructor.
Qed.

Lemma processLine_failed_signature (st : ParserState) (sig : string) :
  isSignatureLine (JS.trim sig) = true ->
  parseMethodFromJavap (JS.trim sig) = None ->
  ClassAnalysis.methods (analysis (processLine st sig)) = ClassAnalysis.methods (analysis st) /\
  currentMethod (processLine st sig) = None.
Proof.
  unfold isSignatureLine. intros Hsig Hm.
  apply andb_true_iff in Hsig as [Hc Hl]. apply negb_true_iff in Hc.
  unfold processLine. by rewrite Hc, Hl, Hm.
Qed.

(** A method block inside a text. *)
Lemma parseJavapOutput_method_block (output className : string) (pre : list string)
    (sig : string) (m : ClassMethod.t) (body : list string) (header : string)
    (rows : list string) (close : string) (post : list string) :
  JS.split "010"%char output = pre ++ sig :: body ++ header :: rows ++ close :: post ->
  isMethodBlock (inLocalVariableTable (scanLines (initialState className) pre))
    sig m body header rows close ->
  methodIsOver close post ->
  ClassAnalysis.methods (parseJavapOutput output className) !! length (declaredMethods pre)
  = Some (methodAfterTable m (omap tableEntry rows)).
Proof.
  intros Hsplit Hblock Hover. unfold parseJavapOutput. rewrite Hsplit.
  assert (Hlines : pre ++ sig :: body ++ header :: rows ++ close :: post
                   = pre ++ (sig :: body ++ header :: rows ++ [close]) ++ post).
  { f_equal. simpl. f_equal. rewrite <- app_assoc. f_equal. simpl. f_equal.
    by rewrite <- app_assoc. }
  rewrite Hlines.
  rewrite !scanLines_app. rewrite <- (length_methods_scanLines className pre).
  set (st := scanLines (initialState className) pre) in *.
  destruct (scanLines_method_block st sig m body header rows close Hblock)
    as (Hm & Hcur & _ & _).
  set (st' := scanLines st (sig :: body ++ header :: rows ++ [close])) in *.
  set (m' := methodAfterTable m (omap tableEntry rows)) in *.
  assert (Hlookup : forall s,
            keepsMethods (ClassAnalysis.methods (analysis st) ++ [m']) s ->
            ClassAnalysis.methods (analysis s) !! length (ClassAnalysis.methods (analysis st))
            = Some m').
  { intros s [[more Hs] _]. rewrite Hs, <- app_assoc.
    by rewrite lookup_app_r, Nat.sub_diag by lia. }
  destruct Hover as [Hend|Hnext].
  - apply Hlookup, scanLines_keeps. split; [exists []; rewrite app_nil_r; exact Hm|].
    by rewrite Hcur, Hend.
  - destruct post as [|next rest].
    + simpl. rewrite Hm. by rewrite lookup_app_r, Nat.sub_diag by lia.
    + change (next :: rest) with ([next] ++ rest). rewrite scanLines_app.
      change (scanLines st' [next]) with (processLine st' next).
      apply Hlookup, scanLines_keeps.
      destruct (parseMethodFromJavap (JS.trim next)) as [m2|] eqn:Hparse.
      * rewrite (processLine_signature st' next m2 Hnext Hparse). split; simpl.
        -- exists [m2]. destruct (analysis st'); simpl in *. by rewrite Hm.
        -- intros ? [= <-]. by rewrite Hm.
      * destruct (processLine_failed_signature st' next Hnext Hparse) as [Hsame Hnone].
        split; [exists []; rewrite app_nil_r; by rewrite Hsame|by rewrite Hnone].
Qed.

(** C1, as the scanner has it.  In every parse result the parameters of a
    method are the bare types of its signature or were all rewritten
    together, so that they are all bare or all named.  The reconciliation
    is guarded by a pending name: for the block of a method (its
    signature, lines that change nothing, the header of its variable
    table, the lines of the table and a blank line, a closing brace or the
    [SourceFile:] trailer), read from any state of the scanner, the method
    is appended after the methods already there, which do not change; it
    is renamed when, and only when, the table has an entry with a slot
    below the parameter count, and every descriptor then gets the name of
    the last entry of the table for its position, or [param] with the
    1-based position.  When the block ends the method, or a signature line
    or the end of the text follows it, this is the method of the returned
    analysis.  In a text without header of a variable table no
    reconciliation rewrites anything and every method keeps its bare
    types. *)
Theorem parameters_bare_or_all_named :
  (forall output className : string,
     Forall2 follows (declaredMethods (JS.split "010"%char output))
       (ClassAnalysis.methods (parseJavapOutput output className)) /\
     Forall2
       (fun m0 m =>
          ClassMethod.parameters m = ClassMethod.parameters m0 \/
          (length (ClassMethod.parameters m) = length (ClassMethod.parameters m0) /\
           Forall namedDescriptor (ClassMethod.parameters m)))
       (declaredMethods (JS.split "010"%char output))
       (ClassAnalysis.methods (parseJavapOutput output className))) /\
  (forall (st : ParserState) (sig : string) (m : ClassMethod.t) (body : list string)
          (header : string) (rows : list string) (close : string),
     isMethodBlock (inLocalVariableTable st) sig m body header rows close ->
     let st' := scanLines st (sig :: body ++ header :: rows ++ [close]) in
     ClassAnalysis.methods (analysis st')
     = ClassAnalysis.methods (analysis st) ++ [methodAfterTable m (omap tableEntry rows)] /\
     currentMethod st'
     = (if endsMethod close then None
        else Some (length (ClassAnalysis.methods (analysis st)))) /\
     inLocalVariableTable st' = false /\
     methodParameters st' = ∅) /\
  (forall (output className : string) (pre : list string) (sig : string)
          (m : ClassMethod.t) (body : list string) (header : string)
          (rows : list string) (close : string) (post : list string),
     JS.split "010"%char output = pre ++ sig :: body ++ header :: rows ++ close :: post ->
     isMethodBlock (inLocalVariableTable (scanLines (initialState className) pre))
       sig m body header rows close ->
     methodIsOver close post ->
     ClassAnalysis.methods (parseJavapOutput output className) !! length (declaredMethods pre)
     = Some (methodAfterTable m (omap tableEntry rows))) /\
  (forall output className : string,
     Forall (fun l => JS.trim l <> "LocalVariableTable:") (JS.split "010"%char output) ->
     ClassAnalysis.methods (parseJavapOutput output className)
     = declaredMethods (JS.split "010"%char output)).
Proof.
  split; [|split; [|split]].
  - intros output className. split; [apply parseJavapOutput_follows|].
    eapply Forall2_impl; [apply parseJavapOutput_follows|].
    intros m0 m (_ & _ & _ & Hp).
    destruct (bareOrRewritten_named _ _ Hp) as [Hb|Hn]; [by left|right].
    split; [by apply bareOrRewritten_length|exact Hn].
  - intros st sig m body header rows close Hblock.
    exact (scanLines_method_block st sig m body header rows close Hblock).
  - intros output className pre sig m body header rows close post.
    apply parseJavapOutput_method_block.
  - intros output className Hall. unfold parseJavapOutput.
    by rewrite (scanLines_without_table _ (initialState className) Hall).
Qed.

Lemma blockExample_isMethodBlock (close : string) :
  endsTable close = true ->
  isMethodBlock false blockSignature blockMethod blockBody blockHeader blockRows close.
Proof.
  intros Hclose. split; [reflexivity|]. split; [reflexivity|]. split; [|split; [|split]].
  - repeat (constructor;
            [split; [reflexivity|split; [intros H; vm_compute in H; discriminate
                                        |discriminate]]|]).
    constructor.
  - reflexivity.
  - repeat (constructor; [reflexivity|]). constructor.
  - exact Hclose.
Defined.

Lemma parameters_bare_or_all_named_witness :
  ClassAnalysis.methods
    (analysis
       (scanLines (initialState "Foo")
          (blockSignature :: blockBody ++ blockHeader :: blockRows ++ [EmptyString])))
  = [] ++ [methodAfterTable blockMethod (omap tableEntry blockRows)] /\
  ClassAnalysis.methods
    (parseJavapOutput
       (text ("public class Foo {"
              :: blockSignature :: blockBody ++ blockHeader :: blockRows
                 ++ EmptyString :: ["  public void g();"; "}"])) "Foo")
    !! length (declaredMethods ["public class Foo {"])
  = Some (methodAfterTable blockMethod (omap tableEntry blockRows)) /\
  ClassAnalysis.methods (parseJavapOutput (text ["public void f(int);"; "}"]) "Foo")
  = declaredMethods (JS.split "010"%char (text ["public void f(int);"; "}"])).
Proof.
  split; [|split].
  - exact (proj1 (proj1 (proj2 parameters_bare_or_all_named)
                    (initialState "Foo") blockSignature blockMethod blockBody
                    blockHeader blockRows EmptyString
                    (blockExample_isMethodBlock EmptyString eq_refl))).
  - apply (proj1 (proj2 (proj2 parameters_bare_or_all_named))
             _ "Foo" ["public class Foo {"] blockSignature blockMethod blockBody
             blockHeader blockRows EmptyString ["  public void g();"; "}"]).
    + vm_compute. reflexivity.
    + exact (blockExample_isMethodBlock EmptyString eq_refl).
    + right. reflexivity.
  - apply (proj2 (proj2 (proj2 parameters_bare_or_all_named))
             (text ["public void f(int);"; "}"]) "Foo").
    repeat constructor; discriminate.
Defined.

(** The block of the example: the table names the receiver in slot 0, so
    the first parameter takes its name, and the entry of the last
    parameter, in slot 2, is out of range. *)
Example method_block_example :
  methodAfterTable blockMethod (omap tableEntry blockRows)
  = {| ClassMethod.name := "f"; ClassMethod.returnType := "void";
       ClassMethod.parameters := ["int this"; "long a"];
       ClassMethod.modifiers := ["public"] |} /\
  map ClassMethod.parameters
    (ClassAnalysis.methods
       (parseJavapOutput
          (text ("public class Foo {"
                 :: blockSignature :: blockBody ++ blockHeader :: blockRows
                    ++ EmptyString :: ["  public void g();"; "}"])) "Foo"))
  = [["int this"; "long a"]; []].
Proof. split; vm_compute; reflexivity. Qed.

(** A method without variable table of its own does not always keep its
    bare types: the table of a constructor, which the extraction drops,
    leaves the scanner inside a table, and the exception table of the next
    method is then read as its variable table. *)
Example stale_table_example :
  map ClassMethod.parameters
    (ClassAnalysis.methods
       (parseJavapOutput
          (text ["public class Foo {"; "  public Foo();"; "    LocalVariableTable:";
                 "      Start  Length  Slot  Name   Signature";
                 "          0       5     0  this   LFoo;"; "";
                 "  public void g(int, int);"; "    Exception table:";
                 "       from    to  target type";
                 "           0     4     1   Class java/lang/Exception"; "}"]) "Foo"))
  = [["int param1"; "int Class"]].
Proof. vm_compute. reflexivity. Qed.

(** ** Declaration lines with a second modifier *)

Lemma trimEnd_snoc_nonspace (s : string) (c : ascii) :
  JS.isSpace c = false ->
  JS.trimEnd (s +:+ String c EmptyString) = s +:+ String c EmptyString.
Proof.
  intros Hc. induction s as [|a s IH]; [simpl; by rewrite Hc|].
  change (String a s +:+ String c EmptyString) with (String a (s +:+ String c EmptyString)).
  simpl JS.trimEnd. rewrite IH. by destruct s.
Qed.

Lemma secondModifier_not_handed_over (word rest : string) :
  In word ["final"; "abstract"; "static"; "strictfp"] ->
  isClassDeclarationLine (JS.trim ("public " +:+ word +:+ " class " +:+ rest +:+ "{")) = false.
Proof.
  intros Hword.
  assert (Htrim : JS.trim ("public " +:+ word +:+ " class " +:+ rest +:+ "{")
                  = "public " +:+ word +:+ " class " +:+ rest +:+ "{").
  { unfold JS.trim.
    change (JS.trimStart ("public " +:+ word +:+ " class " +:+ rest +:+ "{"))
      with ("public " +:+ word +:+ " class " +:+ rest +:+ "{").
    assert (Hassoc : "public " +:+ word +:+ " class " +:+ rest +:+ "{"
                     = ("public " +:+ word +:+ " class " +:+ rest) +:+ "{")
      by (by rewrite !append_assoc).
    rewrite Hassoc. by apply trimEnd_snoc_nonspace. }
  rewrite Htrim. simpl in Hword.
  destruct Hword as [<-|[<-|[<-|[<-|[]]]]]; reflexivity.
Qed.

(** C8, on the code: the line [public final class p.A extends p.B
    implements p.I {] has the modifiers [public] and [final], and the
    declaration extraction finds them, with the package, the superclass
    and the interface; but the scanner hands a line over to the extraction
    only when [class], [interface] or [enum] comes right after [public],
    so the declaration of the result keeps its defaults.  The same holds
    for every line in which [final], [abstract], [static] or [strictfp]
    stands between [public] and [class]. *)
Theorem declaration_with_second_modifier_missed :
  let line := "public final class p.A extends p.B implements p.I {" in
  List.filter isClassModifier (tokens line) = ["public"; "final"] /\
  declaration (parseClassDeclaration line (initialAnalysis "p.A"))
  = ("A", "p", ["public"; "final"], Some "p.B", ["p.I"]) /\
  isClassDeclarationLine (JS.trim line) = false /\
  declaration (parseJavapOutput (text [line; "}"]) "p.A")
  = ("A", EmptyString, [], None, []) /\
  (forall (st : ParserState) (rest : string),
     Forall
       (fun word =>
          declaration
            (analysis (processLine st ("public " +:+ word +:+ " class " +:+ rest +:+ "{")))
          = declaration (analysis st))
       ["final"; "abstract"; "static"; "strictfp"]).
Proof.
  cbv zeta. split; [vm_compute; reflexivity|]. split; [vm_compute; reflexivity|].
  split; [vm_compute; reflexivity|]. split; [vm_compute; reflexivity|].
  intros st rest. apply Forall_forall. intros word Hword.
  apply declaration_processLine, secondModifier_not_handed_over.
  by apply list_elem_of_In.
Qed.
